(** * Test-data builders and factory of the Playwright framework

    A shallow embedding of the data-construction layer of the repository:
    [utils/random.ts], [data/models/user.ts], the four builders under
    [data/builders/] and [data/factories/testDataFactory.ts].

    JavaScript numbers are IEEE 754 binary64 values and are modelled by
    Rocq's primitive floats; strings are [string]; an optional property
    ([phone?], a field of a [Partial<T>]) is an [option].  The faker
    library keeps one process-wide generator: calls to it are written in a
    state monad over the generator state. *)

From Stdlib Require Import String Ascii List Bool ZArith Uint63 Floats Lia.
Import ListNotations.

Set Warnings "-inexact-float".

Open Scope string_scope.

(** * JavaScript runtime notions used by the sources *)

Module Js.

Definition number := float.

(** [c.toUpperCase()] on one ASCII character. *)
Definition upperChar (c : ascii) : ascii :=
    let n := nat_of_ascii c in
    if andb (Nat.leb 97 n) (Nat.leb n 122) then ascii_of_nat (n - 32) else c.

(** [s.toUpperCase()], on the ASCII strings the builders apply it to. *)
Fixpoint toUpperCase (s : string) : string :=
    match s with
    | EmptyString => EmptyString
    | String c r => String (upperChar c) (toUpperCase r)
    end.

(** Truthiness of a string in a condition: every string but [''] . *)
Definition truthyString (s : string) : bool :=
    match s with
    | EmptyString => false
    | String _ _ => true
    end.

(** Truthiness of a number: every number but [0], [-0] and [NaN]. *)
Definition truthyNumber (x : number) : bool :=
    negb (PrimFloat.eqb x 0%float || PrimFloat.is_nan x).

(** [a ?? b] where [b] is a plain value. *)
Definition nullish {A} (a : option A) (b : A) : A :=
    match a with
    | Some v => v
    | None => b
    end.

Definition isDigit (c : ascii) : bool :=
    let n := nat_of_ascii c in andb (Nat.leb 48 n) (Nat.leb n 57).

End Js.

(** * State monad over the generator *)

Definition Rand (G A : Type) : Type := G -> A * G.

Definition ret {G A} (a : A) : Rand G A := fun g => (a, g).

Definition bind {G A B} (m : Rand G A) (k : A -> Rand G B) : Rand G B :=
  fun g => k (fst (m g)) (snd (m g)).

Declare Scope rand_scope.
Delimit Scope rand_scope with rand.
Notation "x <- m ;; k" := (bind m (fun x => k))
  (at level 61, m at next level, right associativity) : rand_scope.

(** [a ?? e] where evaluating [e] draws from the generator: [e] runs only
    when [a] is null or undefined. *)
Definition orElse {G A} (a : option A) (e : Rand G A) : Rand G A :=
  match a with
  | Some v => ret v
  | None => e
  end.

(** * The collaborators outside the repository

    [@faker-js/faker] with its process-wide generator state [Gen], and the
    runtime's [parseFloat].  Each faker call reads the generator state and
    leaves a new one; [seed n] is the state [faker.seed(n)] installs. *)

Record Faker : Type := {
  Gen : Type;
  seed : Js.number -> Gen;
  person_firstName : Rand Gen string;
  person_lastName : Rand Gen string;
  internet_email : Rand Gen string;
  internet_password : option nat -> Rand Gen string;
  phone_number : string -> Rand Gen string;
  commerce_productName : Rand Gen string;
  commerce_productDescription : Rand Gen string;
  commerce_price : Js.number -> Js.number -> Rand Gen string;
  commerce_department : Rand Gen string;
  string_alphanumeric : nat -> Rand Gen string;
  datatype_boolean : Rand Gen bool;
  number_int : Js.number -> Js.number -> Rand Gen Js.number;
  location_streetAddress : Rand Gen string;
  location_city : Rand Gen string;
  location_state : bool -> Rand Gen string;
  location_zipCode : Rand Gen string;
  location_country : Rand Gen string;
  parseFloat : string -> Js.number
}.

(** * utils/random.ts *)

Module Random.
Section WithFaker.
Context (F : Faker).
Local Open Scope rand_scope.

(** [setSeed(seed)]: [faker.seed(seed)], whatever the state was. *)
Definition setSeed (s : Js.number) : Rand (Gen F) unit :=
    fun _ => (tt, seed F s).

Definition randomEmail : Rand (Gen F) string := internet_email F.

Definition phoneFormat : string := "###-###-####".

Definition randomPhone : Rand (Gen F) string := phone_number F phoneFormat.

End WithFaker.
End Random.

(** * data/models/user.ts *)

Module UserModel.

Record User : Type := {
    firstName : string;
    lastName : string;
    email : string;
    password : string;
    phone : option string
  }.

End UserModel.

(** * data/builders/userBuilder.ts *)

Module UserBuilder.

(** [Partial<User>], the builder's only field. *)
Record t : Type := {
    p_firstName : option string;
    p_lastName : option string;
    p_email : option string;
    p_password : option string;
    p_phone : option string
  }.

(** [new UserBuilder()]: [user = {}]. *)
Definition new : t :=
    {| p_firstName := None; p_lastName := None; p_email := None;
       p_password := None; p_phone := None |}.

Definition withEmail (email : string) (b : t) : t :=
    {| p_firstName := p_firstName b; p_lastName := p_lastName b;
       p_email := Some email; p_password := p_password b;
       p_phone := p_phone b |}.

Definition withPassword (password : string) (b : t) : t :=
    {| p_firstName := p_firstName b; p_lastName := p_lastName b;
       p_email := p_email b; p_password := Some password;
       p_phone := p_phone b |}.

Definition withFirstName (firstName : string) (b : t) : t :=
    {| p_firstName := Some firstName; p_lastName := p_lastName b;
       p_email := p_email b; p_password := p_password b;
       p_phone := p_phone b |}.

Definition withLastName (lastName : string) (b : t) : t :=
    {| p_firstName := p_firstName b; p_lastName := Some lastName;
       p_email := p_email b; p_password := p_password b;
       p_phone := p_phone b |}.

Definition withPhone (phone : string) (b : t) : t :=
    {| p_firstName := p_firstName b; p_lastName := p_lastName b;
       p_email := p_email b; p_password := p_password b;
       p_phone := Some phone |}.

(** The fluent calls a caller can chain before [build()]. *)
Inductive Call : Type :=
  | WithEmail (email : string)
  | WithPassword (password : string)
  | WithFirstName (firstName : string)
  | WithLastName (lastName : string)
  | WithPhone (phone : string).

Definition invoke (c : Call) (b : t) : t :=
    match c with
    | WithEmail v => withEmail v b
    | WithPassword v => withPassword v b
    | WithFirstName v => withFirstName v b
    | WithLastName v => withLastName v b
    | WithPhone v => withPhone v b
    end.

Definition chain (calls : list Call) (b : t) : t :=
    fold_left (fun acc c => invoke c acc) calls b.

Definition asEmail (c : Call) : option string :=
    match c with WithEmail v => Some v | _ => None end.
Definition asPassword (c : Call) : option string :=
    match c with WithPassword v => Some v | _ => None end.
Definition asFirstName (c : Call) : option string :=
    match c with WithFirstName v => Some v | _ => None end.
Definition asLastName (c : Call) : option string :=
    match c with WithLastName v => Some v | _ => None end.
Definition asPhone (c : Call) : option string :=
    match c with WithPhone v => Some v | _ => None end.

Section WithFaker.
Context (F : Faker).
Local Open Scope rand_scope.

(** [build()]: the object literal's properties are evaluated in source
      order, each default drawn only when the override is missing. *)
Definition build (b : t) : Rand (Gen F) UserModel.User :=
    firstName <- orElse (p_firstName b) (person_firstName F) ;;
    lastName <- orElse (p_lastName b) (person_lastName F) ;;
    email <- orElse (p_email b) (internet_email F) ;;
    password <- orElse (p_password b) (internet_password F (Some 12)) ;;
    ret {| UserModel.firstName := firstName;
           UserModel.lastName := lastName;
           UserModel.email := email;
           UserModel.password := password;
           UserModel.phone := p_phone b |}.

End WithFaker.
End UserBuilder.

(** * data/builders/addressBuilder.ts *)

Module AddressBuilder.

Record Address : Type := {
  street : string;
  city : string;
  state : string;
  zipCode : string;
  country : string
}.

(** [Partial<Address>], the builder's only field. *)
Record t : Type := {
  p_street : option string;
  p_city : option string;
  p_state : option string;
  p_zipCode : option string;
  p_country : option string
}.

Definition new : t :=
  {| p_street := None; p_city := None; p_state := None;
     p_zipCode := None; p_country := None |}.

Definition withStreet (street : string) (b : t) : t :=
  {| p_street := Some street; p_city := p_city b; p_state := p_state b;
     p_zipCode := p_zipCode b; p_country := p_country b |}.

Definition withCity (city : string) (b : t) : t :=
  {| p_street := p_street b; p_city := Some city; p_state := p_state b;
     p_zipCode := p_zipCode b; p_country := p_country b |}.

Definition withState (state : string) (b : t) : t :=
  {| p_street := p_street b; p_city := p_city b; p_state := Some state;
     p_zipCode := p_zipCode b; p_country := p_country b |}.

Definition withZipCode (zipCode : string) (b : t) : t :=
  {| p_street := p_street b; p_city := p_city b; p_state := p_state b;
     p_zipCode := Some zipCode; p_country := p_country b |}.

Definition withCountry (country : string) (b : t) : t :=
  {| p_street := p_street b; p_city := p_city b; p_state := p_state b;
     p_zipCode := p_zipCode b; p_country := Some country |}.

(** [reset()]: [this.address = {}]. *)
Definition reset (b : t) : t := new.

Inductive Call : Type :=
| WithStreet (street : string)
| WithCity (city : string)
| WithState (state : string)
| WithZipCode (zipCode : string)
| WithCountry (country : string).

Definition invoke (c : Call) (b : t) : t :=
  match c with
  | WithStreet v => withStreet v b
  | WithCity v => withCity v b
  | WithState v => withState v b
  | WithZipCode v => withZipCode v b
  | WithCountry v => withCountry v b
  end.

Definition chain (calls : list Call) (b : t) : t :=
  fold_left (fun acc c => invoke c acc) calls b.

Definition asStreet (c : Call) : option string :=
  match c with WithStreet v => Some v | _ => None end.
Definition asCity (c : Call) : option string :=
  match c with WithCity v => Some v | _ => None end.
Definition asState (c : Call) : option string :=
  match c with WithState v => Some v | _ => None end.
Definition asZipCode (c : Call) : option string :=
  match c with WithZipCode v => Some v | _ => None end.
Definition asCountry (c : Call) : option string :=
  match c with WithCountry v => Some v | _ => None end.

Section WithFaker.
Context (F : Faker).
Local Open Scope rand_scope.

(** [buildUS()]: abbreviated state, and ['United States'] where no country
    was given. *)
Definition buildUS (b : t) : Rand (Gen F) Address :=
  street <- orElse (p_street b) (location_streetAddress F) ;;
  city <- orElse (p_city b) (location_city F) ;;
  state <- orElse (p_state b) (location_state F true) ;;
  zipCode <- orElse (p_zipCode b) (location_zipCode F) ;;
  ret {| street := street; city := city; state := state;
         zipCode := zipCode;
         country := Js.nullish (p_country b) "United States" |}.

Definition build (b : t) : Rand (Gen F) Address :=
  street <- orElse (p_street b) (location_streetAddress F) ;;
  city <- orElse (p_city b) (location_city F) ;;
  state <- orElse (p_state b) (location_state F false) ;;
  zipCode <- orElse (p_zipCode b) (location_zipCode F) ;;
  country <- orElse (p_country b) (location_country F) ;;
  ret {| street := street; city := city; state := state;
         zipCode := zipCode; country := country |}.

End WithFaker.
End AddressBuilder.

(** * data/builders/productBuilder.ts *)

Module ProductBuilder.

Record Product : Type := {
  name : string;
  description : string;
  price : Js.number;
  sku : string;
  category : string;
  inStock : bool;
  quantity : option Js.number
}.

(** [Partial<Product>], the builder's only field. *)
Record t : Type := {
  p_name : option string;
  p_description : option string;
  p_price : option Js.number;
  p_sku : option string;
  p_category : option string;
  p_inStock : option bool;
  p_quantity : option Js.number
}.

Definition new : t :=
  {| p_name := None; p_description := None; p_price := None;
     p_sku := None; p_category := None; p_inStock := None;
     p_quantity := None |}.

Definition withName (name : string) (b : t) : t :=
  {| p_name := Some name; p_description := p_description b;
     p_price := p_price b; p_sku := p_sku b; p_category := p_category b;
     p_inStock := p_inStock b; p_quantity := p_quantity b |}.

Definition withDescription (description : string) (b : t) : t :=
  {| p_name := p_name b; p_description := Some description;
     p_price := p_price b; p_sku := p_sku b; p_category := p_category b;
     p_inStock := p_inStock b; p_quantity := p_quantity b |}.

Definition withPrice (price : Js.number) (b : t) : t :=
  {| p_name := p_name b; p_description := p_description b;
     p_price := Some price; p_sku := p_sku b; p_category := p_category b;
     p_inStock := p_inStock b; p_quantity := p_quantity b |}.

Definition withSku (sku : string) (b : t) : t :=
  {| p_name := p_name b; p_description := p_description b;
     p_price := p_price b; p_sku := Some sku; p_category := p_category b;
     p_inStock := p_inStock b; p_quantity := p_quantity b |}.

Definition withCategory (category : string) (b : t) : t :=
  {| p_name := p_name b; p_description := p_description b;
     p_price := p_price b; p_sku := p_sku b; p_category := Some category;
     p_inStock := p_inStock b; p_quantity := p_quantity b |}.

Definition withStockStatus (inStock : bool) (b : t) : t :=
  {| p_name := p_name b; p_description := p_description b;
     p_price := p_price b; p_sku := p_sku b; p_category := p_category b;
     p_inStock := Some inStock; p_quantity := p_quantity b |}.

Definition withQuantity (quantity : Js.number) (b : t) : t :=
  {| p_name := p_name b; p_description := p_description b;
     p_price := p_price b; p_sku := p_sku b; p_category := p_category b;
     p_inStock := p_inStock b; p_quantity := Some quantity |}.

(** [reset()]: [this.product = {}]. *)
Definition reset (b : t) : t := new.

Inductive Call : Type :=
| WithName (name : string)
| WithDescription (description : string)
| WithPrice (price : Js.number)
| WithSku (sku : string)
| WithCategory (category : string)
| WithStockStatus (inStock : bool)
| WithQuantity (quantity : Js.number).

Definition invoke (c : Call) (b : t) : t :=
  match c with
  | WithName v => withName v b
  | WithDescription v => withDescription v b
  | WithPrice v => withPrice v b
  | WithSku v => withSku v b
  | WithCategory v => withCategory v b
  | WithStockStatus v => withStockStatus v b
  | WithQuantity v => withQuantity v b
  end.

Definition chain (calls : list Call) (b : t) : t :=
  fold_left (fun acc c => invoke c acc) calls b.

Definition asName (c : Call) : option string :=
  match c with WithName v => Some v | _ => None end.
Definition asDescription (c : Call) : option string :=
  match c with WithDescription v => Some v | _ => None end.
Definition asPrice (c : Call) : option Js.number :=
  match c with WithPrice v => Some v | _ => None end.
Definition asSku (c : Call) : option string :=
  match c with WithSku v => Some v | _ => None end.
Definition asCategory (c : Call) : option string :=
  match c with WithCategory v => Some v | _ => None end.
Definition asStockStatus (c : Call) : option bool :=
  match c with WithStockStatus v => Some v | _ => None end.
Definition asQuantity (c : Call) : option Js.number :=
  match c with WithQuantity v => Some v | _ => None end.

Section WithFaker.
Context (F : Faker).
Local Open Scope rand_scope.

(** [faker.string.alphanumeric(n).toUpperCase()]. *)
Definition upperAlphanumeric (n : nat) : Rand (Gen F) string :=
  s <- string_alphanumeric F n ;; ret (Js.toUpperCase s).

(** [parseFloat(faker.commerce.price({ min, max }))]. *)
Definition parsedPrice (min max : Js.number) : Rand (Gen F) Js.number :=
  s <- commerce_price F min max ;; ret (parseFloat F s).

Definition build (b : t) : Rand (Gen F) Product :=
  name <- orElse (p_name b) (commerce_productName F) ;;
  description <- orElse (p_description b) (commerce_productDescription F) ;;
  price <- orElse (p_price b) (parsedPrice 10%float 1000%float) ;;
  sku <- orElse (p_sku b) (upperAlphanumeric 10) ;;
  category <- orElse (p_category b) (commerce_department F) ;;
  inStock <- orElse (p_inStock b) (datatype_boolean F) ;;
  ret {| name := name; description := description; price := price;
         sku := sku; category := category; inStock := inStock;
         quantity := p_quantity b |}.

(** [buildInStock()] and [buildOutOfStock()] go through [withStockStatus],
    which assigns to the builder: the builder left behind is returned next
    to the product. *)
Definition buildInStock (b : t) : Rand (Gen F) (Product * t) :=
  let this := withStockStatus true b in
  p <- build this ;; ret (p, this).

Definition buildOutOfStock (b : t) : Rand (Gen F) (Product * t) :=
  let this := withStockStatus false b in
  p <- build this ;; ret (p, this).

End WithFaker.
End ProductBuilder.

(** * data/builders/orderBuilder.ts *)

Module OrderBuilder.

Record OrderItem : Type := {
  product : ProductBuilder.Product;
  quantity : Js.number;
  price : Js.number
}.

Inductive Status : Type :=
| pending
| processing
| shipped
| delivered
| cancelled.

Record Order : Type := {
  orderNumber : string;
  user : UserModel.User;
  items : list OrderItem;
  shippingAddress : AddressBuilder.Address;
  billingAddress : option AddressBuilder.Address;
  total : Js.number;
  status : Status;
  paymentMethod : string
}.

(** [Partial<Order>], the builder's only field.  The type has a [total]
    property like [Order]; no method of the builder assigns it. *)
Record t : Type := {
  p_orderNumber : option string;
  p_user : option UserModel.User;
  p_items : option (list OrderItem);
  p_shippingAddress : option AddressBuilder.Address;
  p_billingAddress : option AddressBuilder.Address;
  p_total : option Js.number;
  p_status : option Status;
  p_paymentMethod : option string
}.

Definition new : t :=
  {| p_orderNumber := None; p_user := None; p_items := None;
     p_shippingAddress := None; p_billingAddress := None; p_total := None;
     p_status := None; p_paymentMethod := None |}.

Definition withOrderNumber (orderNumber : string) (b : t) : t :=
  {| p_orderNumber := Some orderNumber; p_user := p_user b;
     p_items := p_items b; p_shippingAddress := p_shippingAddress b;
     p_billingAddress := p_billingAddress b; p_total := p_total b;
     p_status := p_status b; p_paymentMethod := p_paymentMethod b |}.

Definition withUser (user : UserModel.User) (b : t) : t :=
  {| p_orderNumber := p_orderNumber b; p_user := Some user;
     p_items := p_items b; p_shippingAddress := p_shippingAddress b;
     p_billingAddress := p_billingAddress b; p_total := p_total b;
     p_status := p_status b; p_paymentMethod := p_paymentMethod b |}.

Definition withItems (items : list OrderItem) (b : t) : t :=
  {| p_orderNumber := p_orderNumber b; p_user := p_user b;
     p_items := Some items; p_shippingAddress := p_shippingAddress b;
     p_billingAddress := p_billingAddress b; p_total := p_total b;
     p_status := p_status b; p_paymentMethod := p_paymentMethod b |}.

Definition withShippingAddress (address : AddressBuilder.Address) (b : t) : t :=
  {| p_orderNumber := p_orderNumber b; p_user := p_user b;
     p_items := p_items b; p_shippingAddress := Some address;
     p_billingAddress := p_billingAddress b; p_total := p_total b;
     p_status := p_status b; p_paymentMethod := p_paymentMethod b |}.

Definition withBillingAddress (address : AddressBuilder.Address) (b : t) : t :=
  {| p_orderNumber := p_orderNumber b; p_user := p_user b;
     p_items := p_items b; p_shippingAddress := p_shippingAddress b;
     p_billingAddress := Some address; p_total := p_total b;
     p_status := p_status b; p_paymentMethod := p_paymentMethod b |}.

Definition withStatus (status : Status) (b : t) : t :=
  {| p_orderNumber := p_orderNumber b; p_user := p_user b;
     p_items := p_items b; p_shippingAddress := p_shippingAddress b;
     p_billingAddress := p_billingAddress b; p_total := p_total b;
     p_status := Some status; p_paymentMethod := p_paymentMethod b |}.

Definition withPaymentMethod (method : string) (b : t) : t :=
  {| p_orderNumber := p_orderNumber b; p_user := p_user b;
     p_items := p_items b; p_shippingAddress := p_shippingAddress b;
     p_billingAddress := p_billingAddress b; p_total := p_total b;
     p_status := p_status b; p_paymentMethod := Some method |}.

(** [reset()]: [this.order = {}]. *)
Definition reset (b : t) : t := new.

Inductive Call : Type :=
| WithOrderNumber (orderNumber : string)
| WithUser (user : UserModel.User)
| WithItems (items : list OrderItem)
| WithShippingAddress (address : AddressBuilder.Address)
| WithBillingAddress (address : AddressBuilder.Address)
| WithStatus (status : Status)
| WithPaymentMethod (method : string).

Definition invoke (c : Call) (b : t) : t :=
  match c with
  | WithOrderNumber v => withOrderNumber v b
  | WithUser v => withUser v b
  | WithItems v => withItems v b
  | WithShippingAddress v => withShippingAddress v b
  | WithBillingAddress v => withBillingAddress v b
  | WithStatus v => withStatus v b
  | WithPaymentMethod v => withPaymentMethod v b
  end.

Definition chain (calls : list Call) (b : t) : t :=
  fold_left (fun acc c => invoke c acc) calls b.

Definition asOrderNumber (c : Call) : option string :=
  match c with WithOrderNumber v => Some v | _ => None end.
Definition asUser (c : Call) : option UserModel.User :=
  match c with WithUser v => Some v | _ => None end.
Definition asItems (c : Call) : option (list OrderItem) :=
  match c with WithItems v => Some v | _ => None end.
Definition asShippingAddress (c : Call) : option AddressBuilder.Address :=
  match c with WithShippingAddress v => Some v | _ => None end.
Definition asBillingAddress (c : Call) : option AddressBuilder.Address :=
  match c with WithBillingAddress v => Some v | _ => None end.
Definition asStatus (c : Call) : option Status :=
  match c with WithStatus v => Some v | _ => None end.
Definition asPaymentMethod (c : Call) : option string :=
  match c with WithPaymentMethod v => Some v | _ => None end.

(** [items.reduce((sum, item) => sum + item.price * item.quantity, 0)]. *)
Definition subtotal (items : list OrderItem) : Js.number :=
  fold_left (fun sum item => (sum + price item * quantity item)%float)
            items 0%float.

(** The item [buildSimple()] passes to [withItems]. *)
Definition simpleItem : OrderItem :=
  {| product :=
       {| ProductBuilder.name := "Test Product";
          ProductBuilder.description := "A test product";
          ProductBuilder.price := 29.99%float;
          ProductBuilder.sku := "TEST-001";
          ProductBuilder.category := "Test";
          ProductBuilder.inStock := true;
          ProductBuilder.quantity := None |};
     quantity := 1%float;
     price := 29.99%float |}.

Section WithFaker.
Context (F : Faker).
Local Open Scope rand_scope.

(** The array literal on the right of [this.order.items ??]: one item,
    its properties drawn in source order. *)
Definition defaultItems : Rand (Gen F) (list OrderItem) :=
  name <- commerce_productName F ;;
  description <- commerce_productDescription F ;;
  productPrice <- ProductBuilder.parsedPrice F 10%float 100%float ;;
  sku <- ProductBuilder.upperAlphanumeric F 10 ;;
  category <- commerce_department F ;;
  quantity <- number_int F 1%float 5%float ;;
  price <- ProductBuilder.parsedPrice F 10%float 100%float ;;
  ret [ {| product :=
             {| ProductBuilder.name := name;
                ProductBuilder.description := description;
                ProductBuilder.price := productPrice;
                ProductBuilder.sku := sku;
                ProductBuilder.category := category;
                ProductBuilder.inStock := true;
                ProductBuilder.quantity := None |};
           quantity := quantity;
           price := price |} ].

(** The object literal on the right of [this.order.user ??]. *)
Definition defaultUser : Rand (Gen F) UserModel.User :=
  firstName <- person_firstName F ;;
  lastName <- person_lastName F ;;
  email <- internet_email F ;;
  password <- internet_password F None ;;
  ret {| UserModel.firstName := firstName;
         UserModel.lastName := lastName;
         UserModel.email := email;
         UserModel.password := password;
         UserModel.phone := None |}.

(** The object literal on the right of [this.order.shippingAddress ??]. *)
Definition defaultShippingAddress : Rand (Gen F) AddressBuilder.Address :=
  street <- location_streetAddress F ;;
  city <- location_city F ;;
  state <- location_state F true ;;
  zipCode <- location_zipCode F ;;
  ret {| AddressBuilder.street := street;
         AddressBuilder.city := city;
         AddressBuilder.state := state;
         AddressBuilder.zipCode := zipCode;
         AddressBuilder.country := "United States" |}.

(** [`ORD-${faker.string.alphanumeric(8).toUpperCase()}`]. *)
Definition defaultOrderNumber : Rand (Gen F) string :=
  s <- ProductBuilder.upperAlphanumeric F 8 ;; ret ("ORD-" ++ s).

Definition build (b : t) : Rand (Gen F) Order :=
  items <- orElse (p_items b) defaultItems ;;
  let subtotal := subtotal items in
  orderNumber <- orElse (p_orderNumber b) defaultOrderNumber ;;
  user <- orElse (p_user b) defaultUser ;;
  shippingAddress <- orElse (p_shippingAddress b) defaultShippingAddress ;;
  ret {| orderNumber := orderNumber;
         user := user;
         items := items;
         shippingAddress := shippingAddress;
         billingAddress := p_billingAddress b;
         total := subtotal;
         status := Js.nullish (p_status b) pending;
         paymentMethod := Js.nullish (p_paymentMethod b) "Credit Card" |}.

(** [buildSimple()] goes through [withItems], which assigns to the builder:
    the builder left behind is returned next to the order. *)
Definition buildSimple (b : t) : Rand (Gen F) (Order * t) :=
  let this := withItems [simpleItem] b in
  o <- build this ;; ret (o, this).

End WithFaker.
End OrderBuilder.

(** * data/factories/testDataFactory.ts *)

Module TestDataFactory.

(** [if (overrides?.x) builder.withX(overrides.x)]: the mutator runs when
    the record is given, has the property, and the value passes the test
    of the condition. *)
Definition applyIf {P A B} (test : A -> bool) (overrides : option P)
    (get : P -> option A) (withX : A -> B -> B) (builder : B) : B :=
  match overrides with
  | Some o =>
      match get o with
      | Some v => if test v then withX v builder else builder
      | None => builder
      end
  | None => builder
  end.

(** An object, an array and a non-empty string literal are always truthy;
    [x !== undefined] holds of every value that is there. *)
Definition always {A} (_ : A) : bool := true.

Section WithFaker.
Context (F : Faker).
Local Open Scope rand_scope.

Definition createUser (overrides : option UserBuilder.t)
  : Rand (Gen F) UserModel.User :=
  let builder := UserBuilder.new in
  let builder := applyIf Js.truthyString overrides UserBuilder.p_email
                   UserBuilder.withEmail builder in
  let builder := applyIf Js.truthyString overrides UserBuilder.p_password
                   UserBuilder.withPassword builder in
  let builder := applyIf Js.truthyString overrides UserBuilder.p_firstName
                   UserBuilder.withFirstName builder in
  let builder := applyIf Js.truthyString overrides UserBuilder.p_lastName
                   UserBuilder.withLastName builder in
  let builder := applyIf Js.truthyString overrides UserBuilder.p_phone
                   UserBuilder.withPhone builder in
  UserBuilder.build F builder.

Definition createAdminUser : Rand (Gen F) UserModel.User :=
  UserBuilder.build F
    (UserBuilder.withLastName "User"
      (UserBuilder.withFirstName "Admin"
        (UserBuilder.withPassword "AdminPass123!"
          (UserBuilder.withEmail "admin@example.com" UserBuilder.new)))).

Definition createAddress (overrides : option AddressBuilder.t)
  : Rand (Gen F) AddressBuilder.Address :=
  let builder := AddressBuilder.new in
  let builder := applyIf Js.truthyString overrides AddressBuilder.p_street
                   AddressBuilder.withStreet builder in
  let builder := applyIf Js.truthyString overrides AddressBuilder.p_city
                   AddressBuilder.withCity builder in
  let builder := applyIf Js.truthyString overrides AddressBuilder.p_state
                   AddressBuilder.withState builder in
  let builder := applyIf Js.truthyString overrides AddressBuilder.p_zipCode
                   AddressBuilder.withZipCode builder in
  let builder := applyIf Js.truthyString overrides AddressBuilder.p_country
                   AddressBuilder.withCountry builder in
  AddressBuilder.build F builder.

Definition createUSAddress : Rand (Gen F) AddressBuilder.Address :=
  AddressBuilder.buildUS F AddressBuilder.new.

Definition createProduct (overrides : option ProductBuilder.t)
  : Rand (Gen F) ProductBuilder.Product :=
  let builder := ProductBuilder.new in
  let builder := applyIf Js.truthyString overrides ProductBuilder.p_name
                   ProductBuilder.withName builder in
  let builder := applyIf Js.truthyNumber overrides ProductBuilder.p_price
                   ProductBuilder.withPrice builder in
  let builder := applyIf Js.truthyString overrides ProductBuilder.p_category
                   ProductBuilder.withCategory builder in
  let builder := applyIf always overrides ProductBuilder.p_inStock
                   ProductBuilder.withStockStatus builder in
  ProductBuilder.build F builder.

Definition createInStockProduct : Rand (Gen F) ProductBuilder.Product :=
  r <- ProductBuilder.buildInStock F ProductBuilder.new ;; ret (fst r).

Definition createOutOfStockProduct : Rand (Gen F) ProductBuilder.Product :=
  r <- ProductBuilder.buildOutOfStock F ProductBuilder.new ;; ret (fst r).

Definition createOrder (overrides : option OrderBuilder.t)
  : Rand (Gen F) OrderBuilder.Order :=
  let builder := OrderBuilder.new in
  let builder := applyIf always overrides OrderBuilder.p_user
                   OrderBuilder.withUser builder in
  let builder := applyIf always overrides OrderBuilder.p_items
                   OrderBuilder.withItems builder in
  let builder := applyIf always overrides OrderBuilder.p_shippingAddress
                   OrderBuilder.withShippingAddress builder in
  let builder := applyIf always overrides OrderBuilder.p_status
                   OrderBuilder.withStatus builder in
  OrderBuilder.build F builder.

Definition createSimpleOrder : Rand (Gen F) OrderBuilder.Order :=
  r <- OrderBuilder.buildSimple F OrderBuilder.new ;; ret (fst r).

(** [Array.from({ length: count }, () => f())]: [count] calls in order. *)
Fixpoint arrayFrom {A} (count : nat) (f : Rand (Gen F) A)
  : Rand (Gen F) (list A) :=
  match count with
  | O => ret []
  | S n => x <- f ;; xs <- arrayFrom n f ;; ret (x :: xs)
  end.

Definition createUsers (count : nat) : Rand (Gen F) (list UserModel.User) :=
  arrayFrom count (createUser None).

Definition createProducts (count : nat) (category : option string)
  : Rand (Gen F) (list ProductBuilder.Product) :=
  arrayFrom count
    (createProduct
       (match category with
        | Some c =>
            if Js.truthyString c
            then Some (ProductBuilder.withCategory c ProductBuilder.new)
            else None
        | None => None
        end)).

End WithFaker.
End TestDataFactory.

(** * The builders side by side

    What the four classes have in common, as a caller sees it: the state
    of a new instance, [build()], and [reset] as found on the prototype.
    A class that declares no [reset] has [None] there: the property is
    [undefined], and calling it throws a [TypeError]. *)

Record BuilderClass (F : Faker) : Type := {
  entity : Type;
  instance : Type;
  construct : instance;
  buildMethod : instance -> Rand (Gen F) entity;
  resetMethod : option (instance -> instance)
}.

Arguments entity {F}.
Arguments instance {F}.
Arguments construct {F}.
Arguments buildMethod {F}.
Arguments resetMethod {F}.

Definition UserBuilderClass (F : Faker) : BuilderClass F :=
  {| entity := UserModel.User;
     instance := UserBuilder.t;
     construct := UserBuilder.new;
     buildMethod := UserBuilder.build F;
     resetMethod := None |}.

Definition AddressBuilderClass (F : Faker) : BuilderClass F :=
  {| entity := AddressBuilder.Address;
     instance := AddressBuilder.t;
     construct := AddressBuilder.new;
     buildMethod := AddressBuilder.build F;
     resetMethod := Some AddressBuilder.reset |}.

Definition ProductBuilderClass (F : Faker) : BuilderClass F :=
  {| entity := ProductBuilder.Product;
     instance := ProductBuilder.t;
     construct := ProductBuilder.new;
     buildMethod := ProductBuilder.build F;
     resetMethod := Some ProductBuilder.reset |}.

Definition OrderBuilderClass (F : Faker) : BuilderClass F :=
  {| entity := OrderBuilder.Order;
     instance := OrderBuilder.t;
     construct := OrderBuilder.new;
     buildMethod := OrderBuilder.build F;
     resetMethod := Some OrderBuilder.reset |}.

Definition builderClasses (F : Faker) : list (BuilderClass F) :=
  [UserBuilderClass F; AddressBuilderClass F; ProductBuilderClass F;
   OrderBuilderClass F].

(** * Notions the properties are stated with *)

(** The value the last call of a chain gave to one field, if any call of
    the chain set that field; [pick] tells which calls do. *)
Fixpoint lastSet {C A} (pick : C -> option A) (calls : list C) : option A :=
  match calls with
  | [] => None
  | c :: rest =>
      match lastSet pick rest with
      | Some v => Some v
      | None => pick c
      end
  end.

(** A field of a result agrees with a chain of calls: it has the value of
    the last call that set it, and otherwise satisfies [dflt]. *)
Definition resolved {C A} (pick : C -> option A) (calls : list C)
    (dflt : A -> Prop) (x : A) : Prop :=
  match lastSet pick calls with
  | Some v => x = v
  | None => dflt x
  end.

Definition nonEmpty (s : string) : Prop := s <> "".

(** Three digits, a hyphen, three digits, a hyphen, four digits. *)
Definition isPhonePattern (s : string) : bool :=
  match list_ascii_of_string s with
  | [a; b; c; h1; d; e; f; h2; i; j; k; l] =>
      Js.isDigit a && Js.isDigit b && Js.isDigit c && Ascii.eqb h1 "-"
      && Js.isDigit d && Js.isDigit e && Js.isDigit f && Ascii.eqb h2 "-"
      && Js.isDigit i && Js.isDigit j && Js.isDigit k && Js.isDigit l
  | _ => false
  end.

(** What [faker.phone.number(format)] documents of its result: each [#]
    of the format stands for a digit, each [!] for a digit from 2 to 9,
    every other character for itself. *)
Fixpoint fillsFormat (format out : string) : bool :=
  match format, out with
  | EmptyString, EmptyString => true
  | String f format', String o out' =>
      (if Ascii.eqb f "#" then Js.isDigit o
       else if Ascii.eqb f "!" then Js.isDigit o && Nat.leb 50 (nat_of_ascii o)
       else Ascii.eqb f o)
      && fillsFormat format' out'
  | _, _ => false
  end.

Definition PhoneNumberLaw (F : Faker) : Prop :=
  forall format g, fillsFormat format (fst (phone_number F format g)) = true.

(** The generators the builders use for required string fields return
    text, and [string.alphanumeric(n)] returns [n] characters. *)
Record TextLaw (F : Faker) : Prop := {
  firstName_text : forall g, nonEmpty (fst (person_firstName F g));
  lastName_text : forall g, nonEmpty (fst (person_lastName F g));
  email_text : forall g, nonEmpty (fst (internet_email F g));
  password_text :
    forall len g, len <> Some 0 -> nonEmpty (fst (internet_password F len g));
  productName_text : forall g, nonEmpty (fst (commerce_productName F g));
  productDescription_text :
    forall g, nonEmpty (fst (commerce_productDescription F g));
  department_text : forall g, nonEmpty (fst (commerce_department F g));
  alphanumeric_length :
    forall n g, String.length (fst (string_alphanumeric F n g)) = n;
  streetAddress_text : forall g, nonEmpty (fst (location_streetAddress F g));
  city_text : forall g, nonEmpty (fst (location_city F g));
  state_text : forall ab g, nonEmpty (fst (location_state F ab g));
  zipCode_text : forall g, nonEmpty (fst (location_zipCode F g));
  country_text : forall g, nonEmpty (fst (location_country F g))
}.

(** The generator states at which [OrderBuilder.build] draws the price of
    the default item's product and, four draws later, the price of the
    item itself, when the build starts at [g]. *)
Definition productPriceState (F : Faker) (g : Gen F) : Gen F :=
  snd (commerce_productDescription F (snd (commerce_productName F g))).

Definition itemPriceState (F : Faker) (g : Gen F) : Gen F :=
  snd (number_int F 1%float 5%float
    (snd (commerce_department F
      (snd (string_alphanumeric F 10
        (snd (commerce_price F 10%float 100%float
          (productPriceState F g)))))))).

(** [overrides?.x], kept when it passes the test of the condition. *)
Definition given {P A} (test : A -> bool) (overrides : option P)
    (get : P -> option A) : option A :=
  match overrides with
  | Some o =>
      match get o with
      | Some v => if test v then Some v else None
      | None => None
      end
  | None => None
  end.

(** A field of a result carries the override [o] whenever [o] is there
    and passes the test. *)
Definition carries {A} (test : A -> bool) (o : option A) (x : A) : Prop :=
  forall v, o = Some v -> test v = true -> x = v.

(** [m] run twice in a row, as in [const a = f(); const b = f();]. *)
Definition twice {G A} (m : Rand G A) : Rand G (A * A) :=
  (a <- m ;; b <- m ;; ret (a, b))%rand.

(** [setSeed(s)] followed by [m]. *)
Definition seeded {F : Faker} {A} (s : Js.number) (m : Rand (Gen F) A)
  : Rand (Gen F) A :=
  (_ <- Random.setSeed F s ;; m)%rand.

(** * A small faker, to run the builders on concrete inputs

    A deterministic stand-in for the library: the generator state is a
    counter, every call advances it by one and answers by its parity. *)

Module Demo.

Definition answer {A} (even odd : A) : Rand nat A :=
  fun g => (if Nat.even g then even else odd, S g).

Fixpoint alphanumeric (n g : nat) : string :=
  match n with
  | O => EmptyString
  | S k => String (if Nat.even g then "a"%char else "7"%char)
                  (alphanumeric k (S g))
  end.

Fixpoint fill (format : string) (g : nat) : string :=
  match format with
  | EmptyString => EmptyString
  | String f rest =>
      String (if Ascii.eqb f "#" then (if Nat.even g then "4" else "7")%char
              else if Ascii.eqb f "!" then (if Nat.even g then "2" else "9")%char
              else f)
             (fill rest (S g))
  end.

(** Decimal digits with at most one point, read as numerator and
    denominator. *)
Fixpoint readDecimal (s : string) (num den : Z) (frac : bool) : Z * Z :=
  match s with
  | EmptyString => (num, den)
  | String c rest =>
      if Ascii.eqb c "." then readDecimal rest num den true
      else
        let d := Z.of_nat (nat_of_ascii c - 48) in
        readDecimal rest (10 * num + d)%Z
                    (if frac then (10 * den)%Z else den) frac
  end.

(** [parseFloat] on such text: the quotient, rounded once. *)
Definition parseDecimal (s : string) : Js.number :=
  let '(num, den) := readDecimal s 0%Z 1%Z false in
  (PrimFloat.of_uint63 (Uint63.of_Z num)
   / PrimFloat.of_uint63 (Uint63.of_Z den))%float.

Definition seedState (s : Js.number) : nat :=
  Z.to_nat (Uint63.to_Z (normfr_mantissa (fst (frshiftexp s))) mod 1009).

Definition faker : Faker :=
  {| Gen := nat;
     seed := seedState;
     person_firstName := answer "Alice" "Bob";
     person_lastName := answer "Smith" "Jones";
     internet_email := answer "alice@example.org" "bob@example.org";
     internet_password := fun len g =>
       (alphanumeric (match len with Some n => n | None => 15 end) g, S g);
     phone_number := fun format g => (fill format g, S g);
     commerce_productName := answer "Steel Chair" "Wooden Table";
     commerce_productDescription := answer "A sturdy chair" "A solid table";
     commerce_price := fun _ _ g =>
       (if Nat.eqb (g mod 3) 0 then "19.99" else "54.50", S g);
     commerce_department := answer "Home" "Garden";
     string_alphanumeric := fun n g => (alphanumeric n g, S g);
     datatype_boolean := answer true false;
     number_int := fun min max => answer min max;
     location_streetAddress := answer "1 Main St" "2 Oak Ave";
     location_city := answer "Seattle" "Portland";
     location_state := fun abbreviated =>
       if abbreviated then answer "WA" "OR"
       else answer "Washington" "Oregon";
     location_zipCode := answer "98101" "97201";
     location_country := answer "Canada" "France";
     parseFloat := parseDecimal |}.

End Demo.

(** * Further notions: what the properties of orders are stated with *)

(** The sum of a list of numbers taken in the order of the list, on top
    of [start]: each term is added to the sum of the terms before it. *)
Fixpoint sumFrom (start : Js.number) (terms : list Js.number) : Js.number :=
  match terms with
  | [] => start
  | t :: rest => sumFrom (start + t)%float rest
  end.

(** Price times quantity of one item. *)
Definition lineTotal (item : OrderBuilder.OrderItem) : Js.number :=
  (OrderBuilder.price item * OrderBuilder.quantity item)%float.

(** The sum over the items of price times quantity, from 0. *)
Definition sumOfLineTotals (items : list OrderBuilder.OrderItem)
  : Js.number :=
  sumFrom 0%float (map lineTotal items).

(** Every required string of a user, an address, a product is there and
    not empty; a list of items has an item and every product in it is
    filled. *)
Definition userFilled (u : UserModel.User) : Prop :=
  nonEmpty (UserModel.firstName u) /\ nonEmpty (UserModel.lastName u)
  /\ nonEmpty (UserModel.email u) /\ nonEmpty (UserModel.password u).

Definition addressFilled (a : AddressBuilder.Address) : Prop :=
  nonEmpty (AddressBuilder.street a) /\ nonEmpty (AddressBuilder.city a)
  /\ nonEmpty (AddressBuilder.state a) /\ nonEmpty (AddressBuilder.zipCode a)
  /\ nonEmpty (AddressBuilder.country a).

Definition productFilled (p : ProductBuilder.Product) : Prop :=
  nonEmpty (ProductBuilder.name p) /\ nonEmpty (ProductBuilder.description p)
  /\ nonEmpty (ProductBuilder.sku p) /\ nonEmpty (ProductBuilder.category p).

Definition itemsFilled (items : list OrderBuilder.OrderItem) : Prop :=
  items <> []
  /\ Forall (fun item => productFilled (OrderBuilder.product item)) items.

(** * Further notions: text *)

Module JsText.

Definition isLower (c : ascii) : bool :=
  let n := nat_of_ascii c in andb (Nat.leb 97 n) (Nat.leb n 122).

Definition isUpper (c : ascii) : bool :=
  let n := nat_of_ascii c in andb (Nat.leb 65 n) (Nat.leb n 90).

(** The code unit is in the ASCII range. *)
Definition isAscii (c : ascii) : bool := Nat.ltb (nat_of_ascii c) 128.

Fixpoint all (p : ascii -> bool) (s : string) : bool :=
  match s with
  | EmptyString => true
  | String c r => p c && all p r
  end.

(** [c.toLowerCase()] on one ASCII character. *)
Definition lowerChar (c : ascii) : ascii :=
  if isUpper c then ascii_of_nat (nat_of_ascii c + 32) else c.

(** [s.toLowerCase()] on ASCII text. *)
Fixpoint toLowerCase (s : string) : string :=
  match s with
  | EmptyString => EmptyString
  | String c r => String (lowerChar c) (toLowerCase r)
  end.

(** The ASCII characters the class [\s] of a regular expression matches:
    tab, line feed, vertical tab, form feed, carriage return, space. *)
Definition isSpace (c : ascii) : bool :=
  let n := nat_of_ascii c in
  andb (Nat.leb 9 n) (Nat.leb n 13) || Nat.eqb n 32.

(** [s.replace(/\s+/g, '-')]: every maximal run of white space becomes
    one hyphen; [inRun] tells that the previous character was white
    space. *)
Fixpoint replaceSpaceRuns (inRun : bool) (s : string) : string :=
  match s with
  | EmptyString => EmptyString
  | String c r =>
      if isSpace c
      then (if inRun then replaceSpaceRuns true r
            else String "-" (replaceSpaceRuns true r))
      else String c (replaceSpaceRuns false r)
  end.

(** [a || b] where [a] is a string or undefined. *)
Definition orString (a : option string) (b : string) : string :=
  match a with
  | Some s => if Js.truthyString s then s else b
  | None => b
  end.

(** The double quote, as a one-character string. *)
Definition dquote : string := String (ascii_of_nat 34) EmptyString.

End JsText.

(** * config/env.ts *)

Module Env.

(** [process.env]: a variable is a string or is not set. *)
Definition ProcessEnv : Type := string -> option string.

Definition validEnvs : list string := ["local"; "test"; "stage"; "prod"].

(** [list.includes(s)]. *)
Definition includes (l : list string) (s : string) : bool :=
  existsb (String.eqb s) l.

(** The text [getEnvironment] passes to [console.warn]. *)
Definition invalidEnvWarning (env : string) : string :=
  "Invalid ENV " ++ JsText.dquote ++ env ++ JsText.dquote
  ++ ", defaulting to " ++ JsText.dquote ++ "local" ++ JsText.dquote.

(** [getEnvironment()]: the environment, and what went to
    [console.warn].  Text is a sequence of code units and is lower-cased
    as ASCII: the value and the warning are the code's for an [ENV] of
    ASCII characters, and the returned environment for every [ENV]. *)
Definition getEnvironment (penv : ProcessEnv) : string * list string :=
  let env :=
    JsText.orString (option_map JsText.toLowerCase (penv "ENV")) "local" in
  if includes validEnvs env then (env, [])
  else ("local", [invalidEnvWarning env]).

Definition urls : list (string * string) :=
  [("local", "http://localhost:3000");
   ("test", "https://test.example.com");
   ("stage", "https://stage.example.com");
   ("prod", "https://example.com")].

(** [urls[env]]: undefined for a key the object does not have. *)
Fixpoint lookup (key : string) (table : list (string * string))
  : option string :=
  match table with
  | [] => None
  | (k, v) :: rest => if String.eqb key k then Some v else lookup key rest
  end.

(** [getBaseUrl()]: [process.env.BASE_URL || urls[env]], and what went to
    [console.warn] on the way. *)
Definition getBaseUrl (penv : ProcessEnv) : option string * list string :=
  let r := getEnvironment penv in
  let env := fst r in
  (match penv "BASE_URL" with
   | Some s => if Js.truthyString s then Some s else lookup env urls
   | None => lookup env urls
   end, snd r).

Record Credentials : Type := {
  username : string;
  password : string
}.

Definition getCredentials (penv : ProcessEnv) : option Credentials :=
  match penv "TEST_USERNAME", penv "TEST_PASSWORD" with
  | Some u, Some p =>
      if Js.truthyString u && Js.truthyString p
      then Some {| username := u; password := p |}
      else None
  | _, _ => None
  end.

End Env.

(** * utils/tags.ts *)

Module Tags.

Definition SMOKE : string := "@smoke".
Definition SKIP_CI : string := "@skip-ci".

(** [createTag(name)]: [`@${name.toLowerCase().replace(/\s+/g, '-')}`]. *)
Definition createTag (name : string) : string :=
  "@" ++ JsText.replaceSpaceRuns false (JsText.toLowerCase name).

End Tags.

(** A name cut into pieces, each a word without white space or a gap of
    white space; the pieces are proper when none is empty and no gap
    follows a gap, so that every gap is a whole run of white space. *)
Inductive Piece : Type :=
| Word (w : string)
| Gap (g : string).

Fixpoint properPieces (pieces : list Piece) : bool :=
  match pieces with
  | [] => true
  | Word w :: rest =>
      Js.truthyString w
      && JsText.all (fun c => negb (JsText.isSpace c)) w
      && properPieces rest
  | Gap g :: rest =>
      Js.truthyString g
      && JsText.all JsText.isSpace g
      && match rest with Gap _ :: _ => false | _ => true end
      && properPieces rest
  end.

(** The name the pieces make up. *)
Fixpoint joined (pieces : list Piece) : string :=
  match pieces with
  | [] => EmptyString
  | Word w :: rest => w ++ joined rest
  | Gap g :: rest => g ++ joined rest
  end.

(** The pieces with every word in lower case and one hyphen for every
    gap. *)
Fixpoint hyphenated (pieces : list Piece) : string :=
  match pieces with
  | [] => EmptyString
  | Word w :: rest => JsText.toLowerCase w ++ hyphenated rest
  | Gap _ :: rest => "-" ++ hyphenated rest
  end.

(** * utils/accessibility.ts *)

Module Accessibility.

(** What [page.$$eval] hands back for one heading element. *)
Record Heading : Type := {
  level : Z;
  text : string
}.

(** What [checkHeadingHierarchy] passes to [logger.warn]: the level
    found, the level before it, and the first 50 characters of the
    heading's text. *)
Record HierarchyWarning : Type := {
  found : Z;
  after : Z;
  excerpt : string
}.

(** The loop of [checkHeadingHierarchy], from [previousLevel] on.  The
    excerpt [text.substring(0, 50)] is cut by code units: it is the
    code's for a heading text of ASCII characters, where a character is
    one code unit. *)
Fixpoint hierarchyFrom (previousLevel : Z) (headings : list Heading)
  : bool * list HierarchyWarning :=
  match headings with
  | [] => (true, [])
  | heading :: rest =>
      if (previousLevel + 1 <? level heading)%Z
      then (false,
            [ {| found := level heading; after := previousLevel;
                 excerpt := String.substring 0 50 (text heading) |} ])
      else hierarchyFrom (level heading) rest
  end.

Definition checkHeadingHierarchy (headings : list Heading)
  : bool * list HierarchyWarning :=
  hierarchyFrom 0 headings.

End Accessibility.

(** The levels of consecutive headings, each paired with the level before
    it, the first with 0. *)
Definition levelSteps (levels : list Z) : list (Z * Z) :=
  combine (0%Z :: levels) levels.

(** * utils/viewport.ts *)

Module Viewport.

Record ViewportSize : Type := {
  width : Js.number;
  height : Js.number
}.

Definition mobile : ViewportSize :=
  {| width := 375%float; height := 667%float |}.
Definition mobileLarge : ViewportSize :=
  {| width := 414%float; height := 896%float |}.
Definition tablet : ViewportSize :=
  {| width := 768%float; height := 1024%float |}.
Definition tabletLandscape : ViewportSize :=
  {| width := 1024%float; height := 768%float |}.
Definition desktop : ViewportSize :=
  {| width := 1920%float; height := 1080%float |}.
Definition desktopSmall : ViewportSize :=
  {| width := 1366%float; height := 768%float |}.
Definition desktopLarge : ViewportSize :=
  {| width := 2560%float; height := 1440%float |}.

(** A page, as far as these helpers look at it: what
    [page.viewportSize()] returns, a size or null. *)
Definition Page : Type := option ViewportSize.

(** [page.viewportSize() || { width: 0, height: 0 }]. *)
Definition getViewportSize (page : Page) : ViewportSize :=
  match page with
  | Some size => size
  | None => {| width := 0%float; height := 0%float |}
  end.

Definition isMobileViewport (page : Page) : bool :=
  (width (getViewportSize page) <? 768)%float.

Definition isTabletViewport (page : Page) : bool :=
  ((768 <=? width (getViewportSize page))
   && (width (getViewportSize page) <? 1024))%float.

Definition isDesktopViewport (page : Page) : bool :=
  (1024 <=? width (getViewportSize page))%float.

End Viewport.

(** Exactly one of three tests holds. *)
Definition exactlyOne (a b c : bool) : bool :=
  (a && negb b && negb c) || (negb a && b && negb c)
  || (negb a && negb b && c).

(** * utils/retry.ts *)

Module Retry.

(** A thrown value: an [Error] with its message, or something else, for
    which [String(value)] either gives a string or throws in its turn (a
    null-prototype object, a [toString] that throws). *)
Inductive Thrown : Type :=
| ErrorObject (message : string)
| Convertible (asString : string)
| Unconvertible (thrownByString : Thrown).

(** The first statement of the [catch] block,
    [error instanceof Error ? error : new Error(String(error))]: the
    error kept as [lastError], or what the conversion threw. *)
Inductive Caught : Type :=
| Kept (lastError : Thrown)
| ConversionThrew (thrown : Thrown).

Definition toError (t : Thrown) : Caught :=
  match t with
  | ErrorObject m => Kept (ErrorObject m)
  | Convertible s => Kept (ErrorObject s)
  | Unconvertible thrown => ConversionThrew thrown
  end.

(** [lastError.message]. *)
Definition messageOf (t : Thrown) : string :=
  match t with
  | ErrorObject m => m
  | Convertible s => s
  | Unconvertible _ => EmptyString
  end.

Inductive Outcome (T : Type) : Type :=
| Resolved (value : T)
| Rejected (thrown : Thrown).

Arguments Resolved {T}.
Arguments Rejected {T}.

(** What a run does besides returning, in order: calls of [fn], calls of
    [onRetry], lines passed to [logger.warn] (attempt, delay, message of
    the error) and waits. *)
Inductive Event : Type :=
| Called (attempt : Z)
| Notified (attempt : Z) (error : Thrown)
| Warned (attempt : Z) (delay : Js.number) (message : string)
| Slept (delay : Js.number).

(** [Math.min(x, y)]: NaN if one of them is, and [-0] below [+0]. *)
Definition mathMin (x y : Js.number) : Js.number :=
  if (PrimFloat.is_nan x || PrimFloat.is_nan y)%bool then PrimFloat.nan
  else if (x <? y)%float then x
  else if (y <? x)%float then y
  else if PrimFloat.get_sign x then x else y.

(** [attempt++] on the loop counter, a binary64 number that holds an
    integer from 1 on: exact below 2^53, and without effect at 2^53,
    where [attempt + 1] rounds back to [attempt]. *)
Definition increment (attempt : Z) : Z :=
  if (attempt <? 9007199254740992)%Z then (attempt + 1)%Z else attempt.

Section WithWorld.
Context {W T : Type}.

(** [fn] and [onRetry] are the caller's and act on the caller's world
    [W].  A call of [fn] returns a promise that resolves, rejects, or
    never settles ([None]); a call of [onRetry] returns, throws, or never
    returns ([None]). *)
Definition Fn : Type := W -> option (Outcome T * W).
Definition OnRetry : Type := Z -> Thrown -> W -> option (option Thrown * W).

(** How a run ends: the promise settles, or the run is stuck for ever
    behind a call that does not come back, or the model stopped looking
    ([OutOfFuel]) while the loop was still going. *)
Inductive Run : Type :=
| Finished (outcome : Outcome T) (w : W) (events : list Event)
| Hung (events : list Event)
| OutOfFuel.

(** A run that starts with [events] and goes on as [run]. *)
Definition after (events : list Event) (run : Run) : Run :=
  match run with
  | Finished r w rest => Finished r w (events ++ rest)
  | Hung rest => Hung (events ++ rest)
  | OutOfFuel => OutOfFuel
  end.

Definition eventsOf (run : Run) : list Event :=
  match run with
  | Finished _ _ events => events
  | Hung events => events
  | OutOfFuel => []
  end.

Record Options : Type := {
  maxAttempts : option Z;
  delayMs : option Js.number;
  onRetry : option OnRetry
}.

Definition noOptions : Options :=
  {| maxAttempts := None; delayMs := None; onRetry := None |}.

(** The [for] loop of [retry], entered with [attempt] and [lastError];
    [fuel] bounds the iterations looked at. *)
Fixpoint retryLoop (fn : Fn) (maxAttempts : Z) (delayMs : Js.number)
    (onRetry : option OnRetry) (fuel : nat) (attempt : Z)
    (lastError : option Thrown) (w : W) : Run :=
  if (attempt <=? maxAttempts)%Z then
    match fuel with
    | O => OutOfFuel
    | S fuel' =>
        match fn w with
        | None => Hung [Called attempt]
        | Some (Resolved v, w1) => Finished (Resolved v) w1 [Called attempt]
        | Some (Rejected t, w1) =>
            match toError t with
            | ConversionThrew thrown =>
                Finished (Rejected thrown) w1 [Called attempt]
            | Kept lastError =>
                if (attempt <? maxAttempts)%Z then
                  match onRetry with
                  | Some callback =>
                      match callback attempt lastError w1 with
                      | None =>
                          Hung [Called attempt; Notified attempt lastError]
                      | Some (Some thrown, w2) =>
                          Finished (Rejected thrown) w2
                            [Called attempt; Notified attempt lastError]
                      | Some (None, w2) =>
                          after [Called attempt; Notified attempt lastError;
                                 Slept delayMs]
                            (retryLoop fn maxAttempts delayMs onRetry fuel'
                               (increment attempt) (Some lastError) w2)
                      end
                  | None =>
                      after [Called attempt;
                             Warned attempt delayMs (messageOf lastError);
                             Slept delayMs]
                        (retryLoop fn maxAttempts delayMs onRetry fuel'
                           (increment attempt) (Some lastError) w1)
                  end
                else
                  after [Called attempt]
                    (retryLoop fn maxAttempts delayMs onRetry fuel'
                       (increment attempt) (Some lastError) w1)
            end
        end
    end
  else
    Finished (Rejected (match lastError with
                        | Some e => e
                        | None => ErrorObject "Retry failed"
                        end)) w [].

(** [retry(fn, options)]: three attempts and a second between them unless
    the options say otherwise; [maxAttempts] is an integer. *)
Definition retry (fn : Fn) (options : Options) (fuel : nat) (w : W) : Run :=
  let maxAttempts := Js.nullish (maxAttempts options) 3%Z in
  let delayMs := Js.nullish (delayMs options) 1000%float in
  retryLoop fn maxAttempts delayMs (onRetry options) fuel 1%Z None w.

Record BackoffOptions : Type := {
  b_maxAttempts : option Z;
  b_initialDelayMs : option Js.number;
  b_maxDelayMs : option Js.number;
  b_multiplier : option Js.number
}.

Definition noBackoffOptions : BackoffOptions :=
  {| b_maxAttempts := None; b_initialDelayMs := None;
     b_maxDelayMs := None; b_multiplier := None |}.

(** The [for] loop of [retryWithBackoff], entered with [attempt],
    [delay] and [lastError]. *)
Fixpoint backoffLoop (fn : Fn) (maxAttempts : Z)
    (maxDelayMs multiplier : Js.number) (fuel : nat) (attempt : Z)
    (delay : Js.number) (lastError : option Thrown) (w : W) : Run :=
  if (attempt <=? maxAttempts)%Z then
    match fuel with
    | O => OutOfFuel
    | S fuel' =>
        match fn w with
        | None => Hung [Called attempt]
        | Some (Resolved v, w1) => Finished (Resolved v) w1 [Called attempt]
        | Some (Rejected t, w1) =>
            match toError t with
            | ConversionThrew thrown =>
                Finished (Rejected thrown) w1 [Called attempt]
            | Kept lastError =>
                if (attempt <? maxAttempts)%Z then
                  after [Called attempt;
                         Warned attempt delay (messageOf lastError);
                         Slept delay]
                    (backoffLoop fn maxAttempts maxDelayMs multiplier fuel'
                       (increment attempt)
                       (mathMin (delay * multiplier)%float maxDelayMs)
                       (Some lastError) w1)
                else
                  after [Called attempt]
                    (backoffLoop fn maxAttempts maxDelayMs multiplier fuel'
                       (increment attempt) delay (Some lastError) w1)
            end
        end
    end
  else
    Finished (Rejected (match lastError with
                        | Some e => e
                        | None => ErrorObject "Retry with backoff failed"
                        end)) w [].

Definition retryWithBackoff (fn : Fn) (options : BackoffOptions)
    (fuel : nat) (w : W) : Run :=
  let maxAttempts := Js.nullish (b_maxAttempts options) 3%Z in
  let initialDelayMs := Js.nullish (b_initialDelayMs options) 1000%float in
  let maxDelayMs := Js.nullish (b_maxDelayMs options) 10000%float in
  let multiplier := Js.nullish (b_multiplier options) 2%float in
  backoffLoop fn maxAttempts maxDelayMs multiplier fuel 1%Z initialDelayMs
    None w.

End WithWorld.

Arguments Options : clear implicits.
Arguments Fn : clear implicits.
Arguments OnRetry : clear implicits.
Arguments Run : clear implicits.

(** The waits of a run, in order, and the number of calls of [fn]. *)
Fixpoint sleeps (events : list Event) : list Js.number :=
  match events with
  | [] => []
  | Slept d :: rest => d :: sleeps rest
  | _ :: rest => sleeps rest
  end.

Fixpoint calls (events : list Event) : nat :=
  match events with
  | [] => 0
  | Called _ :: rest => S (calls rest)
  | _ :: rest => calls rest
  end.

End Retry.

(** Each wait after the first is [Math.min] of the one before it times
    the multiplier and the cap. *)
Fixpoint backoffChain (multiplier cap : Js.number) (delays : list Js.number)
  : Prop :=
  match delays with
  | d :: ((d' :: _) as rest) =>
      d' = Retry.mathMin (d * multiplier)%float cap
      /\ backoffChain multiplier cap rest
  | _ => True
  end.

(** A caller's world for concrete runs: the outcomes [fn] still has to
    give, one per call; it resolves with 0 when they are used up. *)
Definition scripted : Retry.Fn (list (Retry.Outcome nat)) nat :=
  fun script =>
    match script with
    | [] => Some (Retry.Resolved 0, [])
    | r :: rest => Some (r, rest)
    end.

(** * Sample values for concrete runs *)




Definition prodShell : Env.ProcessEnv :=
  fun name => if String.eqb name "ENV" then Some "PROD" else None.

Definition sampleHeadings : list Accessibility.Heading :=
  [ {| Accessibility.level := 1; Accessibility.text := "Title" |};
    {| Accessibility.level := 2; Accessibility.text := "Section" |};
    {| Accessibility.level := 4; Accessibility.text := "Detail" |};
    {| Accessibility.level := 6; Accessibility.text := "Note" |} ].
(** * Properties *)

(** ** The generator *)

Lemma setSeed_state (F : Faker) (s : Js.number) (g g' : Gen F) :
  Random.setSeed F s g = Random.setSeed F s g'.
Proof. reflexivity. Qed.

Lemma seeded_forgets (F : Faker) A (s : Js.number) (m : Rand (Gen F) A)
    (g g' : Gen F) :
  seeded s m g = seeded s m g'.
Proof. reflexivity. Qed.

Lemma orElse_some G A (v : A) (e : Rand G A) (g : G) :
  orElse (Some v) e g = (v, g).
Proof. reflexivity. Qed.

Lemma orElse_none G A (e : Rand G A) (g : G) : orElse None e g = e g.
Proof. reflexivity. Qed.

(** ** Orders *)

Lemma build_total (F : Faker) (b : OrderBuilder.t) (g : Gen F) :
  OrderBuilder.total (fst (OrderBuilder.build F b g))
  = OrderBuilder.subtotal (OrderBuilder.items (fst (OrderBuilder.build F b g))).
Proof. reflexivity. Qed.

Lemma build_items_explicit (F : Faker) (b : OrderBuilder.t) (g : Gen F) its :
  OrderBuilder.p_items b = Some its ->
  OrderBuilder.items (fst (OrderBuilder.build F b g)) = its.
Proof.
  intros H. unfold OrderBuilder.build, bind. rewrite H. reflexivity.
Qed.

Lemma build_items_default (F : Faker) (b : OrderBuilder.t) (g : Gen F) :
  OrderBuilder.p_items b = None ->
  OrderBuilder.items (fst (OrderBuilder.build F b g))
  = fst (OrderBuilder.defaultItems F g).
Proof.
  intros H. unfold OrderBuilder.build, bind. rewrite H. reflexivity.
Qed.

Lemma buildSimple_items (F : Faker) (b : OrderBuilder.t) (g : Gen F) :
  OrderBuilder.items (fst (fst (OrderBuilder.buildSimple F b g)))
  = [OrderBuilder.simpleItem].
Proof. reflexivity. Qed.

Lemma subtotal_simpleItem :
  OrderBuilder.subtotal [OrderBuilder.simpleItem] = 29.99%float.
Proof. reflexivity. Qed.

Lemma sumFrom_fold (items : list OrderBuilder.OrderItem) :
  forall start,
    fold_left
      (fun sum item =>
         (sum + OrderBuilder.price item * OrderBuilder.quantity item)%float)
      items start
    = sumFrom start (map lineTotal items).
Proof.
  induction items as [|item rest IH]; intros start; simpl.
  - reflexivity.
  - apply IH.
Qed.

Lemma subtotal_is_sum (items : list OrderBuilder.OrderItem) :
  OrderBuilder.subtotal items = sumOfLineTotals items.
Proof. apply sumFrom_fold. Qed.

(** C1. Every order a builder returns has [total] equal to the sum over
    its own [items] of price times quantity, the terms added in the order
    of the items starting from 0, in binary64 arithmetic: for every state
    of the builder (so after any chain of [withX] calls, after [reset],
    with explicit items or with the default item, and whatever a [total]
    property of the accumulated record might hold), from [build] and from
    [buildSimple]. *)
Theorem C1_total_is_sum_over_items :
  forall (F : Faker) (b : OrderBuilder.t) (g : Gen F),
    let o := fst (OrderBuilder.build F b g) in
    let s := fst (fst (OrderBuilder.buildSimple F b g)) in
    OrderBuilder.total o = sumOfLineTotals (OrderBuilder.items o)
    /\ OrderBuilder.total s = sumOfLineTotals (OrderBuilder.items s)
    /\ OrderBuilder.items o
       = fst (orElse (OrderBuilder.p_items b) (OrderBuilder.defaultItems F) g)
    /\ (forall calls,
          let o' := fst (OrderBuilder.build F
                      (OrderBuilder.chain calls OrderBuilder.new) g) in
          OrderBuilder.total o' = sumOfLineTotals (OrderBuilder.items o'))
    /\ (forall x y z,
          OrderBuilder.p_items b = Some [x; y; z] ->
          OrderBuilder.total o
          = (0 + OrderBuilder.price x * OrderBuilder.quantity x
             + OrderBuilder.price y * OrderBuilder.quantity y
             + OrderBuilder.price z * OrderBuilder.quantity z)%float).
Proof.
  intros F b g o s.
  split; [subst o; rewrite build_total; apply subtotal_is_sum|].
  split; [subst s; cbn; reflexivity|].
  split; [reflexivity|].
  split.
  - intros calls o'. subst o'. rewrite build_total. apply subtotal_is_sum.
  - intros x y z H. subst o.
    rewrite build_total, (build_items_explicit F b g _ H). reflexivity.
Qed.

Lemma C1_total_is_sum_over_items_witness :
  OrderBuilder.total
    (fst (OrderBuilder.build Demo.faker
            (OrderBuilder.withItems
               [OrderBuilder.simpleItem; OrderBuilder.simpleItem;
                OrderBuilder.simpleItem] OrderBuilder.new) 0))
  = (0 + 29.99 * 1 + 29.99 * 1 + 29.99 * 1)%float.
Proof.
  destruct (C1_total_is_sum_over_items Demo.faker
              (OrderBuilder.withItems
                 [OrderBuilder.simpleItem; OrderBuilder.simpleItem;
                  OrderBuilder.simpleItem] OrderBuilder.new) 0)
    as (_ & _ & _ & _ & H).
  apply (H OrderBuilder.simpleItem OrderBuilder.simpleItem
           OrderBuilder.simpleItem).
  reflexivity.
Defined.

(** C7. [new OrderBuilder().buildSimple()] returns, from every generator
    state, an order with exactly one item, of price 29.99 and quantity 1,
    and with total 29.99. *)
Theorem C7_buildSimple_fixed_item :
  forall (F : Faker) (g : Gen F),
    let o := fst (fst (OrderBuilder.buildSimple F OrderBuilder.new g)) in
    exists item,
      OrderBuilder.items o = [item]
      /\ OrderBuilder.price item = 29.99%float
      /\ OrderBuilder.quantity item = 1%float
      /\ OrderBuilder.total o = 29.99%float
      /\ PrimFloat.eqb (OrderBuilder.total o) 29.99%float = true.
Proof.
  intros F g o. exists OrderBuilder.simpleItem.
  repeat split.
Qed.

(** C9. The convenience resolvers assign to the builder and the assignment
    stays: after [buildSimple()] the builder holds the single 29.99 item
    as its items override and every other override as before, and a later
    [build()], from any generator state, returns that item and total
    29.99; after [buildInStock()] (resp. [buildOutOfStock()]) the builder
    holds [inStock = true] (resp. [false]) and every other override as
    before, and a later [build()] returns [inStock] true (resp. false). *)
Theorem C9_convenience_resolvers_mutate_builder :
  forall (F : Faker),
    (forall (b : OrderBuilder.t) (g : Gen F),
       let b' := snd (fst (OrderBuilder.buildSimple F b g)) in
       OrderBuilder.p_items b' = Some [OrderBuilder.simpleItem]
       /\ OrderBuilder.p_orderNumber b' = OrderBuilder.p_orderNumber b
       /\ OrderBuilder.p_user b' = OrderBuilder.p_user b
       /\ OrderBuilder.p_shippingAddress b' = OrderBuilder.p_shippingAddress b
       /\ OrderBuilder.p_billingAddress b' = OrderBuilder.p_billingAddress b
       /\ OrderBuilder.p_total b' = OrderBuilder.p_total b
       /\ OrderBuilder.p_status b' = OrderBuilder.p_status b
       /\ OrderBuilder.p_paymentMethod b' = OrderBuilder.p_paymentMethod b
       /\ forall g' : Gen F,
            let o := fst (OrderBuilder.build F b' g') in
            OrderBuilder.items o = [OrderBuilder.simpleItem]
            /\ OrderBuilder.total o = 29.99%float)
    /\ (forall (p : ProductBuilder.t) (g : Gen F),
          let p' := snd (fst (ProductBuilder.buildInStock F p g)) in
          ProductBuilder.p_inStock p' = Some true
          /\ ProductBuilder.p_name p' = ProductBuilder.p_name p
          /\ ProductBuilder.p_description p' = ProductBuilder.p_description p
          /\ ProductBuilder.p_price p' = ProductBuilder.p_price p
          /\ ProductBuilder.p_sku p' = ProductBuilder.p_sku p
          /\ ProductBuilder.p_category p' = ProductBuilder.p_category p
          /\ ProductBuilder.p_quantity p' = ProductBuilder.p_quantity p
          /\ forall g' : Gen F,
               ProductBuilder.inStock (fst (ProductBuilder.build F p' g'))
               = true)
    /\ (forall (p : ProductBuilder.t) (g : Gen F),
          let p' := snd (fst (ProductBuilder.buildOutOfStock F p g)) in
          ProductBuilder.p_inStock p' = Some false
          /\ ProductBuilder.p_name p' = ProductBuilder.p_name p
          /\ ProductBuilder.p_description p' = ProductBuilder.p_description p
          /\ ProductBuilder.p_price p' = ProductBuilder.p_price p
          /\ ProductBuilder.p_sku p' = ProductBuilder.p_sku p
          /\ ProductBuilder.p_category p' = ProductBuilder.p_category p
          /\ ProductBuilder.p_quantity p' = ProductBuilder.p_quantity p
          /\ forall g' : Gen F,
               ProductBuilder.inStock (fst (ProductBuilder.build F p' g'))
               = false).
Proof.
  intros F. split; [|split].
  - intros b g b'. subst b'. cbn.
    do 8 (split; [reflexivity|]).
    intros g'. split; reflexivity.
  - intros p g p'. subst p'. cbn.
    do 7 (split; [reflexivity|]).
    intros g'. reflexivity.
  - intros p g p'. subst p'. cbn.
    do 7 (split; [reflexivity|]).
    intros g'. reflexivity.
Qed.

(** C10. What [OrderBuilder.build()] puts where nothing was set: status
    ['pending'], payment method ['Credit Card'], no billing address, and,
    for the items, one item whose product is in stock and has no quantity,
    and whose price comes from a [commerce.price] draw of its own, made
    four draws after the one that gave the product its price. *)
Theorem C10_order_defaults :
  forall (F : Faker) (b : OrderBuilder.t) (g : Gen F),
    let o := fst (OrderBuilder.build F b g) in
    (OrderBuilder.p_status b = None ->
       OrderBuilder.status o = OrderBuilder.pending)
    /\ (OrderBuilder.p_paymentMethod b = None ->
          OrderBuilder.paymentMethod o = "Credit Card")
    /\ (OrderBuilder.p_billingAddress b = None ->
          OrderBuilder.billingAddress o = None)
    /\ (OrderBuilder.p_items b = None ->
          exists item,
            OrderBuilder.items o = [item]
            /\ ProductBuilder.inStock (OrderBuilder.product item) = true
            /\ ProductBuilder.quantity (OrderBuilder.product item) = None
            /\ ProductBuilder.price (OrderBuilder.product item)
               = parseFloat F
                   (fst (commerce_price F 10%float 100%float
                           (productPriceState F g)))
            /\ OrderBuilder.price item
               = parseFloat F
                   (fst (commerce_price F 10%float 100%float
                           (itemPriceState F g)))).
Proof.
  intros F b g o. subst o.
  split; [|split; [|split; [|]]]; intros H.
  - unfold OrderBuilder.build, bind; cbn. rewrite H. reflexivity.
  - unfold OrderBuilder.build, bind; cbn. rewrite H. reflexivity.
  - unfold OrderBuilder.build, bind; cbn. exact H.
  - rewrite (build_items_default F b g H).
    eexists. split; [reflexivity|]. repeat split.
Qed.

Lemma C10_order_defaults_witness :
  let o := fst (OrderBuilder.build Demo.faker OrderBuilder.new 0) in
  OrderBuilder.status o = OrderBuilder.pending
  /\ OrderBuilder.paymentMethod o = "Credit Card"
  /\ OrderBuilder.billingAddress o = None
  /\ exists item, OrderBuilder.items o = [item]
       /\ ProductBuilder.inStock (OrderBuilder.product item) = true.
Proof.
  destruct (C10_order_defaults Demo.faker OrderBuilder.new 0)
    as (Hs & Hp & Hb & Hi).
  split; [apply Hs; reflexivity|].
  split; [apply Hp; reflexivity|].
  split; [apply Hb; reflexivity|].
  destruct (Hi eq_refl) as (item & E & S & _).
  exists item. split; assumption.
Defined.

(** On the small faker the two prices of the default item differ. *)
Example default_item_prices_differ :
  match OrderBuilder.items (fst (OrderBuilder.build Demo.faker OrderBuilder.new 0)) with
  | [item] =>
      PrimFloat.eqb (OrderBuilder.price item)
                    (ProductBuilder.price (OrderBuilder.product item))
  | _ => true
  end = false.
Proof. vm_compute. reflexivity. Qed.

(** ** Seeding *)

(** C2. For every seed and every builder class: [setSeed(s)] and two
    builds on new builders, then, the generator being wherever the first
    run left it, [setSeed(s)] and the same two builds again, give the same
    two entities.  The same holds of [AddressBuilder.buildUS]. *)
Theorem C2_same_seed_same_entities :
  forall (F : Faker),
    Forall (fun c : BuilderClass F =>
              forall (s : Js.number) (g0 : Gen F),
                let run := seeded s (twice (buildMethod c (construct c))) in
                let runA := run g0 in
                let runB := run (snd runA) in
                fst runA = fst runB)
           (builderClasses F)
    /\ (forall (s : Js.number) (g0 : Gen F),
          let run :=
            seeded s (twice (AddressBuilder.buildUS F AddressBuilder.new)) in
          fst (run g0) = fst (run (snd (run g0)))).
Proof.
  intros F. split.
  - unfold builderClasses.
    repeat constructor; intros s g0 run runA runB; subst runA runB run;
      now rewrite (seeded_forgets F _ s _ g0).
  - intros s g0 run. subst run.
    now rewrite (seeded_forgets F _ s _ g0) at 1.
Qed.

(** ** Chains of fluent calls *)

Lemma chain_field {C B A} (invoke : C -> B -> B) (pick : C -> option A)
    (get : B -> option A) :
  (forall c b,
     get (invoke c b) = match pick c with Some v => Some v | None => get b end) ->
  forall calls b,
    get (fold_left (fun acc c => invoke c acc) calls b)
    = match lastSet pick calls with Some v => Some v | None => get b end.
Proof.
  intros Hstep calls.
  induction calls as [|c rest IH]; intros b; simpl.
  - reflexivity.
  - rewrite IH, Hstep.
    destruct (lastSet pick rest); [reflexivity|].
    destruct (pick c); reflexivity.
Qed.

Ltac chain_field_tac inv :=
  match goal with
  | |- ?get (fold_left _ ?calls _) = lastSet ?pick ?calls =>
      rewrite (chain_field inv pick get);
      [ destruct (lastSet pick calls); reflexivity
      | intros [] ?; reflexivity ]
  end.

Lemma UserBuilder_chain (calls : list UserBuilder.Call) :
  let b := UserBuilder.chain calls UserBuilder.new in
  UserBuilder.p_firstName b = lastSet UserBuilder.asFirstName calls
  /\ UserBuilder.p_lastName b = lastSet UserBuilder.asLastName calls
  /\ UserBuilder.p_email b = lastSet UserBuilder.asEmail calls
  /\ UserBuilder.p_password b = lastSet UserBuilder.asPassword calls
  /\ UserBuilder.p_phone b = lastSet UserBuilder.asPhone calls.
Proof.
  cbv zeta. unfold UserBuilder.chain.
  repeat split; chain_field_tac UserBuilder.invoke.
Qed.

Lemma AddressBuilder_chain (calls : list AddressBuilder.Call) :
  let b := AddressBuilder.chain calls AddressBuilder.new in
  AddressBuilder.p_street b = lastSet AddressBuilder.asStreet calls
  /\ AddressBuilder.p_city b = lastSet AddressBuilder.asCity calls
  /\ AddressBuilder.p_state b = lastSet AddressBuilder.asState calls
  /\ AddressBuilder.p_zipCode b = lastSet AddressBuilder.asZipCode calls
  /\ AddressBuilder.p_country b = lastSet AddressBuilder.asCountry calls.
Proof.
  cbv zeta. unfold AddressBuilder.chain.
  repeat split; chain_field_tac AddressBuilder.invoke.
Qed.

Lemma ProductBuilder_chain (calls : list ProductBuilder.Call) :
  let b := ProductBuilder.chain calls ProductBuilder.new in
  ProductBuilder.p_name b = lastSet ProductBuilder.asName calls
  /\ ProductBuilder.p_description b = lastSet ProductBuilder.asDescription calls
  /\ ProductBuilder.p_price b = lastSet ProductBuilder.asPrice calls
  /\ ProductBuilder.p_sku b = lastSet ProductBuilder.asSku calls
  /\ ProductBuilder.p_category b = lastSet ProductBuilder.asCategory calls
  /\ ProductBuilder.p_inStock b = lastSet ProductBuilder.asStockStatus calls
  /\ ProductBuilder.p_quantity b = lastSet ProductBuilder.asQuantity calls.
Proof.
  cbv zeta. unfold ProductBuilder.chain.
  repeat split; chain_field_tac ProductBuilder.invoke.
Qed.

Lemma OrderBuilder_chain_total (calls : list OrderBuilder.Call) :
  forall b,
    OrderBuilder.p_total (OrderBuilder.chain calls b) = OrderBuilder.p_total b.
Proof.
  unfold OrderBuilder.chain.
  induction calls as [|c rest IH]; intros b; simpl.
  - reflexivity.
  - rewrite IH. destruct c; reflexivity.
Qed.

Lemma OrderBuilder_chain (calls : list OrderBuilder.Call) :
  let b := OrderBuilder.chain calls OrderBuilder.new in
  OrderBuilder.p_orderNumber b = lastSet OrderBuilder.asOrderNumber calls
  /\ OrderBuilder.p_user b = lastSet OrderBuilder.asUser calls
  /\ OrderBuilder.p_items b = lastSet OrderBuilder.asItems calls
  /\ OrderBuilder.p_shippingAddress b
     = lastSet OrderBuilder.asShippingAddress calls
  /\ OrderBuilder.p_billingAddress b
     = lastSet OrderBuilder.asBillingAddress calls
  /\ OrderBuilder.p_status b = lastSet OrderBuilder.asStatus calls
  /\ OrderBuilder.p_paymentMethod b = lastSet OrderBuilder.asPaymentMethod calls
  /\ OrderBuilder.p_total b = None.
Proof.
  cbv zeta. unfold OrderBuilder.chain.
  repeat split; try chain_field_tac OrderBuilder.invoke.
  apply (OrderBuilder_chain_total calls OrderBuilder.new).
Qed.

(** ** Addresses *)

(** C5, as stated, fails: a country given with [withCountry] survives
    [buildUS()]. *)
Lemma C5_buildUS_keeps_overridden_country :
  AddressBuilder.country
    (fst (AddressBuilder.buildUS Demo.faker
            (AddressBuilder.withCountry "Canada" AddressBuilder.new) 0))
  <> "United States".
Proof. cbn. discriminate. Qed.

(** C5, amended. [buildUS()] returns the country the builder holds, and
    ["United States"] when it holds none: after a chain of [withX] calls
    on a new builder, the country of the last [withCountry] call if there
    is one, and ["United States"] otherwise. *)
Theorem C5_buildUS_country :
  forall (F : Faker) (g : Gen F),
    (forall b : AddressBuilder.t,
       AddressBuilder.country (fst (AddressBuilder.buildUS F b g))
       = Js.nullish (AddressBuilder.p_country b) "United States")
    /\ (forall calls : list AddressBuilder.Call,
          resolved AddressBuilder.asCountry calls
            (fun c => c = "United States")
            (AddressBuilder.country
               (fst (AddressBuilder.buildUS F
                       (AddressBuilder.chain calls AddressBuilder.new) g)))).
Proof.
  intros F g.
  assert (Hb : forall b : AddressBuilder.t,
             AddressBuilder.country (fst (AddressBuilder.buildUS F b g))
             = Js.nullish (AddressBuilder.p_country b) "United States")
    by reflexivity.
  split; [exact Hb|].
  intros calls. unfold resolved. rewrite Hb.
  destruct (AddressBuilder_chain calls) as (_ & _ & _ & _ & Hc).
  rewrite Hc. destruct (lastSet AddressBuilder.asCountry calls); reflexivity.
Qed.

(** ** Reset *)

Lemma AddressBuilder_reset_build (F : Faker) (b : AddressBuilder.t) :
  AddressBuilder.build F (AddressBuilder.reset b)
  = AddressBuilder.build F AddressBuilder.new.
Proof. reflexivity. Qed.

Lemma ProductBuilder_reset_build (F : Faker) (b : ProductBuilder.t) :
  ProductBuilder.build F (ProductBuilder.reset b)
  = ProductBuilder.build F ProductBuilder.new.
Proof. reflexivity. Qed.

Lemma OrderBuilder_reset_build (F : Faker) (b : OrderBuilder.t) :
  OrderBuilder.build F (OrderBuilder.reset b)
  = OrderBuilder.build F OrderBuilder.new.
Proof. reflexivity. Qed.

(** C6. [AddressBuilder], [ProductBuilder] and [OrderBuilder] have a
    [reset] after which [build()] is the [build()] of a new builder, on
    the same generator state and leaving the same one; [UserBuilder] has
    no [reset] at all. *)
Theorem C6_UserBuilder_has_no_reset :
  forall (F : Faker),
    resetMethod (UserBuilderClass F) = None
    /\ Forall (fun c : BuilderClass F =>
                 exists r,
                   resetMethod c = Some r
                   /\ forall (b : instance c) (g : Gen F),
                        buildMethod c (r b) g
                        = buildMethod c (construct c) g)
              [AddressBuilderClass F; ProductBuilderClass F;
               OrderBuilderClass F].
Proof.
  intros F. split; [reflexivity|].
  repeat constructor; eexists; (split; [reflexivity|]); intros b g; reflexivity.
Qed.

(** ** Phone numbers and emails *)

Lemma fillsFormat_nil (out : string) :
  fillsFormat "" out = true -> out = "".
Proof. destruct out; [reflexivity|discriminate]. Qed.

Lemma fillsFormat_cons (f : ascii) (format out : string) :
  fillsFormat (String f format) out = true ->
  exists o out',
    out = String o out'
    /\ (if Ascii.eqb f "#" then Js.isDigit o
        else if Ascii.eqb f "!"
             then Js.isDigit o && Nat.leb 50 (nat_of_ascii o)
             else Ascii.eqb f o) = true
    /\ fillsFormat format out' = true.
Proof.
  destruct out as [|o out']; simpl; [discriminate|].
  intros H. apply andb_prop in H. destruct H as [H1 H2].
  exists o, out'. auto.
Qed.

Lemma fillsFormat_hash (format out : string) :
  fillsFormat (String "#" format) out = true ->
  exists o out',
    out = String o out' /\ Js.isDigit o = true
    /\ fillsFormat format out' = true.
Proof. intros H. apply fillsFormat_cons in H. exact H. Qed.

Lemma fillsFormat_hyphen (format out : string) :
  fillsFormat (String "-" format) out = true ->
  exists out', out = String "-" out' /\ fillsFormat format out' = true.
Proof.
  intros H. apply fillsFormat_cons in H.
  destruct H as (o & out' & -> & D & H).
  change (Ascii.eqb "-" o = true) in D.
  apply Ascii.eqb_eq in D. subst o. eauto.
Qed.

Lemma fillsFormat_phoneFormat (out : string) :
  fillsFormat Random.phoneFormat out = true -> isPhonePattern out = true.
Proof.
  unfold Random.phoneFormat. intros H.
  repeat match type of H with
         | fillsFormat (String "#"%char _) _ = true =>
             let D := fresh "D" in
             apply fillsFormat_hash in H;
             destruct H as (? & ? & -> & D & H)
         | fillsFormat (String "-"%char _) _ = true =>
             apply fillsFormat_hyphen in H;
             destruct H as (? & -> & H)
         end.
  apply fillsFormat_nil in H. subst.
  unfold isPhonePattern. cbn [list_ascii_of_string].
  repeat match goal with
         | E : Js.isDigit _ = true |- _ => rewrite E; clear E
         end.
  reflexivity.
Qed.

Lemma Demo_phone_law : PhoneNumberLaw Demo.faker.
Proof.
  intros format. cbn.
  induction format as [|f rest IH]; intros g; simpl.
  - reflexivity.
  - rewrite IH, andb_true_r.
    destruct (Ascii.eqb f "#"); [destruct (Nat.even g); reflexivity|].
    destruct (Ascii.eqb f "!"); [destruct (Nat.even g); reflexivity|].
    apply Ascii.eqb_refl.
Qed.

(** C8. Where [faker.phone.number] fills its format as documented,
    [randomPhone()] returns, from every generator state, three digits, a
    hyphen, three digits, a hyphen and four digits; [randomPhone] and
    [randomEmail] are the faker calls themselves, functions of the
    generator state: from equal states they give equal results and leave
    equal states, and after [setSeed(s)] the result does not depend on
    what the state was before. *)
Theorem C8_randomPhone_pattern :
  forall (F : Faker),
    PhoneNumberLaw F ->
    forall (g : Gen F),
      isPhonePattern (fst (Random.randomPhone F g)) = true
      /\ Random.randomPhone F g = phone_number F "###-###-####" g
      /\ Random.randomEmail F g = internet_email F g
      /\ (forall (s : Js.number) (g' : Gen F),
            seeded s (Random.randomPhone F) g
            = seeded s (Random.randomPhone F) g'
            /\ seeded s (Random.randomEmail F) g
               = seeded s (Random.randomEmail F) g').
Proof.
  intros F law g. split.
  - apply fillsFormat_phoneFormat. apply law.
  - repeat split.
Qed.

Lemma C8_randomPhone_pattern_witness :
  isPhonePattern (fst (Random.randomPhone Demo.faker 3)) = true.
Proof.
  exact (proj1 (C8_randomPhone_pattern Demo.faker Demo_phone_law 3)).
Defined.

(** ** Overrides and defaults *)

Lemma toUpperCase_length (s : string) :
  String.length (Js.toUpperCase s) = String.length s.
Proof. induction s as [|c r IH]; simpl; [reflexivity | now rewrite IH]. Qed.

Lemma upperAlphanumeric_text (F : Faker) (law : TextLaw F) (n : nat)
    (g : Gen F) :
  n <> 0 -> nonEmpty (fst (ProductBuilder.upperAlphanumeric F n g)).
Proof.
  intros Hn E.
  assert (L : String.length (fst (ProductBuilder.upperAlphanumeric F n g)) = n).
  { unfold ProductBuilder.upperAlphanumeric, bind, ret. simpl.
    rewrite toUpperCase_length. apply (alphanumeric_length F law). }
  rewrite E in L. simpl in L. congruence.
Qed.

Lemma defaultOrderNumber_text (F : Faker) (g : Gen F) :
  nonEmpty (fst (OrderBuilder.defaultOrderNumber F g)).
Proof. discriminate. Qed.

Lemma defaultItems_not_empty (F : Faker) (g : Gen F) :
  fst (OrderBuilder.defaultItems F g) <> [].
Proof. discriminate. Qed.

Ltac default_text F law :=
  first
    [ reflexivity
    | exact I
    | apply (firstName_text F law)
    | apply (lastName_text F law)
    | apply (email_text F law)
    | apply (password_text F law); discriminate
    | apply (productName_text F law)
    | apply (productDescription_text F law)
    | apply (department_text F law)
    | apply (upperAlphanumeric_text F law); discriminate
    | apply (streetAddress_text F law)
    | apply (city_text F law)
    | apply (state_text F law)
    | apply (zipCode_text F law)
    | apply (country_text F law)
    | apply defaultOrderNumber_text
    | apply defaultItems_not_empty ].

Lemma UserBuilder_build_resolved (F : Faker) (law : TextLaw F)
    (calls : list UserBuilder.Call) (g : Gen F) :
  let u := fst (UserBuilder.build F
                  (UserBuilder.chain calls UserBuilder.new) g) in
  resolved UserBuilder.asFirstName calls nonEmpty (UserModel.firstName u)
  /\ resolved UserBuilder.asLastName calls nonEmpty (UserModel.lastName u)
  /\ resolved UserBuilder.asEmail calls nonEmpty (UserModel.email u)
  /\ resolved UserBuilder.asPassword calls nonEmpty (UserModel.password u)
  /\ UserModel.phone u = lastSet UserBuilder.asPhone calls.
Proof.
  pose proof (UserBuilder_chain calls) as H. cbv zeta in H.
  destruct H as (H1 & H2 & H3 & H4 & H5).
  cbv zeta. unfold resolved. rewrite <- H1, <- H2, <- H3, <- H4, <- H5.
  generalize (UserBuilder.chain calls UserBuilder.new).
  intros [[a|] [b|] [c|] [d|] e];
    unfold UserBuilder.build, bind; cbn [orElse ret fst snd
      UserBuilder.p_firstName UserBuilder.p_lastName UserBuilder.p_email
      UserBuilder.p_password UserBuilder.p_phone
      UserModel.firstName UserModel.lastName UserModel.email
      UserModel.password UserModel.phone];
    repeat split; default_text F law.
Qed.

Lemma AddressBuilder_build_resolved (F : Faker) (law : TextLaw F)
    (calls : list AddressBuilder.Call) (g : Gen F) :
  let a := fst (AddressBuilder.build F
                  (AddressBuilder.chain calls AddressBuilder.new) g) in
  resolved AddressBuilder.asStreet calls nonEmpty (AddressBuilder.street a)
  /\ resolved AddressBuilder.asCity calls nonEmpty (AddressBuilder.city a)
  /\ resolved AddressBuilder.asState calls nonEmpty (AddressBuilder.state a)
  /\ resolved AddressBuilder.asZipCode calls nonEmpty (AddressBuilder.zipCode a)
  /\ resolved AddressBuilder.asCountry calls nonEmpty (AddressBuilder.country a).
Proof.
  pose proof (AddressBuilder_chain calls) as H. cbv zeta in H.
  destruct H as (H1 & H2 & H3 & H4 & H5).
  cbv zeta. unfold resolved. rewrite <- H1, <- H2, <- H3, <- H4, <- H5.
  generalize (AddressBuilder.chain calls AddressBuilder.new).
  intros [[a|] [b|] [c|] [d|] [e|]];
    unfold AddressBuilder.build, bind; cbn [orElse ret fst snd
      AddressBuilder.p_street AddressBuilder.p_city AddressBuilder.p_state
      AddressBuilder.p_zipCode AddressBuilder.p_country
      AddressBuilder.street AddressBuilder.city AddressBuilder.state
      AddressBuilder.zipCode AddressBuilder.country];
    repeat split; default_text F law.
Qed.

Lemma ProductBuilder_build_resolved (F : Faker) (law : TextLaw F)
    (calls : list ProductBuilder.Call) (g : Gen F) :
  let p := fst (ProductBuilder.build F
                  (ProductBuilder.chain calls ProductBuilder.new) g) in
  resolved ProductBuilder.asName calls nonEmpty (ProductBuilder.name p)
  /\ resolved ProductBuilder.asDescription calls nonEmpty
       (ProductBuilder.description p)
  /\ resolved ProductBuilder.asPrice calls (fun _ => True)
       (ProductBuilder.price p)
  /\ resolved ProductBuilder.asSku calls nonEmpty (ProductBuilder.sku p)
  /\ resolved ProductBuilder.asCategory calls nonEmpty
       (ProductBuilder.category p)
  /\ resolved ProductBuilder.asStockStatus calls (fun _ => True)
       (ProductBuilder.inStock p)
  /\ ProductBuilder.quantity p = lastSet ProductBuilder.asQuantity calls.
Proof.
  pose proof (ProductBuilder_chain calls) as H. cbv zeta in H.
  destruct H as (H1 & H2 & H3 & H4 & H5 & H6 & H7).
  cbv zeta. unfold resolved.
  rewrite <- H1, <- H2, <- H3, <- H4, <- H5, <- H6, <- H7.
  generalize (ProductBuilder.chain calls ProductBuilder.new).
  intros [[a|] [b|] [c|] [d|] [e|] [f|] q];
    unfold ProductBuilder.build, bind; cbn [orElse ret fst snd
      ProductBuilder.p_name ProductBuilder.p_description
      ProductBuilder.p_price ProductBuilder.p_sku ProductBuilder.p_category
      ProductBuilder.p_inStock ProductBuilder.p_quantity
      ProductBuilder.name ProductBuilder.description ProductBuilder.price
      ProductBuilder.sku ProductBuilder.category ProductBuilder.inStock
      ProductBuilder.quantity];
    repeat split; default_text F law.
Qed.

Lemma defaultUser_filled (F : Faker) (law : TextLaw F) (g : Gen F) :
  userFilled (fst (OrderBuilder.defaultUser F g)).
Proof.
  unfold userFilled, OrderBuilder.defaultUser, bind, ret. cbn.
  repeat split; default_text F law.
Qed.

Lemma defaultShippingAddress_filled (F : Faker) (law : TextLaw F)
    (g : Gen F) :
  addressFilled (fst (OrderBuilder.defaultShippingAddress F g)).
Proof.
  unfold addressFilled, OrderBuilder.defaultShippingAddress, bind, ret. cbn.
  split; [default_text F law|]. split; [default_text F law|].
  split; [default_text F law|]. split; [default_text F law|].
  discriminate.
Qed.

Lemma defaultItems_filled (F : Faker) (law : TextLaw F) (g : Gen F) :
  itemsFilled (fst (OrderBuilder.defaultItems F g)).
Proof.
  unfold itemsFilled. split; [apply defaultItems_not_empty|].
  unfold OrderBuilder.defaultItems, bind, ret. cbn.
  constructor; [|constructor].
  unfold productFilled. cbn.
  split; [default_text F law|]. split; [default_text F law|].
  split; [|default_text F law].
  apply (upperAlphanumeric_text F law 10). discriminate.
Qed.

Lemma OrderBuilder_build_resolved (F : Faker) (law : TextLaw F)
    (calls : list OrderBuilder.Call) (g : Gen F) :
  let o := fst (OrderBuilder.build F
                  (OrderBuilder.chain calls OrderBuilder.new) g) in
  resolved OrderBuilder.asOrderNumber calls nonEmpty
    (OrderBuilder.orderNumber o)
  /\ resolved OrderBuilder.asUser calls userFilled (OrderBuilder.user o)
  /\ resolved OrderBuilder.asItems calls itemsFilled (OrderBuilder.items o)
  /\ resolved OrderBuilder.asShippingAddress calls addressFilled
       (OrderBuilder.shippingAddress o)
  /\ OrderBuilder.billingAddress o
     = lastSet OrderBuilder.asBillingAddress calls
  /\ resolved OrderBuilder.asStatus calls (fun s => s = OrderBuilder.pending)
       (OrderBuilder.status o)
  /\ resolved OrderBuilder.asPaymentMethod calls
       (fun m => m = "Credit Card") (OrderBuilder.paymentMethod o).
Proof.
  pose proof (OrderBuilder_chain calls) as H. cbv zeta in H.
  destruct H as (H1 & H2 & H3 & H4 & H5 & H6 & H7 & _).
  cbv zeta. unfold resolved.
  rewrite <- H1, <- H2, <- H3, <- H4, <- H5, <- H6, <- H7.
  generalize (OrderBuilder.chain calls OrderBuilder.new).
  intros [[a|] [b|] [c|] [d|] e t [f|] [h|]];
    unfold OrderBuilder.build, bind; cbn [orElse ret fst snd Js.nullish
      OrderBuilder.p_orderNumber OrderBuilder.p_user OrderBuilder.p_items
      OrderBuilder.p_shippingAddress OrderBuilder.p_billingAddress
      OrderBuilder.p_status OrderBuilder.p_paymentMethod
      OrderBuilder.orderNumber OrderBuilder.user OrderBuilder.items
      OrderBuilder.shippingAddress OrderBuilder.billingAddress
      OrderBuilder.status OrderBuilder.paymentMethod];
    (split; [first [reflexivity | apply defaultOrderNumber_text]|]);
    (split; [first [reflexivity | apply (defaultUser_filled F law)]|]);
    (split; [first [reflexivity | apply (defaultItems_filled F law)]|]);
    (split; [first [reflexivity
                   | apply (defaultShippingAddress_filled F law)]|]);
    repeat split.
Qed.

Lemma Demo_alphanumeric_length (n g : nat) :
  String.length (Demo.alphanumeric n g) = n.
Proof.
  revert g. induction n as [|n IH]; intros g; simpl;
    [reflexivity | now rewrite IH].
Qed.

Lemma Demo_answer_text (even odd : string) (g : nat) :
  nonEmpty even -> nonEmpty odd -> nonEmpty (fst (Demo.answer even odd g)).
Proof. intros He Ho. unfold Demo.answer. simpl. now destruct (Nat.even g). Qed.

Lemma Demo_text_law : TextLaw Demo.faker.
Proof.
  constructor; cbn [Demo.faker person_firstName person_lastName
      internet_email internet_password commerce_productName
      commerce_productDescription commerce_department string_alphanumeric
      location_streetAddress location_city location_state location_zipCode
      location_country Gen];
    try (intros g; apply Demo_answer_text; discriminate).
  - intros [[|n]|] g H; [congruence| |]; discriminate.
  - intros n g. apply Demo_alphanumeric_length.
  - intros [|] g; apply Demo_answer_text; discriminate.
Qed.

(** C4. Where the faker generators return text: after any chain of
    [withX] calls on a new builder, [build()] gives every field the value
    of the last call that set it, and gives every required field no call
    set a value that is there and, for strings, not empty: a defaulted
    user has non-empty names, email and password, a defaulted shipping
    address five non-empty strings, and defaulted items are one or more
    items whose product has non-empty name, description, sku and
    category; the optional fields [phone], [quantity] and
    [billingAddress] are exactly what the calls left, absent when none
    set them.  So [new UserBuilder().withEmail('a@x.com')
    .withPassword('P1').build()] has that email and password, non-empty
    first and last names and no phone. *)
Theorem C4_overrides_win_defaults_fill :
  forall (F : Faker),
    TextLaw F ->
    (forall calls (g : Gen F),
       let u := fst (UserBuilder.build F
                       (UserBuilder.chain calls UserBuilder.new) g) in
       resolved UserBuilder.asFirstName calls nonEmpty (UserModel.firstName u)
       /\ resolved UserBuilder.asLastName calls nonEmpty (UserModel.lastName u)
       /\ resolved UserBuilder.asEmail calls nonEmpty (UserModel.email u)
       /\ resolved UserBuilder.asPassword calls nonEmpty (UserModel.password u)
       /\ UserModel.phone u = lastSet UserBuilder.asPhone calls)
    /\ (forall calls (g : Gen F),
          let a := fst (AddressBuilder.build F
                          (AddressBuilder.chain calls AddressBuilder.new) g) in
          resolved AddressBuilder.asStreet calls nonEmpty
            (AddressBuilder.street a)
          /\ resolved AddressBuilder.asCity calls nonEmpty
               (AddressBuilder.city a)
          /\ resolved AddressBuilder.asState calls nonEmpty
               (AddressBuilder.state a)
          /\ resolved AddressBuilder.asZipCode calls nonEmpty
               (AddressBuilder.zipCode a)
          /\ resolved AddressBuilder.asCountry calls nonEmpty
               (AddressBuilder.country a))
    /\ (forall calls (g : Gen F),
          let p := fst (ProductBuilder.build F
                          (ProductBuilder.chain calls ProductBuilder.new) g) in
          resolved ProductBuilder.asName calls nonEmpty (ProductBuilder.name p)
          /\ resolved ProductBuilder.asDescription calls nonEmpty
               (ProductBuilder.description p)
          /\ resolved ProductBuilder.asPrice calls (fun _ => True)
               (ProductBuilder.price p)
          /\ resolved ProductBuilder.asSku calls nonEmpty (ProductBuilder.sku p)
          /\ resolved ProductBuilder.asCategory calls nonEmpty
               (ProductBuilder.category p)
          /\ resolved ProductBuilder.asStockStatus calls (fun _ => True)
               (ProductBuilder.inStock p)
          /\ ProductBuilder.quantity p
             = lastSet ProductBuilder.asQuantity calls)
    /\ (forall calls (g : Gen F),
          let o := fst (OrderBuilder.build F
                          (OrderBuilder.chain calls OrderBuilder.new) g) in
          resolved OrderBuilder.asOrderNumber calls nonEmpty
            (OrderBuilder.orderNumber o)
          /\ resolved OrderBuilder.asUser calls userFilled
               (OrderBuilder.user o)
          /\ resolved OrderBuilder.asItems calls itemsFilled
               (OrderBuilder.items o)
          /\ resolved OrderBuilder.asShippingAddress calls addressFilled
               (OrderBuilder.shippingAddress o)
          /\ OrderBuilder.billingAddress o
             = lastSet OrderBuilder.asBillingAddress calls
          /\ resolved OrderBuilder.asStatus calls
               (fun s => s = OrderBuilder.pending) (OrderBuilder.status o)
          /\ resolved OrderBuilder.asPaymentMethod calls
               (fun m => m = "Credit Card") (OrderBuilder.paymentMethod o))
    /\ (forall g : Gen F,
          let u := fst (UserBuilder.build F
                          (UserBuilder.withPassword "P1"
                             (UserBuilder.withEmail "a@x.com"
                                UserBuilder.new)) g) in
          UserModel.email u = "a@x.com"
          /\ UserModel.password u = "P1"
          /\ nonEmpty (UserModel.firstName u)
          /\ nonEmpty (UserModel.lastName u)
          /\ UserModel.phone u = None).
Proof.
  intros F law.
  split; [intros; apply UserBuilder_build_resolved; exact law|].
  split; [intros; apply AddressBuilder_build_resolved; exact law|].
  split; [intros; apply ProductBuilder_build_resolved; exact law|].
  split; [intros; apply OrderBuilder_build_resolved; exact law|].
  intros g.
  pose proof (UserBuilder_build_resolved F law
    [UserBuilder.WithEmail "a@x.com"; UserBuilder.WithPassword "P1"] g) as H.
  cbv zeta in H. destruct H as (H1 & H2 & H3 & H4 & H5).
  cbv zeta. repeat split; assumption.
Qed.

Lemma C4_overrides_win_defaults_fill_witness :
  (let u := fst (UserBuilder.build Demo.faker
                   (UserBuilder.withPassword "P1"
                      (UserBuilder.withEmail "a@x.com" UserBuilder.new)) 0) in
   UserModel.email u = "a@x.com"
   /\ UserModel.password u = "P1"
   /\ nonEmpty (UserModel.firstName u)
   /\ nonEmpty (UserModel.lastName u)
   /\ UserModel.phone u = None)
  /\ (let o := fst (OrderBuilder.build Demo.faker OrderBuilder.new 0) in
      userFilled (OrderBuilder.user o)
      /\ addressFilled (OrderBuilder.shippingAddress o)
      /\ itemsFilled (OrderBuilder.items o)).
Proof.
  destruct (C4_overrides_win_defaults_fill Demo.faker Demo_text_law)
    as (_ & _ & _ & Ho & H).
  split; [exact (H 0)|].
  destruct (Ho [] 0) as (_ & Hu & Hi & Ha & _).
  split; [exact Hu|]. split; [exact Ha | exact Hi].
Defined.

(** ** The factory *)

Lemma given_some {P A} (test : A -> bool) (o : P) (get : P -> option A) v :
  get o = Some v -> test v = true -> given test (Some o) get = Some v.
Proof. intros Hv Ht. unfold given. now rewrite Hv, Ht. Qed.

Ltac split_overrides :=
  unfold given, TestDataFactory.applyIf, TestDataFactory.always;
  repeat match goal with
         | |- context [match ?x with Some _ => _ | None => _ end] =>
             destruct x; cbn
         | |- context [if ?c then _ else _] => destruct c; cbn
         end.

Lemma createUser_forwards (F : Faker) (ov : option UserBuilder.t) :
  exists b,
    TestDataFactory.createUser F ov = UserBuilder.build F b
    /\ UserBuilder.p_email b = given Js.truthyString ov UserBuilder.p_email
    /\ UserBuilder.p_password b
       = given Js.truthyString ov UserBuilder.p_password
    /\ UserBuilder.p_firstName b
       = given Js.truthyString ov UserBuilder.p_firstName
    /\ UserBuilder.p_lastName b
       = given Js.truthyString ov UserBuilder.p_lastName
    /\ UserBuilder.p_phone b = given Js.truthyString ov UserBuilder.p_phone.
Proof.
  unfold TestDataFactory.createUser. eexists. split; [reflexivity|].
  destruct ov as [[a b c d e]|]; cbn; split_overrides; repeat split.
Qed.

Lemma createAddress_forwards (F : Faker) (ov : option AddressBuilder.t) :
  exists b,
    TestDataFactory.createAddress F ov = AddressBuilder.build F b
    /\ AddressBuilder.p_street b
       = given Js.truthyString ov AddressBuilder.p_street
    /\ AddressBuilder.p_city b = given Js.truthyString ov AddressBuilder.p_city
    /\ AddressBuilder.p_state b
       = given Js.truthyString ov AddressBuilder.p_state
    /\ AddressBuilder.p_zipCode b
       = given Js.truthyString ov AddressBuilder.p_zipCode
    /\ AddressBuilder.p_country b
       = given Js.truthyString ov AddressBuilder.p_country.
Proof.
  unfold TestDataFactory.createAddress. eexists. split; [reflexivity|].
  destruct ov as [[a b c d e]|]; cbn; split_overrides; repeat split.
Qed.

Lemma createProduct_forwards (F : Faker) (ov : option ProductBuilder.t) :
  exists b,
    TestDataFactory.createProduct F ov = ProductBuilder.build F b
    /\ ProductBuilder.p_name b = given Js.truthyString ov ProductBuilder.p_name
    /\ ProductBuilder.p_price b
       = given Js.truthyNumber ov ProductBuilder.p_price
    /\ ProductBuilder.p_category b
       = given Js.truthyString ov ProductBuilder.p_category
    /\ ProductBuilder.p_inStock b
       = given TestDataFactory.always ov ProductBuilder.p_inStock.
Proof.
  unfold TestDataFactory.createProduct. eexists. split; [reflexivity|].
  destruct ov as [[a b c d e f q]|]; cbn; split_overrides; repeat split.
Qed.

Lemma createOrder_forwards (F : Faker) (ov : option OrderBuilder.t) :
  exists b,
    TestDataFactory.createOrder F ov = OrderBuilder.build F b
    /\ OrderBuilder.p_user b
       = given TestDataFactory.always ov OrderBuilder.p_user
    /\ OrderBuilder.p_items b
       = given TestDataFactory.always ov OrderBuilder.p_items
    /\ OrderBuilder.p_shippingAddress b
       = given TestDataFactory.always ov OrderBuilder.p_shippingAddress
    /\ OrderBuilder.p_status b
       = given TestDataFactory.always ov OrderBuilder.p_status.
Proof.
  unfold TestDataFactory.createOrder. eexists. split; [reflexivity|].
  destruct ov as [[a b c d e t f h]|]; cbn; split_overrides; repeat split.
Qed.

Lemma UserBuilder_build_keeps (F : Faker) (b : UserBuilder.t) (g : Gen F) :
  let u := fst (UserBuilder.build F b g) in
  (forall v, UserBuilder.p_email b = Some v -> UserModel.email u = v)
  /\ (forall v, UserBuilder.p_password b = Some v -> UserModel.password u = v)
  /\ (forall v, UserBuilder.p_firstName b = Some v ->
                UserModel.firstName u = v)
  /\ (forall v, UserBuilder.p_lastName b = Some v -> UserModel.lastName u = v)
  /\ UserModel.phone u = UserBuilder.p_phone b.
Proof.
  cbv zeta. unfold UserBuilder.build, bind.
  repeat split; intros v H; cbn; rewrite H; reflexivity.
Qed.

Lemma AddressBuilder_build_keeps (F : Faker) (b : AddressBuilder.t)
    (g : Gen F) :
  let a := fst (AddressBuilder.build F b g) in
  (forall v, AddressBuilder.p_street b = Some v -> AddressBuilder.street a = v)
  /\ (forall v, AddressBuilder.p_city b = Some v -> AddressBuilder.city a = v)
  /\ (forall v, AddressBuilder.p_state b = Some v ->
                AddressBuilder.state a = v)
  /\ (forall v, AddressBuilder.p_zipCode b = Some v ->
                AddressBuilder.zipCode a = v)
  /\ (forall v, AddressBuilder.p_country b = Some v ->
                AddressBuilder.country a = v).
Proof.
  cbv zeta. unfold AddressBuilder.build, bind.
  repeat split; intros v H; cbn; rewrite H; reflexivity.
Qed.

Lemma ProductBuilder_build_keeps (F : Faker) (b : ProductBuilder.t)
    (g : Gen F) :
  let p := fst (ProductBuilder.build F b g) in
  (forall v, ProductBuilder.p_name b = Some v -> ProductBuilder.name p = v)
  /\ (forall v, ProductBuilder.p_price b = Some v ->
                ProductBuilder.price p = v)
  /\ (forall v, ProductBuilder.p_category b = Some v ->
                ProductBuilder.category p = v)
  /\ (forall v, ProductBuilder.p_inStock b = Some v ->
                ProductBuilder.inStock p = v).
Proof.
  cbv zeta. unfold ProductBuilder.build, bind.
  repeat split; intros v H; cbn; rewrite H; reflexivity.
Qed.

Lemma OrderBuilder_build_keeps (F : Faker) (b : OrderBuilder.t) (g : Gen F) :
  let o := fst (OrderBuilder.build F b g) in
  (forall v, OrderBuilder.p_user b = Some v -> OrderBuilder.user o = v)
  /\ (forall v, OrderBuilder.p_items b = Some v -> OrderBuilder.items o = v)
  /\ (forall v, OrderBuilder.p_shippingAddress b = Some v ->
                OrderBuilder.shippingAddress o = v)
  /\ (forall v, OrderBuilder.p_status b = Some v -> OrderBuilder.status o = v).
Proof.
  cbv zeta. unfold OrderBuilder.build, bind.
  repeat split; intros v H; cbn; rewrite H; reflexivity.
Qed.

Ltac carry K H :=
  let v := fresh "v" in
  let Hv := fresh "Hv" in
  let Ht := fresh "Ht" in
  intros v Hv Ht; apply K; rewrite H; apply given_some; assumption.

(** C3. The factory does not pass on every property its override record
    has.  [createProduct] never reads [description], [sku] and
    [quantity], and [createOrder] never reads [orderNumber],
    [billingAddress] and [paymentMethod]: a record holding one of them
    gives what no record at all gives, so [createProduct({ quantity: 5
    })] has no quantity and [createOrder({ paymentMethod: 'PayPal' })]
    pays by ['Credit Card'].  The properties that are read are tested for
    truthiness, [inStock] alone for presence: [createProduct({ inStock:
    false })] is out of stock, while [createProduct({ price: 0 })] gets a
    generated price and [createUser({ email: '' })] a generated email,
    like a call without a record. *)
Theorem C3_factory_drops_overrides :
  forall (F : Faker) (g : Gen F),
    (forall q,
       TestDataFactory.createProduct F
         (Some (ProductBuilder.withQuantity q ProductBuilder.new)) g
       = TestDataFactory.createProduct F None g)
    /\ ProductBuilder.quantity
         (fst (TestDataFactory.createProduct F
                 (Some (ProductBuilder.withQuantity 5%float
                          ProductBuilder.new)) g))
       = None
    /\ (forall v,
          TestDataFactory.createProduct F
            (Some (ProductBuilder.withSku v ProductBuilder.new)) g
          = TestDataFactory.createProduct F None g)
    /\ (forall v,
          TestDataFactory.createProduct F
            (Some (ProductBuilder.withDescription v ProductBuilder.new)) g
          = TestDataFactory.createProduct F None g)
    /\ (forall v,
          TestDataFactory.createOrder F
            (Some (OrderBuilder.withOrderNumber v OrderBuilder.new)) g
          = TestDataFactory.createOrder F None g)
    /\ (forall v,
          TestDataFactory.createOrder F
            (Some (OrderBuilder.withBillingAddress v OrderBuilder.new)) g
          = TestDataFactory.createOrder F None g)
    /\ (forall v,
          TestDataFactory.createOrder F
            (Some (OrderBuilder.withPaymentMethod v OrderBuilder.new)) g
          = TestDataFactory.createOrder F None g)
    /\ OrderBuilder.paymentMethod
         (fst (TestDataFactory.createOrder F
                 (Some (OrderBuilder.withPaymentMethod "PayPal"
                          OrderBuilder.new)) g))
       = "Credit Card"
    /\ ProductBuilder.inStock
         (fst (TestDataFactory.createProduct F
                 (Some (ProductBuilder.withStockStatus false
                          ProductBuilder.new)) g))
       = false
    /\ TestDataFactory.createProduct F
         (Some (ProductBuilder.withPrice 0%float ProductBuilder.new)) g
       = TestDataFactory.createProduct F None g
    /\ TestDataFactory.createUser F
         (Some (UserBuilder.withEmail "" UserBuilder.new)) g
       = TestDataFactory.createUser F None g.
Proof.
  intros F g. repeat split.
Qed.

(** On the small faker: the empty email and the zero price asked for are
    not what comes back. *)
Example falsy_overrides_are_dropped :
  UserModel.email
    (fst (TestDataFactory.createUser Demo.faker
            (Some (UserBuilder.withEmail "" UserBuilder.new)) 0))
  <> ""
  /\ PrimFloat.eqb
       (ProductBuilder.price
          (fst (TestDataFactory.createProduct Demo.faker
                  (Some (ProductBuilder.withPrice 0%float ProductBuilder.new))
                  0)))
       0%float
     = false.
Proof. split; [cbn; discriminate | vm_compute; reflexivity]. Qed.

(** The properties [createProduct] and [createOrder] never look at stay at
    the builder's defaults, whatever the record says. *)
Example createProduct_ignores_quantity :
  ProductBuilder.quantity
    (fst (TestDataFactory.createProduct Demo.faker
            (Some (ProductBuilder.withQuantity 5%float ProductBuilder.new)) 0))
  = None.
Proof. reflexivity. Qed.

Example createOrder_ignores_paymentMethod :
  OrderBuilder.paymentMethod
    (fst (TestDataFactory.createOrder Demo.faker
            (Some (OrderBuilder.withPaymentMethod "PayPal" OrderBuilder.new))
            0))
  = "Credit Card".
Proof. reflexivity. Qed.

(** What the factory does pass on.  Each of [createUser],
    [createAddress], [createProduct] and [createOrder] is [build()] on a
    builder in which a property the method reads (all five for users and
    addresses; [name], [price], [category], [inStock] for products;
    [user], [items], [shippingAddress], [status] for orders) is set
    exactly when the record has it with a truthy value (for [inStock]:
    has it); such a property appears in the result with the record's
    value. *)
Theorem factory_forwards_truthy_overrides :
  forall (F : Faker),
    (forall ov, exists b,
       TestDataFactory.createUser F ov = UserBuilder.build F b
       /\ UserBuilder.p_email b = given Js.truthyString ov UserBuilder.p_email
       /\ UserBuilder.p_password b
          = given Js.truthyString ov UserBuilder.p_password
       /\ UserBuilder.p_firstName b
          = given Js.truthyString ov UserBuilder.p_firstName
       /\ UserBuilder.p_lastName b
          = given Js.truthyString ov UserBuilder.p_lastName
       /\ UserBuilder.p_phone b
          = given Js.truthyString ov UserBuilder.p_phone)
    /\ (forall ov, exists b,
          TestDataFactory.createAddress F ov = AddressBuilder.build F b
          /\ AddressBuilder.p_street b
             = given Js.truthyString ov AddressBuilder.p_street
          /\ AddressBuilder.p_city b
             = given Js.truthyString ov AddressBuilder.p_city
          /\ AddressBuilder.p_state b
             = given Js.truthyString ov AddressBuilder.p_state
          /\ AddressBuilder.p_zipCode b
             = given Js.truthyString ov AddressBuilder.p_zipCode
          /\ AddressBuilder.p_country b
             = given Js.truthyString ov AddressBuilder.p_country)
    /\ (forall ov, exists b,
          TestDataFactory.createProduct F ov = ProductBuilder.build F b
          /\ ProductBuilder.p_name b
             = given Js.truthyString ov ProductBuilder.p_name
          /\ ProductBuilder.p_price b
             = given Js.truthyNumber ov ProductBuilder.p_price
          /\ ProductBuilder.p_category b
             = given Js.truthyString ov ProductBuilder.p_category
          /\ ProductBuilder.p_inStock b
             = given TestDataFactory.always ov ProductBuilder.p_inStock)
    /\ (forall ov, exists b,
          TestDataFactory.createOrder F ov = OrderBuilder.build F b
          /\ OrderBuilder.p_user b
             = given TestDataFactory.always ov OrderBuilder.p_user
          /\ OrderBuilder.p_items b
             = given TestDataFactory.always ov OrderBuilder.p_items
          /\ OrderBuilder.p_shippingAddress b
             = given TestDataFactory.always ov OrderBuilder.p_shippingAddress
          /\ OrderBuilder.p_status b
             = given TestDataFactory.always ov OrderBuilder.p_status)
    /\ (forall (o : UserBuilder.t) (g : Gen F),
          let u := fst (TestDataFactory.createUser F (Some o) g) in
          carries Js.truthyString (UserBuilder.p_email o) (UserModel.email u)
          /\ carries Js.truthyString (UserBuilder.p_password o)
               (UserModel.password u)
          /\ carries Js.truthyString (UserBuilder.p_firstName o)
               (UserModel.firstName u)
          /\ carries Js.truthyString (UserBuilder.p_lastName o)
               (UserModel.lastName u)
          /\ (forall v, UserBuilder.p_phone o = Some v ->
                        Js.truthyString v = true ->
                        UserModel.phone u = Some v))
    /\ (forall (o : AddressBuilder.t) (g : Gen F),
          let a := fst (TestDataFactory.createAddress F (Some o) g) in
          carries Js.truthyString (AddressBuilder.p_street o)
            (AddressBuilder.street a)
          /\ carries Js.truthyString (AddressBuilder.p_city o)
               (AddressBuilder.city a)
          /\ carries Js.truthyString (AddressBuilder.p_state o)
               (AddressBuilder.state a)
          /\ carries Js.truthyString (AddressBuilder.p_zipCode o)
               (AddressBuilder.zipCode a)
          /\ carries Js.truthyString (AddressBuilder.p_country o)
               (AddressBuilder.country a))
    /\ (forall (o : ProductBuilder.t) (g : Gen F),
          let p := fst (TestDataFactory.createProduct F (Some o) g) in
          carries Js.truthyString (ProductBuilder.p_name o)
            (ProductBuilder.name p)
          /\ carries Js.truthyNumber (ProductBuilder.p_price o)
               (ProductBuilder.price p)
          /\ carries Js.truthyString (ProductBuilder.p_category o)
               (ProductBuilder.category p)
          /\ carries TestDataFactory.always (ProductBuilder.p_inStock o)
               (ProductBuilder.inStock p))
    /\ (forall (o : OrderBuilder.t) (g : Gen F),
          let r := fst (TestDataFactory.createOrder F (Some o) g) in
          carries TestDataFactory.always (OrderBuilder.p_user o)
            (OrderBuilder.user r)
          /\ carries TestDataFactory.always (OrderBuilder.p_items o)
               (OrderBuilder.items r)
          /\ carries TestDataFactory.always (OrderBuilder.p_shippingAddress o)
               (OrderBuilder.shippingAddress r)
          /\ carries TestDataFactory.always (OrderBuilder.p_status o)
               (OrderBuilder.status r)).
Proof.
  intros F.
  split; [apply createUser_forwards|].
  split; [apply createAddress_forwards|].
  split; [apply createProduct_forwards|].
  split; [apply createOrder_forwards|].
  split; [|split; [|split]].
  - intros o g.
    destruct (createUser_forwards F (Some o)) as (b & E & H1 & H2 & H3 & H4 & H5).
    cbv zeta. rewrite E.
    destruct (UserBuilder_build_keeps F b g) as (K1 & K2 & K3 & K4 & K5).
    split; [carry K1 H1|]. split; [carry K2 H2|].
    split; [carry K3 H3|]. split; [carry K4 H4|].
    intros v Hv Ht. rewrite K5, H5. apply given_some; assumption.
  - intros o g.
    destruct (createAddress_forwards F (Some o))
      as (b & E & H1 & H2 & H3 & H4 & H5).
    cbv zeta. rewrite E.
    destruct (AddressBuilder_build_keeps F b g) as (K1 & K2 & K3 & K4 & K5).
    split; [carry K1 H1|]. split; [carry K2 H2|].
    split; [carry K3 H3|]. split; [carry K4 H4|]. carry K5 H5.
  - intros o g.
    destruct (createProduct_forwards F (Some o)) as (b & E & H1 & H2 & H3 & H4).
    cbv zeta. rewrite E.
    destruct (ProductBuilder_build_keeps F b g) as (K1 & K2 & K3 & K4).
    split; [carry K1 H1|]. split; [carry K2 H2|].
    split; [carry K3 H3|]. carry K4 H4.
  - intros o g.
    destruct (createOrder_forwards F (Some o)) as (b & E & H1 & H2 & H3 & H4).
    cbv zeta. rewrite E.
    destruct (OrderBuilder_build_keeps F b g) as (K1 & K2 & K3 & K4).
    split; [carry K1 H1|]. split; [carry K2 H2|].
    split; [carry K3 H3|]. carry K4 H4.
Qed.

Lemma factory_forwards_truthy_overrides_witness :
  UserModel.email
    (fst (TestDataFactory.createUser Demo.faker
            (Some (UserBuilder.withEmail "qa@example.com" UserBuilder.new)) 0))
  = "qa@example.com"
  /\ ProductBuilder.inStock
       (fst (TestDataFactory.createProduct Demo.faker
               (Some (ProductBuilder.withStockStatus false ProductBuilder.new))
               0))
     = false.
Proof.
  destruct (factory_forwards_truthy_overrides Demo.faker)
    as (_ & _ & _ & _ & HU & _ & HP & _).
  split.
  - destruct (HU (UserBuilder.withEmail "qa@example.com" UserBuilder.new) 0)
      as (He & _).
    apply He; reflexivity.
  - destruct (HP (ProductBuilder.withStockStatus false ProductBuilder.new) 0)
      as (_ & _ & _ & Hs).
    apply Hs; reflexivity.
Defined.

(** * Further properties of the builders *)

(** X1. A [UserBuilder] with its four required fields overridden draws
    nothing: [build()] returns the overrides and leaves the generator
    where it was.  [TestDataFactory.createAdminUser()] is such a build. *)
Theorem UserBuilder_full_override_draws_nothing :
  forall (F : Faker) (b : UserBuilder.t) (g : Gen F) f l e p,
    UserBuilder.p_firstName b = Some f ->
    UserBuilder.p_lastName b = Some l ->
    UserBuilder.p_email b = Some e ->
    UserBuilder.p_password b = Some p ->
    UserBuilder.build F b g
    = ({| UserModel.firstName := f; UserModel.lastName := l;
          UserModel.email := e; UserModel.password := p;
          UserModel.phone := UserBuilder.p_phone b |}, g)
    /\ TestDataFactory.createAdminUser F g
       = ({| UserModel.firstName := "Admin"; UserModel.lastName := "User";
             UserModel.email := "admin@example.com";
             UserModel.password := "AdminPass123!";
             UserModel.phone := None |}, g).
Proof.
  intros F b g f l e p Hf Hl He Hp. split; [|reflexivity].
  unfold UserBuilder.build, bind. rewrite Hf, Hl, He, Hp. reflexivity.
Qed.

Lemma UserBuilder_full_override_draws_nothing_witness :
  snd (UserBuilder.build Demo.faker
         (UserBuilder.withPassword "pw"
            (UserBuilder.withEmail "e@x.org"
               (UserBuilder.withLastName "L"
                  (UserBuilder.withFirstName "F" UserBuilder.new)))) 7)
  = 7.
Proof.
  rewrite (proj1 (UserBuilder_full_override_draws_nothing Demo.faker
                    (UserBuilder.withPassword "pw"
                       (UserBuilder.withEmail "e@x.org"
                          (UserBuilder.withLastName "L"
                             (UserBuilder.withFirstName "F" UserBuilder.new))))
                    7 "F" "L" "e@x.org" "pw"
                    eq_refl eq_refl eq_refl eq_refl)).
  reflexivity.
Defined.

(** X2. An [AddressBuilder] with all five fields overridden draws nothing
    in [build()]; [buildUS()] never draws for the country, so four
    overrides suffice there; and once state and country are overridden
    the two resolvers agree, result and generator state. *)
Theorem AddressBuilder_override_draws :
  forall (F : Faker) (b : AddressBuilder.t) (g : Gen F),
    (forall s c st z co,
       AddressBuilder.p_street b = Some s ->
       AddressBuilder.p_city b = Some c ->
       AddressBuilder.p_state b = Some st ->
       AddressBuilder.p_zipCode b = Some z ->
       AddressBuilder.p_country b = Some co ->
       AddressBuilder.build F b g
       = ({| AddressBuilder.street := s; AddressBuilder.city := c;
             AddressBuilder.state := st; AddressBuilder.zipCode := z;
             AddressBuilder.country := co |}, g))
    /\ (forall s c st z,
          AddressBuilder.p_street b = Some s ->
          AddressBuilder.p_city b = Some c ->
          AddressBuilder.p_state b = Some st ->
          AddressBuilder.p_zipCode b = Some z ->
          AddressBuilder.buildUS F b g
          = ({| AddressBuilder.street := s; AddressBuilder.city := c;
                AddressBuilder.state := st; AddressBuilder.zipCode := z;
                AddressBuilder.country :=
                  Js.nullish (AddressBuilder.p_country b) "United States" |},
             g))
    /\ (forall st co,
          AddressBuilder.p_state b = Some st ->
          AddressBuilder.p_country b = Some co ->
          AddressBuilder.buildUS F b g = AddressBuilder.build F b g).
Proof.
  intros F b g. split; [|split].
  - intros s c st z co Hs Hc Hst Hz Hco.
    unfold AddressBuilder.build, bind.
    rewrite Hs, Hc, Hst, Hz, Hco. reflexivity.
  - intros s c st z Hs Hc Hst Hz.
    unfold AddressBuilder.buildUS, bind.
    rewrite Hs, Hc, Hst, Hz. reflexivity.
  - intros st co Hst Hco.
    unfold AddressBuilder.buildUS, AddressBuilder.build, bind.
    rewrite Hst, Hco. reflexivity.
Qed.

Lemma AddressBuilder_override_draws_witness :
  AddressBuilder.buildUS Demo.faker
    (AddressBuilder.withCountry "Canada"
       (AddressBuilder.withState "BC" AddressBuilder.new)) 4
  = AddressBuilder.build Demo.faker
      (AddressBuilder.withCountry "Canada"
         (AddressBuilder.withState "BC" AddressBuilder.new)) 4.
Proof.
  destruct (AddressBuilder_override_draws Demo.faker
              (AddressBuilder.withCountry "Canada"
                 (AddressBuilder.withState "BC" AddressBuilder.new)) 4)
    as (_ & _ & H).
  apply (H "BC" "Canada"); reflexivity.
Defined.

(** X3. A [ProductBuilder] with name, description, price, sku, category
    and stock status overridden draws nothing: [build()] returns the
    overrides, with the quantity the builder holds, and leaves the
    generator where it was. *)
Theorem ProductBuilder_full_override_draws_nothing :
  forall (F : Faker) (b : ProductBuilder.t) (g : Gen F) n d p s c i,
    ProductBuilder.p_name b = Some n ->
    ProductBuilder.p_description b = Some d ->
    ProductBuilder.p_price b = Some p ->
    ProductBuilder.p_sku b = Some s ->
    ProductBuilder.p_category b = Some c ->
    ProductBuilder.p_inStock b = Some i ->
    ProductBuilder.build F b g
    = ({| ProductBuilder.name := n; ProductBuilder.description := d;
          ProductBuilder.price := p; ProductBuilder.sku := s;
          ProductBuilder.category := c; ProductBuilder.inStock := i;
          ProductBuilder.quantity := ProductBuilder.p_quantity b |}, g).
Proof.
  intros F b g n d p s c i Hn Hd Hp Hs Hc Hi.
  unfold ProductBuilder.build, bind.
  rewrite Hn, Hd, Hp, Hs, Hc, Hi. reflexivity.
Qed.

Lemma ProductBuilder_full_override_draws_nothing_witness :
  snd (ProductBuilder.build Demo.faker
         (ProductBuilder.withStockStatus false
            (ProductBuilder.withCategory "C"
               (ProductBuilder.withSku "S"
                  (ProductBuilder.withPrice 5%float
                     (ProductBuilder.withDescription "D"
                        (ProductBuilder.withName "N" ProductBuilder.new))))))
         2)
  = 2.
Proof.
  rewrite (ProductBuilder_full_override_draws_nothing Demo.faker
             (ProductBuilder.withStockStatus false
                (ProductBuilder.withCategory "C"
                   (ProductBuilder.withSku "S"
                      (ProductBuilder.withPrice 5%float
                         (ProductBuilder.withDescription "D"
                            (ProductBuilder.withName "N"
                               ProductBuilder.new))))))
             2 "N" "D" 5%float "S" "C" false
             eq_refl eq_refl eq_refl eq_refl eq_refl eq_refl).
  reflexivity.
Defined.



(** X5. An empty items list is taken as given: [withItems([]).build()]
    and [createOrder({ items: [] })] return an order with no items and
    total 0; no default item is put in its place. *)
Theorem empty_items_give_empty_order :
  forall (F : Faker) (g : Gen F),
    (forall b : OrderBuilder.t,
       OrderBuilder.p_items b = Some [] ->
       OrderBuilder.items (fst (OrderBuilder.build F b g)) = []
       /\ OrderBuilder.total (fst (OrderBuilder.build F b g)) = 0%float)
    /\ (forall ov : OrderBuilder.t,
          OrderBuilder.p_items ov = Some [] ->
          let r := fst (TestDataFactory.createOrder F (Some ov) g) in
          OrderBuilder.items r = [] /\ OrderBuilder.total r = 0%float).
Proof.
  intros F g.
  assert (Hb : forall b : OrderBuilder.t,
             OrderBuilder.p_items b = Some [] ->
             OrderBuilder.items (fst (OrderBuilder.build F b g)) = []
             /\ OrderBuilder.total (fst (OrderBuilder.build F b g)) = 0%float).
  { intros b H. rewrite build_total, (build_items_explicit F b g [] H).
    split; reflexivity. }
  split; [exact Hb|].
  intros ov H r. subst r.
  destruct (createOrder_forwards F (Some ov)) as (b & E & _ & Hi & _).
  rewrite E. apply Hb. rewrite Hi. unfold given. rewrite H. reflexivity.
Qed.

Lemma empty_items_give_empty_order_witness :
  OrderBuilder.total
    (fst (TestDataFactory.createOrder Demo.faker
            (Some (OrderBuilder.withItems [] OrderBuilder.new)) 0))
  = 0%float.
Proof.
  destruct (empty_items_give_empty_order Demo.faker 0) as (_ & H).
  exact (proj2 (H (OrderBuilder.withItems [] OrderBuilder.new) eq_refl)).
Defined.



Lemma upperChar_not_lower (c : ascii) :
  JsText.isLower (Js.upperChar c) = false.
Proof.
  destruct c as [[] [] [] [] [] [] [] []]; reflexivity.
Qed.

Lemma toUpperCase_no_lower (s : string) :
  JsText.all (fun c => negb (JsText.isLower c)) (Js.toUpperCase s) = true.
Proof.
  induction s as [|c r IH]; simpl; [reflexivity|].
  now rewrite upperChar_not_lower, IH.
Qed.

(** X7. Where [faker.string.alphanumeric(n)] returns [n] characters: a
    product built without a sku override gets a sku of 10 characters none
    of which is a lowercase letter, and an order built without an order
    number gets ["ORD-"] followed by 8 such characters. *)
Theorem default_sku_and_order_number_format :
  forall (F : Faker),
    TextLaw F ->
    (forall (b : ProductBuilder.t) (g : Gen F),
       ProductBuilder.p_sku b = None ->
       let sku := ProductBuilder.sku (fst (ProductBuilder.build F b g)) in
       String.length sku = 10
       /\ JsText.all (fun c => negb (JsText.isLower c)) sku = true)
    /\ (forall (b : OrderBuilder.t) (g : Gen F),
          OrderBuilder.p_orderNumber b = None ->
          exists s,
            OrderBuilder.orderNumber (fst (OrderBuilder.build F b g))
            = "ORD-" ++ s
            /\ String.length s = 8
            /\ JsText.all (fun c => negb (JsText.isLower c)) s = true).
Proof.
  intros F law. split.
  - intros b g H sku. subst sku.
    unfold ProductBuilder.build, bind. rewrite H. cbn.
    split; [|apply toUpperCase_no_lower].
    rewrite toUpperCase_length. apply (alphanumeric_length F law).
  - intros b g H.
    unfold OrderBuilder.build, bind. rewrite H. cbn.
    eexists. split; [reflexivity|].
    split; [|apply toUpperCase_no_lower].
    rewrite toUpperCase_length. apply (alphanumeric_length F law).
Qed.

Lemma default_sku_and_order_number_format_witness :
  String.length
    (ProductBuilder.sku
       (fst (ProductBuilder.build Demo.faker ProductBuilder.new 0)))
  = 10.
Proof.
  destruct (default_sku_and_order_number_format Demo.faker Demo_text_law)
    as (H & _).
  exact (proj1 (H ProductBuilder.new 0 eq_refl)).
Defined.

(** X8. The shipping address an order gets by default is drawn exactly as
    [new AddressBuilder().buildUS()] draws one, at the generator state
    reached after the items, the order number and the user: same address,
    same state left behind; in particular its country is
    ["United States"]. *)
Theorem default_shipping_address_is_buildUS :
  forall (F : Faker) (b : OrderBuilder.t) (g : Gen F),
    OrderBuilder.p_shippingAddress b = None ->
    let g1 := snd (orElse (OrderBuilder.p_items b)
                     (OrderBuilder.defaultItems F) g) in
    let g2 := snd (orElse (OrderBuilder.p_orderNumber b)
                     (OrderBuilder.defaultOrderNumber F) g1) in
    let g3 := snd (orElse (OrderBuilder.p_user b)
                     (OrderBuilder.defaultUser F) g2) in
    OrderBuilder.shippingAddress (fst (OrderBuilder.build F b g))
    = fst (TestDataFactory.createUSAddress F g3)
    /\ snd (OrderBuilder.build F b g)
       = snd (TestDataFactory.createUSAddress F g3)
    /\ AddressBuilder.country
         (OrderBuilder.shippingAddress (fst (OrderBuilder.build F b g)))
       = "United States".
Proof.
  intros F b g H g1 g2 g3. subst g1 g2 g3.
  unfold OrderBuilder.build, bind. rewrite H. cbn. repeat split.
Qed.

Lemma default_shipping_address_is_buildUS_witness :
  AddressBuilder.country
    (OrderBuilder.shippingAddress
       (fst (OrderBuilder.build Demo.faker OrderBuilder.new 0)))
  = "United States".
Proof.
  destruct (default_shipping_address_is_buildUS Demo.faker
              OrderBuilder.new 0 eq_refl) as (_ & _ & H).
  exact H.
Defined.

(** ** Bulk creation *)

Lemma arrayFrom_length (F : Faker) A (f : Rand (Gen F) A) (count : nat) :
  forall g, List.length (fst (TestDataFactory.arrayFrom F count f g)) = count.
Proof.
  induction count as [|n IH]; intros g; simpl; [reflexivity|].
  unfold bind. simpl. now rewrite IH.
Qed.

Lemma arrayFrom_Forall (F : Faker) A (f : Rand (Gen F) A) (P : A -> Prop) :
  (forall g, P (fst (f g))) ->
  forall count g, Forall P (fst (TestDataFactory.arrayFrom F count f g)).
Proof.
  intros Hf count.
  induction count as [|n IH]; intros g; simpl; [constructor|].
  unfold bind. simpl. constructor; [apply Hf | apply IH].
Qed.

Lemma arrayFrom_add (F : Faker) A (f : Rand (Gen F) A) (m n : nat) :
  forall g,
    let first := TestDataFactory.arrayFrom F m f g in
    let second := TestDataFactory.arrayFrom F n f (snd first) in
    TestDataFactory.arrayFrom F (m + n) f g
    = ((fst first ++ fst second)%list, snd second).
Proof.
  induction m as [|m IH]; intros g; simpl.
  - now destruct (TestDataFactory.arrayFrom F n f g).
  - unfold bind. simpl. rewrite IH. reflexivity.
Qed.

(** X9. [createUsers(count)] and [createProducts(count, category)] return
    exactly [count] entities, none for [count = 0]; with a non-empty
    [category] every product has that category; an empty [category] is
    treated as no category at all. *)
Theorem bulk_creation_counts :
  forall (F : Faker) (count : nat) (g : Gen F),
    List.length (fst (TestDataFactory.createUsers F count g)) = count
    /\ (forall category,
          List.length (fst (TestDataFactory.createProducts F count category g))
          = count)
    /\ (forall c,
          c <> "" ->
          Forall (fun p => ProductBuilder.category p = c)
                 (fst (TestDataFactory.createProducts F count (Some c) g)))
    /\ TestDataFactory.createProducts F count (Some "") g
       = TestDataFactory.createProducts F count None g.
Proof.
  intros F count g.
  split; [apply arrayFrom_length|].
  split; [intros category; apply arrayFrom_length|].
  split; [|reflexivity].
  intros c Hc. unfold TestDataFactory.createProducts.
  destruct c as [|a r]; [congruence|]. cbn [Js.truthyString].
  apply arrayFrom_Forall. intros g'.
  destruct (createProduct_forwards F
              (Some (ProductBuilder.withCategory (String a r)
                       ProductBuilder.new)))
    as (b & E & _ & _ & Hcat & _).
  rewrite E.
  destruct (ProductBuilder_build_keeps F b g') as (_ & _ & K & _).
  apply K. rewrite Hcat. reflexivity.
Qed.

Lemma bulk_creation_counts_witness :
  Forall (fun p => ProductBuilder.category p = "Toys")
         (fst (TestDataFactory.createProducts Demo.faker 3 (Some "Toys") 0)).
Proof.
  destruct (bulk_creation_counts Demo.faker 3 0) as (_ & _ & H & _).
  apply H. discriminate.
Defined.

(** X10. Bulk creation keeps no state of its own: [createUsers(m + n)]
    returns what [createUsers(m)] followed by [createUsers(n)] returns,
    the second call starting at the generator state the first one left,
    and leaves the same generator state; the same holds of
    [createProducts]. *)
Theorem bulk_creation_splits :
  forall (F : Faker) (m n : nat) (g : Gen F),
    (let first := TestDataFactory.createUsers F m g in
     let second := TestDataFactory.createUsers F n (snd first) in
     TestDataFactory.createUsers F (m + n) g
     = ((fst first ++ fst second)%list, snd second))
    /\ (forall category,
          let first := TestDataFactory.createProducts F m category g in
          let second :=
            TestDataFactory.createProducts F n category (snd first) in
          TestDataFactory.createProducts F (m + n) category g
          = ((fst first ++ fst second)%list, snd second)).
Proof.
  intros F m n g. split.
  - apply arrayFrom_add.
  - intros category. apply arrayFrom_add.
Qed.

(** X11. The shortcuts of the factory are its general methods at a fixed
    override: [createInStockProduct()] is [createProduct({ inStock: true
    })], [createOutOfStockProduct()] is [createProduct({ inStock: false
    })] and [createSimpleOrder()] is [createOrder({ items: [the simple
    item] })], result and generator state alike; from one generator state
    the in-stock and the out-of-stock product differ in [inStock] only and
    leave the same generator state. *)
Theorem factory_shortcuts_are_overrides :
  forall (F : Faker) (g : Gen F),
    TestDataFactory.createInStockProduct F g
    = TestDataFactory.createProduct F
        (Some (ProductBuilder.withStockStatus true ProductBuilder.new)) g
    /\ TestDataFactory.createOutOfStockProduct F g
       = TestDataFactory.createProduct F
           (Some (ProductBuilder.withStockStatus false ProductBuilder.new)) g
    /\ TestDataFactory.createSimpleOrder F g
       = TestDataFactory.createOrder F
           (Some (OrderBuilder.withItems [OrderBuilder.simpleItem]
                    OrderBuilder.new)) g
    /\ (let p := fst (TestDataFactory.createInStockProduct F g) in
        let q := fst (TestDataFactory.createOutOfStockProduct F g) in
        ProductBuilder.inStock p = true
        /\ ProductBuilder.inStock q = false
        /\ ProductBuilder.name p = ProductBuilder.name q
        /\ ProductBuilder.description p = ProductBuilder.description q
        /\ ProductBuilder.price p = ProductBuilder.price q
        /\ ProductBuilder.sku p = ProductBuilder.sku q
        /\ ProductBuilder.category p = ProductBuilder.category q
        /\ ProductBuilder.quantity p = ProductBuilder.quantity q
        /\ snd (TestDataFactory.createInStockProduct F g)
           = snd (TestDataFactory.createOutOfStockProduct F g)).
Proof.
  intros F g. repeat split.
Qed.

(** * Environment configuration *)

Lemma includes_In (l : list string) (s : string) :
  Env.includes l s = true <-> In s l.
Proof.
  unfold Env.includes. rewrite existsb_exists. split.
  - intros (x & Hx & E). apply String.eqb_eq in E. now subst x.
  - intros H. exists s. split; [exact H | apply String.eqb_refl].
Qed.

Lemma getEnvironment_valid (penv : Env.ProcessEnv) :
  In (fst (Env.getEnvironment penv)) Env.validEnvs.
Proof.
  unfold Env.getEnvironment.
  destruct (Env.includes Env.validEnvs _) eqn:E; cbn [fst].
  - now apply includes_In.
  - now left.
Qed.

(** X12. [getEnvironment()] always returns one of [local], [test],
    [stage], [prod].  With [ENV] unset or empty it is [local], silently;
    with an ASCII [ENV] naming one of the four in any mix of upper and
    lower case it is that one, in lower case, silently; with any other
    non-empty ASCII [ENV] it is [local], and the one line printed by
    [console.warn] is [Invalid ENV "x", defaulting to "local"], [x] being
    the value in lower case. *)
Theorem getEnvironment_cases :
  forall (penv : Env.ProcessEnv),
    In (fst (Env.getEnvironment penv)) Env.validEnvs
    /\ (penv "ENV" = None \/ penv "ENV" = Some "" ->
        Env.getEnvironment penv = ("local", []))
    /\ (forall v,
          penv "ENV" = Some v ->
          JsText.all JsText.isAscii v = true ->
          In (JsText.toLowerCase v) ["local"; "test"; "stage"; "prod"] ->
          Env.getEnvironment penv = (JsText.toLowerCase v, []))
    /\ (forall v,
          penv "ENV" = Some v -> v <> "" ->
          JsText.all JsText.isAscii v = true ->
          ~ In (JsText.toLowerCase v) ["local"; "test"; "stage"; "prod"] ->
          let quote := String (ascii_of_nat 34) EmptyString in
          Env.getEnvironment penv
          = ("local",
             ["Invalid ENV " ++ quote ++ JsText.toLowerCase v ++ quote
              ++ ", defaulting to " ++ quote ++ "local" ++ quote])).
Proof.
  intros penv. split; [apply getEnvironment_valid|].
  split; [|split].
  - intros [H|H]; unfold Env.getEnvironment; rewrite H; reflexivity.
  - intros v Hv _ Hin. unfold Env.getEnvironment. rewrite Hv.
    cbn [option_map].
    assert (Hor : JsText.orString (Some (JsText.toLowerCase v)) "local"
                  = JsText.toLowerCase v).
    { destruct (JsText.toLowerCase v) as [|c r] eqn:E; [|reflexivity].
      exfalso.
      repeat (destruct Hin as [Hin|Hin]; [discriminate|]). exact Hin. }
    rewrite Hor. apply (includes_In Env.validEnvs) in Hin.
    rewrite Hin. reflexivity.
  - intros v Hv Hne _ Hnot quote. unfold Env.getEnvironment. rewrite Hv.
    cbn [option_map].
    assert (Hor : JsText.orString (Some (JsText.toLowerCase v)) "local"
                  = JsText.toLowerCase v).
    { destruct v as [|c r]; [congruence|]. reflexivity. }
    rewrite Hor.
    destruct (Env.includes Env.validEnvs _) eqn:E; [|reflexivity].
    apply includes_In in E. exfalso. exact (Hnot E).
Qed.

Lemma getEnvironment_cases_witness :
  Env.getEnvironment prodShell = ("prod", []).
Proof.
  destruct (getEnvironment_cases prodShell) as (_ & _ & H & _).
  apply (H "PROD"); [reflexivity | reflexivity |].
  right. right. right. left. reflexivity.
Defined.

(** X13. [getBaseUrl()] never returns undefined or the empty string: a
    non-empty [BASE_URL] is returned as it is, whatever [ENV] says;
    otherwise the result is the URL listed for the environment
    [getEnvironment()] returns.  An invalid [ENV] is warned about in both
    cases. *)
Theorem getBaseUrl_cases :
  forall (penv : Env.ProcessEnv),
    (exists u, fst (Env.getBaseUrl penv) = Some u /\ u <> "")
    /\ (forall u, penv "BASE_URL" = Some u -> u <> "" ->
                  fst (Env.getBaseUrl penv) = Some u)
    /\ (penv "BASE_URL" = None \/ penv "BASE_URL" = Some "" ->
        exists u,
          fst (Env.getBaseUrl penv) = Some u
          /\ In (fst (Env.getEnvironment penv), u) Env.urls)
    /\ snd (Env.getBaseUrl penv) = snd (Env.getEnvironment penv).
Proof.
  intros penv.
  assert (Hl : exists u,
             Env.lookup (fst (Env.getEnvironment penv)) Env.urls = Some u
             /\ u <> ""
             /\ In (fst (Env.getEnvironment penv), u) Env.urls).
  { pose proof (getEnvironment_valid penv) as Hv.
    unfold Env.validEnvs in Hv.
    destruct Hv as [Hv|[Hv|[Hv|[Hv|[]]]]]; rewrite <- Hv;
      eexists; (split; [reflexivity|]); (split; [discriminate|]);
      unfold Env.urls; simpl; tauto. }
  destruct Hl as (u0 & Hu0 & Hne0 & Hin0).
  unfold Env.getBaseUrl. cbn [fst snd].
  split; [|split; [|split]].
  - destruct (penv "BASE_URL") as [[|c r]|].
    + exists u0. cbn. split; assumption.
    + exists (String c r). cbn. split; [reflexivity|discriminate].
    + exists u0. split; assumption.
  - intros u Hu Hne. rewrite Hu. destruct u; [congruence|reflexivity].
  - intros [H|H]; rewrite H; exists u0; cbn; split; assumption.
  - reflexivity.
Qed.

Lemma getBaseUrl_cases_witness :
  exists u,
    fst (Env.getBaseUrl prodShell) = Some u
    /\ In (fst (Env.getEnvironment prodShell), u) Env.urls.
Proof.
  destruct (getBaseUrl_cases prodShell) as (_ & _ & H & _).
  exact (H (or_introl eq_refl)).
Defined.

(** X14. [getCredentials()] returns credentials exactly when both
    [TEST_USERNAME] and [TEST_PASSWORD] are set and non-empty, and then
    returns these two values; one of them missing or empty gives null. *)
Theorem getCredentials_cases :
  forall (penv : Env.ProcessEnv),
    (forall u p,
       penv "TEST_USERNAME" = Some u -> penv "TEST_PASSWORD" = Some p ->
       u <> "" -> p <> "" ->
       Env.getCredentials penv
       = Some {| Env.username := u; Env.password := p |})
    /\ (forall c,
          Env.getCredentials penv = Some c ->
          penv "TEST_USERNAME" = Some (Env.username c)
          /\ penv "TEST_PASSWORD" = Some (Env.password c)
          /\ Env.username c <> "" /\ Env.password c <> "").
Proof.
  intros penv. unfold Env.getCredentials. split.
  - intros u p Hu Hp Hnu Hnp. rewrite Hu, Hp.
    destruct u; [congruence|]. destruct p; [congruence|]. reflexivity.
  - intros c.
    destruct (penv "TEST_USERNAME") as [[|a u]|]; try discriminate;
      destruct (penv "TEST_PASSWORD") as [[|b p]|]; try discriminate.
    cbn. intros H. injection H as <-. cbn.
    repeat split; discriminate.
Qed.

Lemma getCredentials_cases_witness :
  Env.getCredentials
    (fun name =>
       if String.eqb name "TEST_USERNAME" then Some "qa"
       else if String.eqb name "TEST_PASSWORD" then Some "secret"
       else None)
  = Some {| Env.username := "qa"; Env.password := "secret" |}.
Proof.
  apply (proj1 (getCredentials_cases _)); (reflexivity || discriminate).
Defined.

(** * Tags *)

Lemma lowerChar_not_upper (c : ascii) :
  JsText.isUpper (JsText.lowerChar c) = false.
Proof. destruct c as [[] [] [] [] [] [] [] []]; reflexivity. Qed.

Lemma toLowerCase_no_upper (s : string) :
  JsText.all (fun c => negb (JsText.isUpper c)) (JsText.toLowerCase s) = true.
Proof.
  induction s as [|c r IH]; simpl; [reflexivity|].
  now rewrite lowerChar_not_upper, IH.
Qed.

Lemma toLowerCase_length (s : string) :
  String.length (JsText.toLowerCase s) = String.length s.
Proof. induction s as [|c r IH]; simpl; [reflexivity | now rewrite IH]. Qed.

Lemma toLowerCase_fixed (s : string) :
  JsText.all (fun c => negb (JsText.isUpper c)) s = true ->
  JsText.toLowerCase s = s.
Proof.
  induction s as [|c r IH]; simpl; [reflexivity|].
  intros H. apply andb_prop in H. destruct H as [Hc Hr].
  rewrite (IH Hr). unfold JsText.lowerChar.
  apply negb_true_iff in Hc. now rewrite Hc.
Qed.

Lemma replaceSpaceRuns_no_space (s : string) :
  forall inRun,
    JsText.all (fun c => negb (JsText.isSpace c))
               (JsText.replaceSpaceRuns inRun s) = true.
Proof.
  induction s as [|c r IH]; intros inRun; simpl; [reflexivity|].
  destruct (JsText.isSpace c) eqn:E.
  - destruct inRun; [apply IH|]. simpl. apply IH.
  - simpl. rewrite E. apply IH.
Qed.

Lemma replaceSpaceRuns_keeps (p : ascii -> bool) (s : string) :
  p "-"%char = true ->
  JsText.all p s = true ->
  forall inRun, JsText.all p (JsText.replaceSpaceRuns inRun s) = true.
Proof.
  intros Hp. induction s as [|c r IH]; simpl; [reflexivity|].
  intros H inRun. apply andb_prop in H. destruct H as [Hc Hr].
  destruct (JsText.isSpace c).
  - destruct inRun; [now apply IH|]. simpl. rewrite Hp. now apply IH.
  - simpl. rewrite Hc. now apply IH.
Qed.

Lemma replaceSpaceRuns_length (s : string) :
  forall inRun,
    String.length (JsText.replaceSpaceRuns inRun s) <= String.length s.
Proof.
  induction s as [|c r IH]; intros inRun; simpl; [lia|].
  destruct (JsText.isSpace c).
  - destruct inRun; simpl; [specialize (IH true); lia|].
    specialize (IH true); lia.
  - simpl. specialize (IH false); lia.
Qed.

Lemma replaceSpaceRuns_fixed (s : string) :
  JsText.all (fun c => negb (JsText.isSpace c)) s = true ->
  forall inRun, JsText.replaceSpaceRuns inRun s = s.
Proof.
  induction s as [|c r IH]; simpl; [reflexivity|].
  intros H inRun. apply andb_prop in H. destruct H as [Hc Hr].
  apply negb_true_iff in Hc. rewrite Hc. now rewrite IH.
Qed.

Lemma toLowerCase_app (a b : string) :
  JsText.toLowerCase (a ++ b) = JsText.toLowerCase a ++ JsText.toLowerCase b.
Proof. induction a as [|c r IH]; simpl; [reflexivity | now rewrite IH]. Qed.

Lemma lowerChar_space (c : ascii) :
  JsText.isSpace (JsText.lowerChar c) = JsText.isSpace c.
Proof. destruct c as [[] [] [] [] [] [] [] []]; reflexivity. Qed.

Lemma replaceSpaceRuns_in_gap (g rest : string) :
  JsText.all JsText.isSpace g = true ->
  JsText.replaceSpaceRuns true (JsText.toLowerCase g ++ rest)
  = JsText.replaceSpaceRuns true rest.
Proof.
  induction g as [|c r IH]; simpl; [reflexivity|].
  intros H. apply andb_prop in H. destruct H as [Hc Hr].
  rewrite lowerChar_space, Hc. now apply IH.
Qed.

Lemma replaceSpaceRuns_gap (g rest : string) (inRun : bool) :
  Js.truthyString g = true ->
  JsText.all JsText.isSpace g = true ->
  JsText.replaceSpaceRuns inRun (JsText.toLowerCase g ++ rest)
  = (if inRun then "" else "-") ++ JsText.replaceSpaceRuns true rest.
Proof.
  destruct g as [|c r]; [discriminate|]. intros _. simpl.
  intros H. apply andb_prop in H. destruct H as [Hc Hr].
  rewrite lowerChar_space, Hc.
  destruct inRun; simpl; now rewrite replaceSpaceRuns_in_gap.
Qed.

Lemma replaceSpaceRuns_word (w rest : string) (inRun : bool) :
  JsText.all (fun c => negb (JsText.isSpace c)) w = true ->
  JsText.replaceSpaceRuns inRun (JsText.toLowerCase w ++ rest)
  = JsText.toLowerCase w
    ++ JsText.replaceSpaceRuns (if Js.truthyString w then false else inRun)
         rest.
Proof.
  revert inRun. induction w as [|c r IH]; intros inRun; simpl;
    [reflexivity|].
  intros H. apply andb_prop in H. destruct H as [Hc Hr].
  apply negb_true_iff in Hc. rewrite lowerChar_space, Hc.
  rewrite (IH false Hr). now destruct (Js.truthyString r).
Qed.

Lemma replaceSpaceRuns_pieces (pieces : list Piece) :
  forall inRun,
    properPieces pieces = true ->
    (inRun = true ->
     match pieces with Gap _ :: _ => False | _ => True end) ->
    JsText.replaceSpaceRuns inRun (JsText.toLowerCase (joined pieces))
    = hyphenated pieces.
Proof.
  induction pieces as [|[w|g] rest IH]; intros inRun Hp Hrun.
  - reflexivity.
  - cbn [properPieces] in Hp.
    apply andb_prop in Hp. destruct Hp as [Hp Hrest].
    apply andb_prop in Hp. destruct Hp as [Hne Hw].
    cbn [joined hyphenated].
    rewrite toLowerCase_app, (replaceSpaceRuns_word _ _ _ Hw), Hne.
    f_equal. apply IH; [exact Hrest | discriminate].
  - cbn [properPieces] in Hp.
    apply andb_prop in Hp. destruct Hp as [Hp Hrest].
    apply andb_prop in Hp. destruct Hp as [Hp Hnext].
    apply andb_prop in Hp. destruct Hp as [Hne Hg].
    cbn [joined hyphenated].
    rewrite toLowerCase_app, (replaceSpaceRuns_gap _ _ _ Hne Hg).
    destruct inRun; [destruct (Hrun eq_refl)|].
    f_equal. apply IH; [exact Hrest|].
    intros _. destruct rest as [|[w'|g'] rest']; [exact I | exact I|].
    discriminate.
Qed.

(** X15. For a name of ASCII characters, [createTag(name)] is [@]
    followed by a body with no white space and no uppercase letter, at
    most as long as the name; and every run of white space has become one
    hyphen: for a name made of proper pieces (words without white space,
    gaps that are whole runs of white space) the body is the words in
    lower case with one hyphen in place of each gap, also for a gap at
    the start or at the end. *)
Theorem createTag_shape :
  forall (name : string),
    JsText.all JsText.isAscii name = true ->
    (exists body,
       Tags.createTag name = "@" ++ body
       /\ JsText.all (fun c => negb (JsText.isSpace c)) body = true
       /\ JsText.all (fun c => negb (JsText.isUpper c)) body = true
       /\ String.length body <= String.length name)
    /\ (forall pieces,
          properPieces pieces = true ->
          name = joined pieces ->
          Tags.createTag name = "@" ++ hyphenated pieces).
Proof.
  intros name _. split.
  - exists (JsText.replaceSpaceRuns false (JsText.toLowerCase name)).
    split; [reflexivity|].
    split; [apply replaceSpaceRuns_no_space|].
    split.
    + apply replaceSpaceRuns_keeps;
        [reflexivity | apply toLowerCase_no_upper].
    + rewrite <- (toLowerCase_length name). apply replaceSpaceRuns_length.
  - intros pieces Hp ->. unfold Tags.createTag. f_equal.
    apply replaceSpaceRuns_pieces; [exact Hp | discriminate].
Qed.

Lemma createTag_shape_witness :
  Tags.createTag "  Skip   CI run " = "@-skip-ci-run-".
Proof.
  destruct (createTag_shape "  Skip   CI run " eq_refl) as (_ & H).
  apply (H [Gap "  "; Word "Skip"; Gap "   "; Word "CI"; Gap " ";
            Word "run"; Gap " "]); reflexivity.
Defined.

(** X16. For a name of ASCII characters: without white space,
    [createTag(name)] is [@] followed by the name in lower case; and
    [createTag] applied to the body of a tag it made gives that tag
    again. *)
Theorem createTag_normalises :
  forall (name : string),
    JsText.all JsText.isAscii name = true ->
    (JsText.all (fun c => negb (JsText.isSpace c)) name = true ->
     Tags.createTag name = "@" ++ JsText.toLowerCase name)
    /\ (forall body,
          Tags.createTag name = "@" ++ body ->
          Tags.createTag body = Tags.createTag name).
Proof.
  intros name _. split.
  - intros H. unfold Tags.createTag. f_equal.
    apply replaceSpaceRuns_fixed.
    clear -H. induction name as [|c r IH]; simpl in *; [reflexivity|].
    apply andb_prop in H. destruct H as [Hc Hr].
    rewrite (IH Hr), andb_true_r.
    destruct c as [[] [] [] [] [] [] [] []];
      first [reflexivity | discriminate Hc].
  - intros body H. unfold Tags.createTag in *.
    injection H as H. subst body. f_equal.
    rewrite toLowerCase_fixed.
    + apply replaceSpaceRuns_fixed. apply replaceSpaceRuns_no_space.
    + apply replaceSpaceRuns_keeps;
        [reflexivity | apply toLowerCase_no_upper].
Qed.

Lemma createTag_normalises_witness :
  Tags.createTag "smoke" = Tags.SMOKE
  /\ Tags.createTag "skip-ci" = Tags.createTag "Skip CI".
Proof.
  destruct (createTag_normalises "smoke" eq_refl) as (H1 & _).
  destruct (createTag_normalises "Skip CI" eq_refl) as (_ & H2).
  split.
  - rewrite H1; reflexivity.
  - apply H2. reflexivity.
Defined.

(** * Heading hierarchy *)

Lemma hierarchyFrom_steps (headings : list Accessibility.Heading) :
  forall previousLevel,
    fst (Accessibility.hierarchyFrom previousLevel headings)
    = forallb (fun step => (snd step <=? fst step + 1)%Z)
        (combine (previousLevel :: map Accessibility.level headings)
                 (map Accessibility.level headings)).
Proof.
  induction headings as [|h rest IH]; intros previousLevel; simpl.
  - reflexivity.
  - rewrite Z.leb_antisym.
    destruct (previousLevel + 1 <? Accessibility.level h)%Z; simpl.
    + reflexivity.
    + apply IH.
Qed.

(** X17. [checkHeadingHierarchy] answers true exactly when no heading is
    more than one level deeper than the heading before it, the first
    heading being measured against level 0: so the first heading must be
    an [h1], levels may go up again freely, and a page without headings
    passes. *)
Theorem checkHeadingHierarchy_iff_no_skip :
  forall (headings : list Accessibility.Heading),
    fst (Accessibility.checkHeadingHierarchy headings) = true
    <-> Forall (fun step => (snd step <= fst step + 1)%Z)
               (levelSteps (map Accessibility.level headings)).
Proof.
  intros headings. unfold Accessibility.checkHeadingHierarchy, levelSteps.
  rewrite hierarchyFrom_steps, forallb_forall, Forall_forall.
  split; intros H step Hin; specialize (H step Hin).
  - now apply Z.leb_le.
  - now apply Z.leb_le.
Qed.

Lemma substring_length_le (s : string) :
  forall n m, String.length (String.substring n m s) <= m.
Proof.
  induction s as [|c r IH]; intros n m.
  - destruct n, m; simpl; lia.
  - destruct n as [|n]; simpl.
    + destruct m as [|m]; simpl; [lia|]. specialize (IH 0 m). lia.
    + apply IH.
Qed.

Lemma last_cons_default {A} (l : list A) :
  forall x d, last (x :: l) d = last l x.
Proof.
  induction l as [|a l IH]; intros x d; [reflexivity|].
  change (last (x :: a :: l) d) with (last (a :: l) d).
  now rewrite (IH a d), (IH a x).
Qed.

Lemma hierarchyFrom_warning (headings : list Accessibility.Heading) :
  forall previousLevel,
    match Accessibility.hierarchyFrom previousLevel headings with
    | (true, warnings) => warnings = []
    | (false, warnings) =>
        exists before heading rest,
          headings = (before ++ heading :: rest)%list
          /\ fst (Accessibility.hierarchyFrom previousLevel before) = true
          /\ (last (map Accessibility.level before) previousLevel + 1
              < Accessibility.level heading)%Z
          /\ warnings
             = [ {| Accessibility.found := Accessibility.level heading;
                    Accessibility.after :=
                      last (map Accessibility.level before) previousLevel;
                    Accessibility.excerpt :=
                      String.substring 0 50 (Accessibility.text heading) |} ]
    end.
Proof.
  induction headings as [|h rest IH]; intros previousLevel; simpl.
  - reflexivity.
  - destruct (previousLevel + 1 <? Accessibility.level h)%Z eqn:E.
    + exists [], h, rest. simpl. apply Z.ltb_lt in E. repeat split. exact E.
    + specialize (IH (Accessibility.level h)).
      destruct (Accessibility.hierarchyFrom (Accessibility.level h) rest)
        as [[|] warnings]; [exact IH|].
      destruct IH as (before & heading & rest' & -> & Hok & Hlt & Hw).
      exists (h :: before), heading, rest'.
      split; [reflexivity|].
      split; [simpl; rewrite E; exact Hok|].
      change (map Accessibility.level (h :: before))
        with (Accessibility.level h :: map Accessibility.level before).
      rewrite last_cons_default. split; [exact Hlt | exact Hw].
Qed.

(** X18. For headings whose texts are ASCII, [checkHeadingHierarchy]
    warns at most once: not at all when it answers true, and when it
    answers false exactly once, about the first heading that is more than
    one level deeper than the one before it, naming both levels and the
    first 50 characters of its text; the headings after that one are not
    looked at. *)
Theorem checkHeadingHierarchy_warns_once :
  forall (headings : list Accessibility.Heading),
    Forall (fun h => JsText.all JsText.isAscii (Accessibility.text h) = true)
           headings ->
    match Accessibility.checkHeadingHierarchy headings with
    | (true, warnings) => warnings = []
    | (false, warnings) =>
        exists before heading rest,
          headings = (before ++ heading :: rest)%list
          /\ fst (Accessibility.checkHeadingHierarchy before) = true
          /\ (last (map Accessibility.level before) 0 + 1
              < Accessibility.level heading)%Z
          /\ warnings
             = [ {| Accessibility.found := Accessibility.level heading;
                    Accessibility.after :=
                      last (map Accessibility.level before) 0%Z;
                    Accessibility.excerpt :=
                      String.substring 0 50 (Accessibility.text heading) |} ]
          /\ String.length
               (String.substring 0 50 (Accessibility.text heading)) <= 50
          /\ (forall rest',
                Accessibility.checkHeadingHierarchy
                  (before ++ heading :: rest')%list
                = Accessibility.checkHeadingHierarchy headings)
    end.
Proof.
  intros headings _. unfold Accessibility.checkHeadingHierarchy.
  pose proof (hierarchyFrom_warning headings 0%Z) as H.
  destruct (Accessibility.hierarchyFrom 0 headings) as [[|] warnings] eqn:E;
    [exact H|].
  destruct H as (before & heading & rest & Hh & Hok & Hlt & Hw).
  exists before, heading, rest.
  split; [exact Hh|]. split; [exact Hok|]. split; [exact Hlt|].
  split; [exact Hw|]. split; [apply substring_length_le|].
  intros rest'. rewrite <- E, Hh.
  clear E Hh Hw. revert Hok Hlt. generalize 0%Z as previousLevel.
  induction before as [|b before IH]; intros previousLevel Hok Hlt; simpl.
  - simpl in Hlt. apply Z.ltb_lt in Hlt. now rewrite Hlt.
  - simpl in Hok.
    destruct (previousLevel + 1 <? Accessibility.level b)%Z;
      [discriminate|].
    apply IH; [exact Hok|].
    change (map Accessibility.level (b :: before))
      with (Accessibility.level b :: map Accessibility.level before) in Hlt.
    now rewrite last_cons_default in Hlt.
Qed.

Lemma checkHeadingHierarchy_iff_no_skip_witness :
  fst (Accessibility.checkHeadingHierarchy
         [ {| Accessibility.level := 1; Accessibility.text := "Title" |};
           {| Accessibility.level := 2; Accessibility.text := "Part" |};
           {| Accessibility.level := 3; Accessibility.text := "Detail" |};
           {| Accessibility.level := 1; Accessibility.text := "Next" |} ])
  = true.
Proof.
  apply (proj2 (checkHeadingHierarchy_iff_no_skip _)).
  unfold levelSteps. simpl. repeat constructor; simpl; lia.
Defined.

(** * Viewports *)

Lemma SFcompare_refl (x : SpecFloat.spec_float) :
  x <> SpecFloat.S754_nan -> SpecFloat.SFcompare x x = Some Eq.
Proof.
  destruct x as [s|s| |s m e]; intros H; simpl.
  - reflexivity.
  - now destruct s.
  - congruence.
  - rewrite Z.compare_refl, Pos.compare_cont_refl. now destruct s.
Qed.

Lemma SFcompare_antisym (x y : SpecFloat.spec_float) :
  SpecFloat.SFcompare y x = option_map CompOpp (SpecFloat.SFcompare x y).
Proof.
  destruct x as [s1|s1| |s1 m1 e1], y as [s2|s2| |s2 m2 e2]; simpl;
    try reflexivity; try (destruct s1; reflexivity);
    try (destruct s2; reflexivity);
    try (destruct s1, s2; reflexivity).
  destruct s1, s2; simpl; try reflexivity.
  - rewrite (Z.compare_antisym e1 e2).
    destruct (e1 ?= e2)%Z; simpl; try reflexivity.
    rewrite (Pos.compare_cont_antisym m1 m2 Eq). simpl.
    now destruct (Pos.compare_cont Eq m1 m2).
  - rewrite (Z.compare_antisym e1 e2).
    destruct (e1 ?= e2)%Z; simpl; try reflexivity.
    rewrite (Pos.compare_cont_antisym m1 m2 Eq). reflexivity.
Qed.

Lemma not_nan_spec (x : float) :
  PrimFloat.is_nan x = false -> Prim2SF x <> SpecFloat.S754_nan.
Proof.
  unfold PrimFloat.is_nan. rewrite FloatAxioms.eqb_spec.
  intros H E. rewrite E in H. discriminate.
Qed.

Lemma is_nan_spec (x : float) :
  PrimFloat.is_nan x = true -> Prim2SF x = SpecFloat.S754_nan.
Proof.
  unfold PrimFloat.is_nan. rewrite FloatAxioms.eqb_spec.
  unfold SpecFloat.SFeqb. intros H.
  destruct (Prim2SF x) as [s|s| |s m e] eqn:E; [| | reflexivity |];
    rewrite SFcompare_refl in H by discriminate; discriminate.
Qed.

Lemma ltb_negb_leb (x y : float) :
  PrimFloat.is_nan x = false -> PrimFloat.is_nan y = false ->
  (x <? y)%float = negb (y <=? x)%float.
Proof.
  intros Hx Hy. apply not_nan_spec in Hx. apply not_nan_spec in Hy.
  rewrite FloatAxioms.ltb_spec, FloatAxioms.leb_spec.
  unfold SpecFloat.SFltb, SpecFloat.SFleb.
  rewrite (SFcompare_antisym (Prim2SF x) (Prim2SF y)).
  destruct (Prim2SF x) as [s1|s1| |s1 m1 e1]; [| |congruence|];
    (destruct (Prim2SF y) as [s2|s2| |s2 m2 e2]; [| |congruence|]);
    match goal with
    | |- context [SpecFloat.SFcompare ?a ?b] =>
        destruct (SpecFloat.SFcompare a b) as [[]|] eqn:E;
        try reflexivity; simpl in E; discriminate E
    end.
Qed.

Lemma SFcompare_below_larger (x : SpecFloat.spec_float) (m1 m2 : positive)
    (e1 e2 : Z) :
  (e1 < e2)%Z ->
  SpecFloat.SFcompare x (SpecFloat.S754_finite false m1 e1) = Some Lt ->
  SpecFloat.SFcompare x (SpecFloat.S754_finite false m2 e2) = Some Lt.
Proof.
  intros He.
  destruct x as [s|s| |s m e]; cbn [SpecFloat.SFcompare];
    try (intros H; exact H).
  destruct s; [intros _; reflexivity|].
  destruct (e ?= e1)%Z eqn:E1.
  - apply Z.compare_eq in E1. subst e. intros _.
    assert (E2 : (e1 ?= e2)%Z = Lt) by (apply Z.compare_lt_iff; lia).
    now rewrite E2.
  - rewrite Z.compare_lt_iff in E1. intros _.
    assert (E2 : (e ?= e2)%Z = Lt) by (apply Z.compare_lt_iff; lia).
    now rewrite E2.
  - discriminate.
Qed.

Lemma below_768_below_1024 (x : float) :
  (x <? 768)%float = true -> (x <? 1024)%float = true.
Proof.
  rewrite !FloatAxioms.ltb_spec. unfold SpecFloat.SFltb.
  replace (Prim2SF 768)
    with (SpecFloat.S754_finite false 6755399441055744 (-43))
    by (vm_compute; reflexivity).
  replace (Prim2SF 1024)
    with (SpecFloat.S754_finite false 4503599627370496 (-42))
    by (vm_compute; reflexivity).
  intros H.
  rewrite (SFcompare_below_larger (Prim2SF x) 6755399441055744
             4503599627370496 (-43) (-42)); [reflexivity | lia |].
  now destruct (SpecFloat.SFcompare (Prim2SF x)
                  (SpecFloat.S754_finite false 6755399441055744 (-43)))
    as [[]|].
Qed.

(** X19. The three viewport tests split pages without overlap: for a page
    whose width is a number, exactly one of [isMobileViewport],
    [isTabletViewport] and [isDesktopViewport] holds; a page without a
    viewport counts as mobile; and with a width that is NaN none of
    them holds. *)
Theorem viewport_tests_partition :
  forall (page : Viewport.Page),
    (PrimFloat.is_nan (Viewport.width (Viewport.getViewportSize page)) = false ->
     exactlyOne (Viewport.isMobileViewport page)
                (Viewport.isTabletViewport page)
                (Viewport.isDesktopViewport page) = true)
    /\ (page = None ->
        Viewport.isMobileViewport page = true
        /\ Viewport.isTabletViewport page = false
        /\ Viewport.isDesktopViewport page = false)
    /\ (PrimFloat.is_nan (Viewport.width (Viewport.getViewportSize page)) = true ->
        Viewport.isMobileViewport page = false
        /\ Viewport.isTabletViewport page = false
        /\ Viewport.isDesktopViewport page = false).
Proof.
  intros page. split; [|split].
  - intros Hn.
    unfold Viewport.isMobileViewport, Viewport.isTabletViewport,
      Viewport.isDesktopViewport.
    set (w := Viewport.width (Viewport.getViewportSize page)) in *.
    pose proof (ltb_negb_leb w 768 Hn eq_refl) as H1.
    pose proof (ltb_negb_leb w 1024 Hn eq_refl) as H2.
    pose proof (below_768_below_1024 w) as H3.
    destruct (w <? 768)%float; destruct (w <? 1024)%float;
      destruct (768 <=? w)%float; destruct (1024 <=? w)%float;
      try discriminate; try reflexivity.
    all: specialize (H3 eq_refl); discriminate.
  - intros ->. repeat split.
  - intros Hn. apply is_nan_spec in Hn.
    unfold Viewport.isMobileViewport, Viewport.isTabletViewport,
      Viewport.isDesktopViewport.
    rewrite !FloatAxioms.ltb_spec, !FloatAxioms.leb_spec, Hn.
    unfold SpecFloat.SFltb, SpecFloat.SFleb.
    assert (E : forall y, SpecFloat.SFcompare y SpecFloat.S754_nan = None)
      by (intros []; reflexivity).
    rewrite !E. repeat split.
Qed.

Lemma viewport_tests_partition_witness :
  exactlyOne (Viewport.isMobileViewport (Some Viewport.tabletLandscape))
             (Viewport.isTabletViewport (Some Viewport.tabletLandscape))
             (Viewport.isDesktopViewport (Some Viewport.tabletLandscape))
  = true.
Proof.
  apply (proj1 (viewport_tests_partition (Some Viewport.tabletLandscape))).
  reflexivity.
Defined.

(** The named sizes: the two phones are mobile, [tablet] is tablet, and
    [tabletLandscape], 1024 wide, is desktop like the three desktops. *)
Example named_viewports :
  map (fun s => (Viewport.isMobileViewport (Some s),
                 Viewport.isTabletViewport (Some s),
                 Viewport.isDesktopViewport (Some s)))
      [Viewport.mobile; Viewport.mobileLarge; Viewport.tablet;
       Viewport.tabletLandscape; Viewport.desktop; Viewport.desktopSmall;
       Viewport.desktopLarge]
  = [(true, false, false); (true, false, false); (false, true, false);
     (false, false, true); (false, false, true); (false, false, true);
     (false, false, true)].
Proof. reflexivity. Qed.

(** A page going h1, h2, h4, h6 fails at the h4, and the h6 is never
    reported. *)
Example sample_headings_fail_at_h4 :
  Accessibility.checkHeadingHierarchy sampleHeadings
  = (false,
     [ {| Accessibility.found := 4; Accessibility.after := 2;
          Accessibility.excerpt := "Detail" |} ]).
Proof. reflexivity. Qed.

Lemma checkHeadingHierarchy_warns_once_witness :
  exists before heading rest,
    sampleHeadings = (before ++ heading :: rest)%list
    /\ snd (Accessibility.checkHeadingHierarchy sampleHeadings)
       = [ {| Accessibility.found := Accessibility.level heading;
              Accessibility.after :=
                last (map Accessibility.level before) 0%Z;
              Accessibility.excerpt :=
                String.substring 0 50 (Accessibility.text heading) |} ].
Proof.
  pose proof (checkHeadingHierarchy_warns_once sampleHeadings) as H.
  assert (Hascii : Forall (fun h => JsText.all JsText.isAscii
                                      (Accessibility.text h) = true)
                          sampleHeadings)
    by (repeat constructor).
  specialize (H Hascii).
  rewrite sample_headings_fail_at_h4 in H.
  destruct H as (before & heading & rest & Hh & _ & _ & Hw & _).
  exists before, heading, rest. split; [exact Hh|].
  rewrite sample_headings_fail_at_h4. exact Hw.
Defined.

Example createTag_skip_ci : Tags.createTag "Skip CI" = Tags.SKIP_CI.
Proof. reflexivity. Qed.

(** * Retrying *)

Lemma toError_kept (t lastError : Retry.Thrown) :
  Retry.toError t = Retry.Kept lastError ->
  exists m, lastError = Retry.ErrorObject m.
Proof.
  destruct t; simpl; intros H; try discriminate;
    injection H as <-; eauto.
Qed.

Lemma toError_threw (t thrown : Retry.Thrown) :
  Retry.toError t = Retry.ConversionThrew thrown ->
  t = Retry.Unconvertible thrown.
Proof. destruct t; simpl; intros H; try discriminate; now injection H as <-. Qed.

Lemma increment_exact (attempt maxAttempts : Z) :
  (maxAttempts < 9007199254740992)%Z -> (attempt <= maxAttempts)%Z ->
  Retry.increment attempt = (attempt + 1)%Z.
Proof.
  intros Hmax Hle. unfold Retry.increment.
  destruct (attempt <? 9007199254740992)%Z eqn:E; [reflexivity|].
  apply Z.ltb_ge in E. lia.
Qed.

Section RetryLoop.
Context {W T : Type} (fn : Retry.Fn W T) (maxAttempts : Z)
  (delayMs : Js.number) (onRetry : option (Retry.OnRetry W)).
Hypothesis Hmax : (maxAttempts < 9007199254740992)%Z.

Lemma retryLoop_facts (fuel : nat) :
  forall (attempt : Z) (lastError : option Retry.Thrown) (w : W),
    Z.to_nat (maxAttempts - attempt + 1) <= fuel ->
    let run :=
      Retry.retryLoop fn maxAttempts delayMs onRetry fuel attempt lastError w
    in
    run <> Retry.OutOfFuel
    /\ Retry.calls (Retry.eventsOf run)
       <= Z.to_nat (maxAttempts - attempt + 1)
    /\ ((attempt <= maxAttempts)%Z -> 1 <= Retry.calls (Retry.eventsOf run))
    /\ List.length (Retry.sleeps (Retry.eventsOf run))
       <= Retry.calls (Retry.eventsOf run) - 1
    /\ Forall (fun d => d = delayMs) (Retry.sleeps (Retry.eventsOf run))
    /\ (forall v w' events,
          run = Retry.Finished (Retry.Resolved v) w' events ->
          List.length (Retry.sleeps events) + 1 = Retry.calls events)
    /\ (forall e w' events,
          run = Retry.Finished (Retry.Rejected e) w' events ->
          onRetry = None ->
          (Retry.calls events = Z.to_nat (maxAttempts - attempt + 1)
           /\ ((lastError = None
                \/ exists m, lastError = Some (Retry.ErrorObject m)) ->
               exists m, e = Retry.ErrorObject m))
          \/ exists w0 w1,
               fn w0 = Some (Retry.Rejected (Retry.Unconvertible e), w1))
    /\ ((forall w0, fn w0 <> None) ->
        (forall callback a e w0,
           onRetry = Some callback -> callback a e w0 <> None) ->
        exists r w' events, run = Retry.Finished r w' events).
Proof.
  induction fuel as [|fuel IH]; intros attempt lastError w Hfuel;
    cbn [Retry.retryLoop];
    destruct (attempt <=? maxAttempts)%Z eqn:E.
  - apply Z.leb_le in E. lia.
  - apply Z.leb_gt in E. cbn [Retry.eventsOf Retry.calls Retry.sleeps List.length].
    split; [discriminate|]. split; [lia|]. split; [lia|]. split; [lia|].
    split; [constructor|]. split; [discriminate|].
    split; [|eauto].
    intros e w' events H _. injection H as <- <- <-. left.
    split; [cbn; lia|]. intros [Hl|(m & Hl)]; rewrite Hl; eauto.
  - apply Z.leb_le in E.
    destruct (fn w) as [[[v|t] w1]|] eqn:Hfn.
    + cbn [Retry.eventsOf Retry.calls Retry.sleeps List.length].
      split; [discriminate|]. split; [lia|]. split; [lia|]. split; [lia|].
      split; [constructor|].
      split; [intros v' w' events H; injection H as <- <- <-; reflexivity|].
      split; [discriminate|eauto].
    + destruct (Retry.toError t) as [kept|thrown] eqn:Hto.
      2:{ cbn [Retry.eventsOf Retry.calls Retry.sleeps List.length].
          split; [discriminate|]. split; [lia|]. split; [lia|].
          split; [lia|]. split; [constructor|]. split; [discriminate|].
          split; [|eauto].
          intros e w' events H _. injection H as <- <- <-. right.
          apply toError_threw in Hto. subst t. eauto. }
      destruct (toError_kept _ _ Hto) as (mk & Hk).
      rewrite (increment_exact attempt maxAttempts Hmax E).
      destruct (attempt <? maxAttempts)%Z eqn:E2.
      * apply Z.ltb_lt in E2.
        destruct onRetry as [callback|] eqn:Eo.
        -- destruct (callback attempt kept w1) as [[[thrown|] w2]|] eqn:Hcb.
           ++ cbn [Retry.eventsOf Retry.calls Retry.sleeps List.length].
              split; [discriminate|]. split; [lia|]. split; [lia|].
              split; [lia|]. split; [constructor|]. split; [discriminate|].
              split; [discriminate|eauto].
           ++ destruct (IH (attempt + 1)%Z (Some kept) w2 ltac:(lia))
                as (Hne & Hc & H1 & Hs & Hd & Hres & Hrej & Hfin).
              specialize (H1 ltac:(lia)).
              destruct (Retry.retryLoop fn maxAttempts delayMs
                          (Some callback) fuel (attempt + 1) (Some kept) w2)
                as [r w3 events|events|]; [| |congruence];
                cbn [Retry.after Retry.eventsOf Retry.calls Retry.sleeps
                     List.length app] in *.
              ** split; [discriminate|]. split; [lia|]. split; [lia|].
                 split; [lia|].
                 split; [constructor; [reflexivity|exact Hd]|].
                 split.
                 { intros v w' ev H. injection H as -> <- <-.
                   cbn [Retry.calls Retry.sleeps List.length].
                   specialize (Hres v w3 events eq_refl). lia. }
                 split; [discriminate|eauto].
              ** split; [discriminate|]. split; [lia|]. split; [lia|].
                 split; [lia|].
                 split; [constructor; [reflexivity|exact Hd]|].
                 split; [discriminate|]. split; [discriminate|].
                 intros Hf Hcbs. destruct (Hfin Hf Hcbs) as (? & ? & ? & ?).
                 discriminate.
           ++ cbn [Retry.eventsOf Retry.calls Retry.sleeps List.length].
              split; [discriminate|]. split; [lia|]. split; [lia|].
              split; [lia|]. split; [constructor|]. split; [discriminate|].
              split; [discriminate|].
              intros _ Hcbs. exfalso.
              exact (Hcbs callback attempt kept w1 eq_refl Hcb).
        -- destruct (IH (attempt + 1)%Z (Some kept) w1 ltac:(lia))
             as (Hne & Hc & H1 & Hs & Hd & Hres & Hrej & Hfin).
           specialize (H1 ltac:(lia)).
           destruct (Retry.retryLoop fn maxAttempts delayMs None fuel
                       (attempt + 1) (Some kept) w1)
             as [r w3 events|events|]; [| |congruence];
             cbn [Retry.after Retry.eventsOf Retry.calls Retry.sleeps
                  List.length app] in *.
           ++ split; [discriminate|]. split; [lia|]. split; [lia|].
              split; [lia|].
              split; [constructor; [reflexivity|exact Hd]|].
              split.
              { intros v w' ev H. injection H as -> <- <-.
                cbn [Retry.calls Retry.sleeps List.length].
                specialize (Hres v w3 events eq_refl). lia. }
              split; [|eauto].
              intros e w' ev H _. injection H as -> <- <-.
              cbn [Retry.calls].
              destruct (Hrej e w3 events eq_refl eq_refl)
                as [(Hn & He)|Hu]; [left|right; exact Hu].
              split; [lia|]. intros _. apply He. right. subst kept. eauto.
           ++ split; [discriminate|]. split; [lia|]. split; [lia|].
              split; [lia|].
              split; [constructor; [reflexivity|exact Hd]|].
              split; [discriminate|]. split; [discriminate|].
              intros Hf Hcbs. destruct (Hfin Hf Hcbs) as (? & ? & ? & ?).
              discriminate.
      * apply Z.ltb_ge in E2.
        destruct (IH (attempt + 1)%Z (Some kept) w1 ltac:(lia))
          as (Hne & Hc & H1 & Hs & Hd & Hres & Hrej & Hfin).
        destruct (Retry.retryLoop fn maxAttempts delayMs onRetry fuel
                    (attempt + 1) (Some kept) w1)
          as [r w3 events|events|]; [| |congruence];
          cbn [Retry.after Retry.eventsOf Retry.calls Retry.sleeps
               List.length app] in *.
        -- split; [discriminate|]. split; [lia|]. split; [lia|].
           split; [lia|]. split; [exact Hd|].
           split.
           { intros v w' ev H. injection H as -> <- <-.
             specialize (Hres v w3 events eq_refl). lia. }
           split; [|eauto].
           intros e w' ev H Hno. injection H as -> <- <-.
           cbn [Retry.calls].
           destruct (Hrej e w3 events eq_refl Hno)
             as [(Hn & He)|Hu]; [left|right; exact Hu].
           split; [lia|]. intros _. apply He. right. subst kept. eauto.
        -- split; [discriminate|]. split; [lia|]. split; [lia|].
           split; [lia|]. split; [exact Hd|].
           split; [discriminate|]. split; [discriminate|].
           intros Hf Hcbs. destruct (Hfin Hf Hcbs) as (? & ? & ? & ?).
           discriminate.
    + cbn [Retry.eventsOf Retry.calls Retry.sleeps List.length].
      split; [discriminate|]. split; [lia|]. split; [lia|]. split; [lia|].
      split; [constructor|]. split; [discriminate|]. split; [discriminate|].
      intros Hf _. exfalso. exact (Hf w Hfn).
  - apply Z.leb_gt in E.
    cbn [Retry.eventsOf Retry.calls Retry.sleeps List.length].
    split; [discriminate|]. split; [lia|]. split; [lia|]. split; [lia|].
    split; [constructor|]. split; [discriminate|].
    split; [|eauto].
    intros e w' events H _. injection H as <- <- <-. left.
    split; [cbn; lia|]. intros [Hl|(m & Hl)]; rewrite Hl; eauto.
Qed.

End RetryLoop.

(** X20. [retry] with an integer [maxAttempts] below 2^53 (3 when not
    given), looked at for [maxAttempts] iterations or more.  Whether the
    run ends or is stuck behind a call that never comes back, [fn] is
    called at most [maxAttempts] times, every wait is [delayMs] (1000
    when not given), and there are fewer waits than calls: none after the
    last call.  When the run resolves, it has waited exactly once before
    each call but the first.  The run does end when every call of [fn]
    settles and every call of [onRetry] returns or throws. *)
Theorem retry_calls_and_waits :
  forall (W T : Type) (fn : Retry.Fn W T) (options : Retry.Options W)
         (fuel : nat) (w : W),
    let maxAttempts := Js.nullish (Retry.maxAttempts options) 3%Z in
    (maxAttempts < 9007199254740992)%Z ->
    Z.to_nat maxAttempts <= fuel ->
    let run := Retry.retry fn options fuel w in
    run <> Retry.OutOfFuel
    /\ Retry.calls (Retry.eventsOf run) <= Z.to_nat maxAttempts
    /\ List.length (Retry.sleeps (Retry.eventsOf run))
       <= Retry.calls (Retry.eventsOf run) - 1
    /\ Forall (fun d => d = Js.nullish (Retry.delayMs options) 1000%float)
              (Retry.sleeps (Retry.eventsOf run))
    /\ (forall v w' events,
          run = Retry.Finished (Retry.Resolved v) w' events ->
          List.length (Retry.sleeps events) + 1 = Retry.calls events)
    /\ ((forall w0, fn w0 <> None) ->
        (forall callback a e w0,
           Retry.onRetry options = Some callback ->
           callback a e w0 <> None) ->
        exists r w' events, run = Retry.Finished r w' events).
Proof.
  intros W T fn options fuel w maxAttempts Hmax Hfuel run.
  subst run. unfold Retry.retry. fold maxAttempts.
  destruct (retryLoop_facts fn maxAttempts
              (Js.nullish (Retry.delayMs options) 1000%float)
              (Retry.onRetry options) Hmax fuel 1%Z None w ltac:(lia))
    as (Hne & Hc & _ & Hs & Hd & Hres & _ & Hfin).
  split; [exact Hne|]. split; [lia|]. split; [exact Hs|].
  split; [exact Hd|]. split; [exact Hres | exact Hfin].
Qed.

Lemma retry_calls_and_waits_witness :
  let run :=
    Retry.retry scripted Retry.noOptions 3
      [Retry.Rejected (Retry.ErrorObject "down"); Retry.Resolved 7] in
  run <> Retry.OutOfFuel /\ Retry.calls (Retry.eventsOf run) <= 3.
Proof.
  destruct (retry_calls_and_waits (list (Retry.Outcome nat)) nat scripted
              Retry.noOptions 3
              [Retry.Rejected (Retry.ErrorObject "down"); Retry.Resolved 7])
    as (Hne & Hc & _); [cbn; lia | cbn; lia |].
  split; [exact Hne | exact Hc].
Defined.



(** Two failures, then a success: three calls, two warnings, two waits of
    a second. *)
Example retry_third_time_lucky :
  Retry.retry scripted Retry.noOptions 3
    [Retry.Rejected (Retry.Convertible "boom");
     Retry.Rejected (Retry.ErrorObject "again"); Retry.Resolved 5]
  = Retry.Finished (Retry.Resolved 5) []
      [Retry.Called 1; Retry.Warned 1 1000%float "boom";
       Retry.Slept 1000%float;
       Retry.Called 2; Retry.Warned 2 1000%float "again";
       Retry.Slept 1000%float;
       Retry.Called 3].
Proof. reflexivity. Qed.

(** Once the counter has reached 2^53 it stays there: with a larger
    [maxAttempts] and a [fn] that keeps rejecting, the loop is still
    going after any number of iterations. *)
Lemma retryLoop_stalls (W T : Type) (fn : Retry.Fn W T) (maxAttempts : Z)
    (delayMs : Js.number) :
  (9007199254740992 < maxAttempts)%Z ->
  (forall w, exists m w', fn w = Some (Retry.Rejected (Retry.ErrorObject m), w')) ->
  forall fuel lastError w,
    Retry.retryLoop fn maxAttempts delayMs None fuel 9007199254740992
      lastError w
    = Retry.OutOfFuel.
Proof.
  intros Hmax Hfn fuel.
  induction fuel as [|fuel IH]; intros lastError w; cbn [Retry.retryLoop];
    (destruct (9007199254740992 <=? maxAttempts)%Z eqn:E;
     [|apply Z.leb_gt in E; lia]).
  - reflexivity.
  - destruct (Hfn w) as (m & w' & ->). cbn [Retry.toError].
    destruct (9007199254740992 <? maxAttempts)%Z eqn:E2;
      [|apply Z.ltb_ge in E2; lia].
    change (Retry.increment 9007199254740992) with 9007199254740992%Z.
    now rewrite IH.
Qed.

(** ** Backing off *)

Lemma ltb_leb (x y : float) :
  (x <? y)%float = true -> (x <=? y)%float = true.
Proof.
  rewrite FloatAxioms.ltb_spec, FloatAxioms.leb_spec.
  unfold SpecFloat.SFltb, SpecFloat.SFleb.
  now destruct (SpecFloat.SFcompare (Prim2SF x) (Prim2SF y)) as [[]|].
Qed.

Lemma leb_refl (x : float) :
  PrimFloat.is_nan x = false -> (x <=? x)%float = true.
Proof.
  intros H. apply not_nan_spec in H.
  rewrite FloatAxioms.leb_spec. unfold SpecFloat.SFleb.
  now rewrite SFcompare_refl.
Qed.

Lemma mathMin_capped (x cap : float) :
  PrimFloat.is_nan (Retry.mathMin x cap) = true
  \/ (Retry.mathMin x cap <=? cap)%float = true.
Proof.
  unfold Retry.mathMin.
  destruct (PrimFloat.is_nan x) eqn:Hx; [left; reflexivity|].
  destruct (PrimFloat.is_nan cap) eqn:Hc; [left; reflexivity|].
  cbn [orb]. right.
  destruct (x <? cap)%float eqn:E1; [now apply ltb_leb|].
  destruct (cap <? x)%float eqn:E2; [now apply leb_refl|].
  destruct (PrimFloat.get_sign x); [|now apply leb_refl].
  rewrite (ltb_negb_leb cap x Hc Hx) in E2.
  now apply negb_false_iff in E2.
Qed.

Lemma backoffChain_capped (multiplier cap : Js.number)
    (delays : list Js.number) :
  backoffChain multiplier cap delays ->
  Forall (fun d => PrimFloat.is_nan d = true \/ (d <=? cap)%float = true)
         (tl delays).
Proof.
  induction delays as [|d rest IH]; [constructor|].
  destruct rest as [|d' rest']; [constructor|].
  intros [Hd Hrest]. cbn [tl]. constructor.
  - rewrite Hd. apply mathMin_capped.
  - apply (IH Hrest).
Qed.

Section BackoffLoop.
Context {W T : Type} (fn : Retry.Fn W T) (maxAttempts : Z)
  (maxDelayMs multiplier : Js.number).
Hypothesis Hmax : (maxAttempts < 9007199254740992)%Z.

Lemma backoffLoop_facts (fuel : nat) :
  forall (attempt : Z) (delay : Js.number)
         (lastError : option Retry.Thrown) (w : W),
    Z.to_nat (maxAttempts - attempt + 1) <= fuel ->
    let run :=
      Retry.backoffLoop fn maxAttempts maxDelayMs multiplier fuel attempt
        delay lastError w in
    run <> Retry.OutOfFuel
    /\ Retry.calls (Retry.eventsOf run)
       <= Z.to_nat (maxAttempts - attempt + 1)
    /\ ((attempt <= maxAttempts)%Z -> 1 <= Retry.calls (Retry.eventsOf run))
    /\ List.length (Retry.sleeps (Retry.eventsOf run))
       <= Retry.calls (Retry.eventsOf run) - 1
    /\ (Retry.sleeps (Retry.eventsOf run) = []
        \/ exists rest, Retry.sleeps (Retry.eventsOf run) = delay :: rest)
    /\ backoffChain multiplier maxDelayMs (Retry.sleeps (Retry.eventsOf run))
    /\ (forall v w' events,
          run = Retry.Finished (Retry.Resolved v) w' events ->
          List.length (Retry.sleeps events) + 1 = Retry.calls events)
    /\ (forall e w' events,
          run = Retry.Finished (Retry.Rejected e) w' events ->
          (Retry.calls events = Z.to_nat (maxAttempts - attempt + 1)
           /\ ((lastError = None
                \/ exists m, lastError = Some (Retry.ErrorObject m)) ->
               exists m, e = Retry.ErrorObject m))
          \/ exists w0 w1,
               fn w0 = Some (Retry.Rejected (Retry.Unconvertible e), w1))
    /\ ((forall w0, fn w0 <> None) ->
        exists r w' events, run = Retry.Finished r w' events).
Proof.
  induction fuel as [|fuel IH]; intros attempt delay lastError w Hfuel;
    cbn [Retry.backoffLoop];
    destruct (attempt <=? maxAttempts)%Z eqn:E.
  - apply Z.leb_le in E. lia.
  - apply Z.leb_gt in E.
    cbn [Retry.eventsOf Retry.calls Retry.sleeps List.length].
    split; [discriminate|]. split; [lia|]. split; [lia|]. split; [lia|].
    split; [now left|]. split; [exact I|]. split; [discriminate|].
    split; [|eauto].
    intros e w' events H. injection H as <- <- <-. left.
    split; [cbn; lia|]. intros [Hl|(m & Hl)]; rewrite Hl; eauto.
  - apply Z.leb_le in E.
    destruct (fn w) as [[[v|t] w1]|] eqn:Hfn.
    + cbn [Retry.eventsOf Retry.calls Retry.sleeps List.length].
      split; [discriminate|]. split; [lia|]. split; [lia|]. split; [lia|].
      split; [now left|]. split; [exact I|].
      split; [intros v' w' events H; injection H as <- <- <-; reflexivity|].
      split; [discriminate|eauto].
    + destruct (Retry.toError t) as [kept|thrown] eqn:Hto.
      2:{ cbn [Retry.eventsOf Retry.calls Retry.sleeps List.length].
          split; [discriminate|]. split; [lia|]. split; [lia|].
          split; [lia|]. split; [now left|]. split; [exact I|].
          split; [discriminate|].
          split; [|eauto].
          intros e w' events H. injection H as <- <- <-. right.
          apply toError_threw in Hto. subst t. eauto. }
      destruct (toError_kept _ _ Hto) as (mk & Hk).
      rewrite (increment_exact attempt maxAttempts Hmax E).
      destruct (attempt <? maxAttempts)%Z eqn:E2.
      * apply Z.ltb_lt in E2.
        destruct (IH (attempt + 1)%Z
                    (Retry.mathMin (delay * multiplier)%float maxDelayMs)
                    (Some kept) w1 ltac:(lia))
          as (Hne & Hc & H1 & Hs & Hh & Hch & Hres & Hrej & Hfin).
        specialize (H1 ltac:(lia)).
        destruct (Retry.backoffLoop fn maxAttempts maxDelayMs multiplier
                    fuel (attempt + 1)
                    (Retry.mathMin (delay * multiplier)%float maxDelayMs)
                    (Some kept) w1)
          as [r w3 events|events|]; [| |congruence];
          cbn [Retry.after Retry.eventsOf Retry.calls Retry.sleeps
               List.length app] in *.
        -- split; [discriminate|]. split; [lia|]. split; [lia|].
           split; [lia|]. split; [right; eauto|].
           split.
           { destruct Hh as [Hh|(rest & Hh)]; rewrite Hh in *; cbn; auto. }
           split.
           { intros v w' ev H. injection H as -> <- <-.
             cbn [Retry.calls Retry.sleeps List.length].
             specialize (Hres v w3 events eq_refl). lia. }
           split; [|eauto].
           intros e w' ev H. injection H as -> <- <-.
           cbn [Retry.calls].
           destruct (Hrej e w3 events eq_refl)
             as [(Hn & He)|Hu]; [left|right; exact Hu].
           split; [lia|]. intros _. apply He. right. subst kept. eauto.
        -- split; [discriminate|]. split; [lia|]. split; [lia|].
           split; [lia|]. split; [right; eauto|].
           split.
           { destruct Hh as [Hh|(rest & Hh)]; rewrite Hh in *; cbn; auto. }
           split; [discriminate|]. split; [discriminate|].
           intros Hf. destruct (Hfin Hf) as (? & ? & ? & ?). discriminate.
      * apply Z.ltb_ge in E2.
        destruct (IH (attempt + 1)%Z delay (Some kept) w1 ltac:(lia))
          as (Hne & Hc & H1 & Hs & Hh & Hch & Hres & Hrej & Hfin).
        destruct (Retry.backoffLoop fn maxAttempts maxDelayMs multiplier
                    fuel (attempt + 1) delay (Some kept) w1)
          as [r w3 events|events|]; [| |congruence];
          cbn [Retry.after Retry.eventsOf Retry.calls Retry.sleeps
               List.length app] in *.
        -- split; [discriminate|]. split; [lia|]. split; [lia|].
           split; [lia|]. split; [exact Hh|]. split; [exact Hch|].
           split.
           { intros v w' ev H. injection H as -> <- <-.
             specialize (Hres v w3 events eq_refl). lia. }
           split; [|eauto].
           intros e w' ev H. injection H as -> <- <-.
           cbn [Retry.calls].
           destruct (Hrej e w3 events eq_refl)
             as [(Hn & He)|Hu]; [left|right; exact Hu].
           split; [lia|]. intros _. apply He. right. subst kept. eauto.
        -- split; [discriminate|]. split; [lia|]. split; [lia|].
           split; [lia|]. split; [exact Hh|]. split; [exact Hch|].
           split; [discriminate|]. split; [discriminate|].
           intros Hf. destruct (Hfin Hf) as (? & ? & ? & ?). discriminate.
    + cbn [Retry.eventsOf Retry.calls Retry.sleeps List.length].
      split; [discriminate|]. split; [lia|]. split; [lia|]. split; [lia|].
      split; [now left|]. split; [exact I|].
      split; [discriminate|]. split; [discriminate|].
      intros Hf. exfalso. exact (Hf w Hfn).
  - apply Z.leb_gt in E.
    cbn [Retry.eventsOf Retry.calls Retry.sleeps List.length].
    split; [discriminate|]. split; [lia|]. split; [lia|]. split; [lia|].
    split; [now left|]. split; [exact I|]. split; [discriminate|].
    split; [|eauto].
    intros e w' events H. injection H as <- <- <-. left.
    split; [cbn; lia|]. intros [Hl|(m & Hl)]; rewrite Hl; eauto.
Qed.

End BackoffLoop.

(** X22. [retryWithBackoff] with an integer [maxAttempts] below 2^53,
    looked at for [maxAttempts] iterations or more.  Whether the run ends
    or is stuck behind a call of [fn] that never settles, [fn] is called
    at most [maxAttempts] times and there is no wait after the last call.
    The first wait is [initialDelayMs] as given, above the cap or not;
    each later wait is [Math.min] of the previous wait times the
    multiplier and [maxDelayMs], hence at most [maxDelayMs] unless it is
    NaN.  The run does end when every call of [fn] settles. *)
Theorem backoff_waits :
  forall (W T : Type) (fn : Retry.Fn W T) (options : Retry.BackoffOptions)
         (fuel : nat) (w : W),
    let maxAttempts := Js.nullish (Retry.b_maxAttempts options) 3%Z in
    let initialDelayMs :=
      Js.nullish (Retry.b_initialDelayMs options) 1000%float in
    let maxDelayMs := Js.nullish (Retry.b_maxDelayMs options) 10000%float in
    let multiplier := Js.nullish (Retry.b_multiplier options) 2%float in
    (maxAttempts < 9007199254740992)%Z ->
    Z.to_nat maxAttempts <= fuel ->
    let run := Retry.retryWithBackoff fn options fuel w in
    run <> Retry.OutOfFuel
    /\ Retry.calls (Retry.eventsOf run) <= Z.to_nat maxAttempts
    /\ List.length (Retry.sleeps (Retry.eventsOf run))
       <= Retry.calls (Retry.eventsOf run) - 1
    /\ (Retry.sleeps (Retry.eventsOf run) = []
        \/ exists rest,
             Retry.sleeps (Retry.eventsOf run) = initialDelayMs :: rest)
    /\ backoffChain multiplier maxDelayMs (Retry.sleeps (Retry.eventsOf run))
    /\ Forall (fun d => PrimFloat.is_nan d = true
                        \/ (d <=? maxDelayMs)%float = true)
              (tl (Retry.sleeps (Retry.eventsOf run)))
    /\ ((forall w0, fn w0 <> None) ->
        exists r w' events, run = Retry.Finished r w' events).
Proof.
  intros W T fn options fuel w maxAttempts initialDelayMs maxDelayMs
    multiplier Hmax Hfuel run.
  subst run. unfold Retry.retryWithBackoff.
  fold maxAttempts initialDelayMs maxDelayMs multiplier.
  destruct (backoffLoop_facts fn maxAttempts maxDelayMs multiplier Hmax
              fuel 1%Z initialDelayMs None w ltac:(lia))
    as (Hne & Hc & _ & Hs & Hh & Hch & _ & _ & Hfin).
  split; [exact Hne|]. split; [lia|]. split; [exact Hs|].
  split; [exact Hh|]. split; [exact Hch|].
  split; [now apply backoffChain_capped with (multiplier := multiplier)|].
  exact Hfin.
Qed.

Lemma backoff_waits_witness :
  let run :=
    Retry.retryWithBackoff scripted Retry.noBackoffOptions 3
      [Retry.Rejected (Retry.ErrorObject "down"); Retry.Resolved 7] in
  run <> Retry.OutOfFuel
  /\ (Retry.sleeps (Retry.eventsOf run) = []
      \/ exists rest, Retry.sleeps (Retry.eventsOf run) = 1000%float :: rest).
Proof.
  destruct (backoff_waits (list (Retry.Outcome nat)) nat scripted
              Retry.noBackoffOptions 3
              [Retry.Rejected (Retry.ErrorObject "down"); Retry.Resolved 7])
    as (Hne & _ & _ & Hh & _); [cbn; lia | cbn; lia |].
  split; [exact Hne | exact Hh].
Defined.

(** X23. How [retryWithBackoff] gives up and succeeds.  With
    [maxAttempts] zero or negative it never calls [fn] and rejects with
    the error ['Retry with backoff failed'].  For an integer
    [maxAttempts] below 2^53, a rejection either comes after exactly
    [maxAttempts] calls and carries an [Error] object, or carries what
    [String(error)] threw for a value [fn] rejected with, as after one
    call when the first rejection is with such a value; and when the run
    resolves it has waited exactly once before each call but the
    first. *)
Theorem backoff_outcomes :
  forall (W T : Type) (fn : Retry.Fn W T) (options : Retry.BackoffOptions)
         (fuel : nat) (w : W),
    let maxAttempts := Js.nullish (Retry.b_maxAttempts options) 3%Z in
    ((maxAttempts <= 0)%Z ->
     Retry.retryWithBackoff fn options fuel w
     = Retry.Finished
         (Retry.Rejected (Retry.ErrorObject "Retry with backoff failed"))
         w [])
    /\ ((maxAttempts < 9007199254740992)%Z ->
        Z.to_nat maxAttempts <= fuel ->
        forall e w' events,
          Retry.retryWithBackoff fn options fuel w
          = Retry.Finished (Retry.Rejected e) w' events ->
          (Retry.calls events = Z.to_nat maxAttempts
           /\ exists m, e = Retry.ErrorObject m)
          \/ exists w0 w1,
               fn w0 = Some (Retry.Rejected (Retry.Unconvertible e), w1))
    /\ (forall t w',
          (1 <= maxAttempts)%Z -> 1 <= fuel ->
          fn w = Some (Retry.Rejected (Retry.Unconvertible t), w') ->
          Retry.retryWithBackoff fn options fuel w
          = Retry.Finished (Retry.Rejected t) w' [Retry.Called 1])
    /\ ((maxAttempts < 9007199254740992)%Z ->
        Z.to_nat maxAttempts <= fuel ->
        forall v w' events,
          Retry.retryWithBackoff fn options fuel w
          = Retry.Finished (Retry.Resolved v) w' events ->
          List.length (Retry.sleeps events) + 1 = Retry.calls events).
Proof.
  intros W T fn options fuel w maxAttempts.
  unfold Retry.retryWithBackoff. fold maxAttempts.
  split; [|split; [|split]].
  - intros Hle. destruct fuel; cbn [Retry.backoffLoop];
      (destruct (1 <=? maxAttempts)%Z eqn:E;
       [apply Z.leb_le in E; lia|reflexivity]).
  - intros Hmax Hfuel e w' events Hrun.
    destruct (backoffLoop_facts fn maxAttempts
                (Js.nullish (Retry.b_maxDelayMs options) 10000%float)
                (Js.nullish (Retry.b_multiplier options) 2%float) Hmax
                fuel 1%Z
                (Js.nullish (Retry.b_initialDelayMs options) 1000%float)
                None w ltac:(lia))
      as (_ & _ & _ & _ & _ & _ & _ & Hrej & _).
    destruct (Hrej e w' events Hrun) as [(Hn & He)|Hu];
      [left|right; exact Hu].
    split; [lia|]. apply He. now left.
  - intros t w' Hge Hfuel Hfn.
    destruct fuel as [|fuel]; [lia|]. cbn [Retry.backoffLoop].
    destruct (1 <=? maxAttempts)%Z eqn:E; [|apply Z.leb_gt in E; lia].
    now rewrite Hfn.
  - intros Hmax Hfuel v w' events Hrun.
    destruct (backoffLoop_facts fn maxAttempts
                (Js.nullish (Retry.b_maxDelayMs options) 10000%float)
                (Js.nullish (Retry.b_multiplier options) 2%float) Hmax
                fuel 1%Z
                (Js.nullish (Retry.b_initialDelayMs options) 1000%float)
                None w ltac:(lia))
      as (_ & _ & _ & _ & _ & _ & Hres & _ & _).
    exact (Hres v w' events Hrun).
Qed.

Lemma backoff_outcomes_witness :
  Retry.retryWithBackoff scripted
    {| Retry.b_maxAttempts := Some 0%Z; Retry.b_initialDelayMs := None;
       Retry.b_maxDelayMs := None; Retry.b_multiplier := None |}
    3 [Retry.Resolved 7]
  = Retry.Finished
      (Retry.Rejected (Retry.ErrorObject "Retry with backoff failed"))
      [Retry.Resolved 7] [].
Proof.
  destruct (backoff_outcomes (list (Retry.Outcome nat)) nat scripted
              {| Retry.b_maxAttempts := Some 0%Z;
                 Retry.b_initialDelayMs := None;
                 Retry.b_maxDelayMs := None; Retry.b_multiplier := None |}
              3 [Retry.Resolved 7]) as (H & _).
  apply H. cbn. lia.
Defined.

(** An initial delay above the cap is waited in full; the cap takes hold
    from the second wait on. *)
Example backoff_first_wait_above_cap :
  Retry.sleeps
    (Retry.eventsOf
       (Retry.retryWithBackoff scripted
          {| Retry.b_maxAttempts := Some 4%Z;
             Retry.b_initialDelayMs := Some 20000%float;
             Retry.b_maxDelayMs := Some 5000%float;
             Retry.b_multiplier := None |}
          4
          [Retry.Rejected (Retry.ErrorObject "a");
           Retry.Rejected (Retry.ErrorObject "b");
           Retry.Rejected (Retry.ErrorObject "c");
           Retry.Rejected (Retry.ErrorObject "d")]))
  = [20000%float; 5000%float; 5000%float].
Proof. reflexivity. Qed.
